(** * Competitor-analysis report generator: parser, renderer and batch
      orchestrator

    A shallow embedding of [services/html_generator.py],
    [agents/schemas.py] (the page template),
    [pipelines/competitor_pipeline.py] and the loop of [main.py] that reads
    the file of companies, followed by the properties the specification
    states about them and by further properties of the same code.

    Python [str] values are carried as [string], holding the UTF-8 encoding
    of the text; operations that count characters ([s[:500]], iteration over
    a [str]) work on code points, not on bytes. *)

From Stdlib Require Import String Ascii List ZArith Lia Bool Arith.
From Stdlib Require Import DecimalString.
From Stdlib Require SpecFloat.
Import ListNotations.
Open Scope string_scope.

(* ===================================================================== *)
(** * Python strings *)
(* ===================================================================== *)

Module PyStr.

(** The double quote, and [q], which turns the stand-in [^] of a literal
    into a double quote: [q "a ^b^"] is the text [a "b"]. *)
Definition dquote : ascii := "034"%char.

Fixpoint q (s : string) : string :=
  match s with
  | EmptyString => EmptyString
  | String c s' => String (if Ascii.eqb c "^"%char then dquote else c) (q s')
  end.

Fixpoint drop (n : nat) (s : string) : string :=
  match n, s with
  | O, _ => s
  | S _, EmptyString => EmptyString
  | S n', String _ s' => drop n' s'
  end.

Fixpoint rev_onto (s acc : string) : string :=
  match s with
  | EmptyString => acc
  | String c s' => rev_onto s' (String c acc)
  end.

Definition rev (s : string) : string := rev_onto s EmptyString.

(** [sub in s] *)
Fixpoint py_in (sub s : string) : bool :=
  if prefix sub s then true
  else match s with
       | EmptyString => false
       | String _ s' => py_in sub s'
       end.

(** [s.split(sep)] for a non-empty [sep]: the pieces between the
    non-overlapping occurrences of [sep], scanned from the left. *)
Fixpoint split_go (sep : string) (fuel : nat) (acc s : string) : list string :=
  match fuel with
  | O => [rev acc]
  | S fuel' =>
      match s with
      | EmptyString => [rev acc]
      | String c s' =>
          if prefix sep s
          then rev acc :: split_go sep fuel' EmptyString (drop (String.length sep) s)
          else split_go sep fuel' (String c acc) s'
      end
  end.

Definition py_split (sep s : string) : list string :=
  split_go sep (S (String.length s)) EmptyString s.

(** The characters for which [str.isspace] holds, UTF-8 encoded:
    U+0009..U+000D, U+001C..U+0020, U+0085, U+00A0, U+1680,
    U+2000..U+200A, U+2028, U+2029, U+202F, U+205F, U+3000. *)
Definition bytes (l : list nat) : string :=
  string_of_list_ascii (map ascii_of_nat l).

Definition whitespace : list string :=
  map bytes
    [ [9]; [10]; [11]; [12]; [13]; [28]; [29]; [30]; [31]; [32];
      [194; 133]; [194; 160]; [225; 154; 128];
      [226; 128; 128]; [226; 128; 129]; [226; 128; 130]; [226; 128; 131];
      [226; 128; 132]; [226; 128; 133]; [226; 128; 134]; [226; 128; 135];
      [226; 128; 136]; [226; 128; 137]; [226; 128; 138];
      [226; 128; 168]; [226; 128; 169]; [226; 128; 175];
      [226; 129; 159]; [227; 128; 128] ].

(** Length of the whitespace character [s] starts with, if any. *)
Definition leading_space (ws : list string) (s : string) : option nat :=
  option_map String.length (find (fun w => prefix w s) ws).

Fixpoint lstrip_go (ws : list string) (fuel : nat) (s : string) : string :=
  match fuel with
  | O => s
  | S fuel' =>
      match leading_space ws s with
      | Some n => lstrip_go ws fuel' (drop n s)
      | None => s
      end
  end.

Definition py_lstrip (s : string) : string :=
  lstrip_go whitespace (String.length s) s.

Definition py_rstrip (s : string) : string :=
  rev (lstrip_go (map rev whitespace) (String.length s) (rev s)).

(** [s.strip()] *)
Definition py_strip (s : string) : string := py_rstrip (py_lstrip s).

(** UTF-8 continuation bytes are [10xxxxxx]. *)
Definition is_continuation (c : ascii) : bool :=
  let n := nat_of_ascii c in (Nat.leb 128 n && Nat.ltb n 192)%bool.

(** The characters (code points) of a string, each as its own string. *)
Fixpoint chars_go (cur : string) (s : string) : list string :=
  match s with
  | EmptyString => [rev cur]
  | String c s' =>
      if is_continuation c then chars_go (String c cur) s'
      else rev cur :: chars_go (String c EmptyString) s'
  end.

Definition py_chars (s : string) : list string :=
  match s with
  | EmptyString => []
  | String c s' => chars_go (String c EmptyString) s'
  end.

(** [s[:n]] *)
Definition py_take (n : nat) (s : string) : string :=
  String.concat "" (firstn n (py_chars s)).

(** [str(z)] for an [int] *)
Definition str_of_Z (z : Z) : string := NilZero.string_of_int (Z.to_int z).

Definition str_of_nat (n : nat) : string := str_of_Z (Z.of_nat n).

(** [c * n] for a string [c] *)
Fixpoint repeat_str (c : string) (n : nat) : string :=
  match n with
  | O => EmptyString
  | S n' => c ++ repeat_str c n'
  end.

Definition nl : string := String "010"%char EmptyString.

End PyStr.
Import PyStr.


(* ===================================================================== *)
(** * Python values, exceptions and results *)
(* ===================================================================== *)

(** What [json.loads] returns: [None], [bool], [int], [float], [str], [list]
    and [dict]. A [float] is carried as a numeric literal denoting it; the
    two places where the renderer observes one (truth value and [str()])
    go through the [Runtime] interface below. A [dict] is the list of its
    items in insertion order. *)
Unset Elimination Schemes.
Inductive json : Type :=
| JNull
| JBool (b : bool)
| JInt (z : Z)
| JFloat (lit : string)
| JStr (s : string)
| JList (items : list json)
| JObj (items : list (string * json)).
Set Elimination Schemes.

(** The exception classes the program meets. [JSONDecodeError] is a subclass
    of [ValueError]; [OtherError] stands for the classes of exceptions
    raised by the generation service. Every class here derives from
    [Exception]. *)
Inductive exn_class : Type :=
| ValueError
| JSONDecodeError
| AttributeError
| TypeError
| KeyError
| IndexError
| ZeroDivisionError
| OtherError (name : string).

(** An exception: its class and what [str(e)] returns. *)
Record exn : Type := Exn { exn_cls : exn_class; exn_str : string }.

Inductive result (A : Type) : Type :=
| Ok (a : A)
| Raise (e : exn).
Arguments Ok {A} a.
Arguments Raise {A} e.

Definition bind {A B : Type} (c : result A) (k : A -> result B) : result B :=
  match c with
  | Ok a => k a
  | Raise e => Raise e
  end.

Declare Scope py_scope.
Delimit Scope py_scope with py.
Notation "x <- c ;; k" := (bind c (fun x => k))
  (at level 61, c at next level, right associativity) : py_scope.
Open Scope py_scope.

(** [issubclass(c, json.JSONDecodeError)], the test of
    [except json.JSONDecodeError]. *)
Definition is_JSONDecodeError (c : exn_class) : bool :=
  match c with
  | JSONDecodeError => true
  | _ => false
  end.

(** The parts of the interpreter and of its [json] module that the program
    calls and the embedding does not define: the decoder, whether a float is
    zero, whether a float equals another value, and the [repr] of floats and
    containers. *)
Class Runtime : Type := {
  json_loads : string -> result json;
  float_is_zero : string -> bool;
  float_eqb : string -> json -> bool;
  py_repr : json -> string
}.

(** ** Dictionaries in insertion order *)

Section Dict.
Context {K V : Type} (eqb : K -> K -> bool).

Fixpoint dict_get (k : K) (d : list (K * V)) : option V :=
  match d with
  | [] => None
  | (k', v) :: d' => if eqb k k' then Some v else dict_get k d'
  end.

(** [d[k] = v]: replaces the value of an existing key in place, appends a
    new key. *)
Fixpoint dict_set (k : K) (v : V) (d : list (K * V)) : list (K * V) :=
  match d with
  | [] => [(k, v)]
  | (k', v') :: d' =>
      if eqb k k' then (k', v) :: d' else (k', v') :: dict_set k v d'
  end.

Definition dict_keys (d : list (K * V)) : list K := map fst d.
End Dict.

Section Values.
Context {rt : Runtime}.

(** [type(v).__name__] *)
Definition type_name (v : json) : string :=
  match v with
  | JNull => "NoneType"
  | JBool _ => "bool"
  | JInt _ => "int"
  | JFloat _ => "float"
  | JStr _ => "str"
  | JList _ => "list"
  | JObj _ => "dict"
  end.

Definition no_attribute (v : json) (attr : string) : exn :=
  Exn AttributeError
      ("'" ++ type_name v ++ "' object has no attribute '" ++ attr ++ "'").

Definition not_iterable (v : json) : exn :=
  Exn TypeError ("'" ++ type_name v ++ "' object is not iterable").

(** [bool(v)] *)
Definition truthy (v : json) : bool :=
  match v with
  | JNull => false
  | JBool b => b
  | JInt z => negb (Z.eqb z 0)
  | JFloat lit => negb (float_is_zero lit)
  | JStr s => negb (String.eqb s "")
  | JList l => match l with [] => false | _ => true end
  | JObj kv => match kv with [] => false | _ => true end
  end.

(** [a == b] between dictionary keys: numbers compare by value, so that
    [True], [1] and [1.0] are one key. *)
Definition int_value (v : json) : Z :=
  match v with
  | JBool true => 1
  | JInt z => z
  | _ => 0
  end.

Definition key_eqb (a b : json) : bool :=
  match a, b with
  | JNull, JNull => true
  | JStr s, JStr t => String.eqb s t
  | JFloat x, _ => float_eqb x b
  | _, JFloat y => float_eqb y a
  | (JBool _ | JInt _), (JBool _ | JInt _) => Z.eqb (int_value a) (int_value b)
  | _, _ => false
  end.

(** [d[k] = v] on a dictionary keyed by decoded values: lists and
    dictionaries are not hashable. *)
Definition set_item {V : Type} (k : json) (v : V) (d : list (json * V))
  : result (list (json * V)) :=
  match k with
  | JList _ | JObj _ =>
      Raise (Exn TypeError ("unhashable type: '" ++ type_name k ++ "'"))
  | _ => Ok (dict_set key_eqb k v d)
  end.

(** [v or d] *)
Definition py_or (v d : json) : json := if truthy v then v else d.

(** [str(v)], which is also how an f-string or [str.format] inserts [v] *)
Definition py_str (v : json) : string :=
  match v with
  | JNull => "None"
  | JBool true => "True"
  | JBool false => "False"
  | JInt z => str_of_Z z
  | JStr s => s
  | JFloat _ | JList _ | JObj _ => py_repr v
  end.

(** [v.get(key, default)] *)
Definition py_get (v : json) (key : string) (default : json) : result json :=
  match v with
  | JObj kv =>
      Ok (match dict_get String.eqb key kv with
          | Some x => x
          | None => default
          end)
  | _ => Raise (no_attribute v "get")
  end.

(** The elements [for x in v] visits: the items of a list, the keys of a
    dict, the characters of a string. *)
Definition py_iter (v : json) : result (list json) :=
  match v with
  | JList l => Ok l
  | JObj kv => Ok (map (fun p => JStr (fst p)) kv)
  | JStr s => Ok (map JStr (py_chars s))
  | _ => Raise (not_iterable v)
  end.

(** [v.values()] *)
Definition py_values (v : json) : result (list json) :=
  match v with
  | JObj kv => Ok (map snd kv)
  | _ => Raise (no_attribute v "values")
  end.

(** A loop [for x in xs: html += body(x)], stopping at the first
    exception. *)
Fixpoint for_append (body : json -> result string) (xs : list json)
         (html : string) : result string :=
  match xs with
  | [] => Ok html
  | x :: xs' => piece <- body x ;; for_append body xs' (html ++ piece)
  end.

(** A comprehension [[body(x) for x in xs]] *)
Fixpoint comprehension (body : json -> result string) (xs : list json)
  : result (list string) :=
  match xs with
  | [] => Ok []
  | x :: xs' =>
      piece <- body x ;; rest <- comprehension body xs' ;; Ok (piece :: rest)
  end.

End Values.

(* ===================================================================== *)
(** * The page template ([agents/schemas.py]) and [str.format] *)
(* ===================================================================== *)

Definition HTML_TEMPLATE : string := q "
<!DOCTYPE html>
<html lang=^en^>
<head>
    <meta charset=^UTF-8^>
    <meta name=^viewport^ content=^width=device-width, initial-scale=1.0^>
    <title>Competitor Analysis - {company_name}</title>
    <style>
        * {{ margin: 0; padding: 0; box-sizing: border-box; }}
        body {{ 
            font-family: 'Segoe UI', Tahoma, Geneva, Verdana, sans-serif; 
            line-height: 1.6; 
            max-width: 1200px; 
            margin: 0 auto; 
            padding: 20px; 
            background-color: #f5f5f5; 
        }}
        .header {{ 
            background: linear-gradient(135deg, #667eea 0%, #764ba2 100%); 
            color: white; 
            padding: 40px 30px; 
            border-radius: 10px; 
            margin-bottom: 30px; 
            box-shadow: 0 4px 6px rgba(0,0,0,0.1);
        }}
        .header h1 {{ font-size: 2.5em; margin-bottom: 10px; }}
        .header h2 {{ font-size: 1.8em; margin: 15px 0; border: none; color: white; }}
        .header a {{ color: white; text-decoration: underline; }}
        .section {{ 
            background: white; 
            padding: 30px; 
            margin-bottom: 20px; 
            border-radius: 8px; 
            box-shadow: 0 2px 4px rgba(0,0,0,0.1); 
        }}
        h2 {{ 
            color: #667eea; 
            border-bottom: 3px solid #667eea; 
            padding-bottom: 10px; 
            margin-bottom: 20px;
        }}
        h3 {{ color: #764ba2; margin: 20px 0 10px 0; }}
        .grid {{ 
            display: grid; 
            grid-template-columns: repeat(auto-fit, minmax(280px, 1fr)); 
            gap: 20px; 
            margin: 20px 0;
        }}
        .card {{ 
            background: #f8f9fa; 
            padding: 20px; 
            border-radius: 8px; 
            border-left: 4px solid #667eea; 
            transition: transform 0.2s;
        }}
        .card:hover {{ transform: translateY(-2px); box-shadow: 0 4px 8px rgba(0,0,0,0.1); }}
        .tag {{ 
            display: inline-block; 
            background: #667eea; 
            color: white; 
            padding: 6px 12px; 
            border-radius: 20px; 
            margin: 5px; 
            font-size: 0.9em; 
        }}
        .list-item {{ 
            background: #f8f9fa; 
            padding: 15px; 
            margin: 10px 0; 
            border-radius: 5px; 
            border-left: 4px solid #28a745;
        }}
        .weakness {{ border-left-color: #dc3545; }}
        .news-item {{ 
            background: #fff9e6; 
            border-left: 4px solid #ffc107; 
            padding: 20px; 
            margin: 15px 0; 
            border-radius: 5px; 
        }}
        .news-item h3 {{ margin-top: 0; }}
        .meta {{ opacity: 0.9; font-size: 0.95em; }}
    </style>
</head>
<body>
    <div class=^header^>
        <h1>🔍 Competitor Analysis Report</h1>
        <h2>{company_name}</h2>
        <div class=^meta^>
            <p><strong>Website:</strong> <a href=^{website}^ target=^_blank^>{website}</a></p>
            <p><strong>Analysis Date:</strong> {analysis_date}</p>
        </div>
    </div>

    <div class=^section^>
        <h2>📋 Company Overview</h2>
        <p><strong>Description:</strong> {description}</p>
        <div class=^grid^>
            <div class=^card^>
                <h3>🏢 Founded</h3>
                <p>{founded_year}</p>
            </div>
            <div class=^card^>
                <h3>📍 Headquarters</h3>
                <p>{headquarters}</p>
            </div>
            <div class=^card^>
                <h3>👥 Company Size</h3>
                <p>{size}</p>
            </div>
        </div>
    </div>

    <div class=^section^>
        <h2>🛍️ Products & Services</h2>
        {products_html}
    </div>

    <div class=^section^>
        <h2>📊 Market Position</h2>
        <p><strong>Target Market:</strong> {target_market}</p>
        <p><strong>Market Share:</strong> {market_share}</p>
        <h3>Key Competitors</h3>
        <div>
            {competitors_html}
        </div>
    </div>

    <div class=^section^>
        <h2>⚡ SWOT Analysis</h2>
        <div class=^grid^>
            <div>
                <h3>💪 Strengths</h3>
                {strengths_html}
            </div>
            <div>
                <h3>⚠️ Weaknesses</h3>
                {weaknesses_html}
            </div>
        </div>
    </div>

    <div class=^section^>
        <h2>📰 Recent News & Updates</h2>
        {news_html}
    </div>

    <div class=^section^>
        <h2>💻 Technology & Pricing</h2>
        <p><strong>Pricing Model:</strong> {pricing_model}</p>
        <h3>Technology Stack</h3>
        <div>
            {tech_html}
        </div>
    </div>

    <div class=^section^>
        <h2>🌐 Social Media Presence</h2>
        {social_html}
    </div>
</body>
</html>
".

(** A format string is literal text and replacement fields. The fields of
    the templates of this program are plain names, so a field is read up to
    its closing brace. *)
Inductive segment : Type :=
| Lit (text : string)
| Field (name : string).

Definition lbrace : ascii := "{"%char.
Definition rbrace : ascii := "}"%char.

(** [field] holds the name being read inside a replacement field, [lit] the
    literal text read since the last field, both reversed. *)
Fixpoint parse_format_go (field : option string) (lit : string) (s : string)
  : result (list segment) :=
  match field with
  | Some name =>
      match s with
      | EmptyString =>
          Raise (Exn ValueError "expected '}' before end of string")
      | String c s' =>
          if Ascii.eqb c rbrace
          then segs <- parse_format_go None EmptyString s' ;;
               Ok (Field (rev name) :: segs)
          else parse_format_go (Some (String c name)) lit s'
      end
  | None =>
      match s with
      | EmptyString => Ok [Lit (rev lit)]
      | String c s' =>
          if Ascii.eqb c lbrace then
            match s' with
            | EmptyString =>
                Raise (Exn ValueError "Single '{' encountered in format string")
            | String c' s'' =>
                if Ascii.eqb c' lbrace
                then parse_format_go None (String lbrace lit) s''
                else segs <- parse_format_go (Some EmptyString) EmptyString s' ;;
                     Ok (Lit (rev lit) :: segs)
            end
          else if Ascii.eqb c rbrace then
            match s' with
            | EmptyString =>
                Raise (Exn ValueError "Single '}' encountered in format string")
            | String c' s'' =>
                if Ascii.eqb c' rbrace
                then parse_format_go None (String rbrace lit) s''
                else Raise (Exn ValueError
                                "Single '}' encountered in format string")
            end
          else parse_format_go None (String c lit) s'
      end
  end.

Definition parse_format (s : string) : result (list segment) :=
  parse_format_go None EmptyString s.

Section Format.
Context {rt : Runtime}.

(** Fill the fields from the keyword arguments, left to right. *)
Fixpoint fill (kwargs : list (string * json)) (segs : list segment)
  : result string :=
  match segs with
  | [] => Ok EmptyString
  | Lit text :: segs' => rest <- fill kwargs segs' ;; Ok (text ++ rest)
  | Field name :: segs' =>
      match dict_get String.eqb name kwargs with
      | Some v => rest <- fill kwargs segs' ;; Ok (py_str v ++ rest)
      | None => Raise (Exn KeyError ("'" ++ name ++ "'"))
      end
  end.

(** [template.format] applied to keyword arguments *)
Definition py_format (template : string) (kwargs : list (string * json))
  : result string :=
  segs <- parse_format template ;; fill kwargs segs.
End Format.

(** The template, parsed once. *)
Definition HTML_TEMPLATE_segments : list segment :=
  Eval vm_compute in
    match parse_format HTML_TEMPLATE with
    | Ok segs => segs
    | Raise _ => []
    end.

(* ===================================================================== *)
(** * The report renderer ([services/html_generator.py]) *)
(* ===================================================================== *)

Section Renderer.
Context {rt : Runtime}.

Definition no_products : string := "<p>No product information available.</p>".
Definition no_competitors : string :=
  "<p>No competitor information available.</p>".
Definition no_information : string := "<p>No information available.</p>".
Definition no_news : string := "<p>No recent news available.</p>".
Definition no_social : string :=
  "<p>No social media information available.</p>".

(** The card of one product, the body of the loop of [_format_products]. *)
Definition product_card (product : json) : result string :=
  name <- py_get product "name" (JStr "N/A") ;;
  category <- py_get product "category" (JStr "N/A") ;;
  description <- py_get product "description"
                        (JStr "No description available") ;;
  Ok (q "
        <div class=^card^>
            <h3>" ++ py_str name ++ "</h3>
            <p><strong>Category:</strong> " ++ py_str category ++ "</p>
            <p>" ++ py_str description ++ "</p>
        </div>
        ").

Definition _format_products (products : json) : result string :=
  if negb (truthy products) then Ok no_products
  else
    items <- py_iter products ;;
    html <- for_append product_card items (q "<div class=^grid^>") ;;
    Ok (html ++ "</div>").

Definition competitor_tag (comp : json) : result string :=
  Ok (q "<span class=^tag^>" ++ py_str comp ++ "</span>").

Definition _format_competitors (competitors : json) : result string :=
  if negb (truthy competitors) then Ok no_competitors
  else
    items <- py_iter competitors ;;
    pieces <- comprehension competitor_tag items ;;
    Ok (String.concat "" pieces).

Definition list_item (css_class : string) (item : json) : result string :=
  Ok (q "<div class=^" ++ css_class ++ q "^>" ++ py_str item ++ "</div>").

Definition _format_list_items (items : json) (css_class : string)
  : result string :=
  if negb (truthy items) then Ok no_information
  else
    xs <- py_iter items ;;
    pieces <- comprehension (list_item css_class) xs ;;
    Ok (String.concat "" pieces).

(** The card of one news item, the body of the loop of [_format_news]. *)
Definition news_card (news : json) : result string :=
  title <- py_get news "title" (JStr "No Title") ;;
  date <- py_get news "date" (JStr "N/A") ;;
  source <- py_get news "source" (JStr "Unknown Source") ;;
  summary <- py_get news "summary" (JStr "No summary available") ;;
  Ok (q "
        <div class=^news-item^>
            <h3>" ++ py_str title ++ q "</h3>
            <p class=^meta^><em>" ++ py_str date ++ " ‚Ä¢ " ++ py_str source
        ++ "</em></p>
            <p>" ++ py_str summary ++ "</p>
        </div>
        ").

Definition _format_news (news_items : json) : result string :=
  if negb (truthy news_items) then Ok no_news
  else
    items <- py_iter news_items ;;
    for_append news_card items EmptyString.

Definition tech_tag (item : json) : result string :=
  Ok (q "<span class=^tag^>" ++ py_str item ++ "</span>").

Definition _format_tags (items : json) : result string :=
  if negb (truthy items) then Ok no_information
  else
    xs <- py_iter items ;;
    pieces <- comprehension tech_tag xs ;;
    Ok (String.concat "" pieces).

(** The [platforms] table of [_format_social_media]: key, name, emoji. *)
Definition platforms : list (string * (string * string)) :=
  [ ("linkedin", ("LinkedIn", "üíº"));
    ("twitter", ("Twitter/X", "üê¶"));
    ("facebook", ("Facebook", "üìò")) ].

Fixpoint social_links (social : json)
         (ps : list (string * (string * string))) (html : string)
  : result string :=
  match ps with
  | [] => Ok html
  | (key, (name, emoji)) :: ps' =>
      url <- py_get social key JNull ;;
      social_links social ps'
        (if truthy url
         then html ++ q "<li style=^margin: 10px 0;^><strong>" ++ emoji ++ " "
                   ++ name ++ q ":</strong> <a href=^" ++ py_str url
                   ++ q "^ target=^_blank^>" ++ py_str url ++ "</a></li>"
         else html)
  end.

Definition _format_social_media (social : json) : result string :=
  if negb (truthy social) then Ok no_social
  else
    values <- py_values social ;;
    if negb (existsb truthy values) then Ok no_social
    else
      html <- social_links social platforms
                           "<ul style='list-style: none; padding: 0;'>" ;;
      Ok (html ++ "</ul>").

(** The keyword arguments [format_html_from_json] passes to the template,
    in the order the source evaluates them. [today] is
    [datetime.now().strftime("%Y-%m-%d")], the default of
    [analysis_date]. *)
Definition template_args (today : string) (data : json)
  : result (list (string * json)) :=
  products <- py_get data "products_services" (JList []) ;;
  products_html <- _format_products products ;;
  market <- py_get data "market_position" (JObj []) ;;
  key_competitors <- py_get market "key_competitors" (JList []) ;;
  competitors_html <- _format_competitors key_competitors ;;
  strengths <- py_get data "strengths" (JList []) ;;
  strengths_html <- _format_list_items strengths "list-item" ;;
  weaknesses <- py_get data "weaknesses" (JList []) ;;
  weaknesses_html <- _format_list_items weaknesses "list-item weakness" ;;
  recent_news <- py_get data "recent_news" (JList []) ;;
  news_html <- _format_news recent_news ;;
  technology_stack <- py_get data "technology_stack" (JList []) ;;
  tech_html <- _format_tags technology_stack ;;
  social <- py_get data "social_media_presence" (JObj []) ;;
  social_html <- _format_social_media social ;;
  company_name <- py_get data "company_name" (JStr "Unknown Company") ;;
  website <- py_get data "website" (JStr "#") ;;
  analysis_date <- py_get data "analysis_date" (JStr today) ;;
  overview1 <- py_get data "overview" (JObj []) ;;
  description <- py_get overview1 "description"
                        (JStr "No description available") ;;
  overview2 <- py_get data "overview" (JObj []) ;;
  founded_year <- py_get overview2 "founded_year" JNull ;;
  overview3 <- py_get data "overview" (JObj []) ;;
  headquarters <- py_get overview3 "headquarters" JNull ;;
  overview4 <- py_get data "overview" (JObj []) ;;
  size <- py_get overview4 "size" JNull ;;
  market1 <- py_get data "market_position" (JObj []) ;;
  target_market <- py_get market1 "target_market" (JStr "N/A") ;;
  market2 <- py_get data "market_position" (JObj []) ;;
  market_share <- py_get market2 "market_share" JNull ;;
  pricing_model <- py_get data "pricing_model" JNull ;;
  Ok [ ("company_name", company_name);
       ("website", website);
       ("analysis_date", analysis_date);
       ("description", description);
       ("founded_year", py_or founded_year (JStr "N/A"));
       ("headquarters", py_or headquarters (JStr "N/A"));
       ("size", py_or size (JStr "N/A"));
       ("products_html", JStr products_html);
       ("target_market", target_market);
       ("market_share", py_or market_share (JStr "N/A"));
       ("competitors_html", JStr competitors_html);
       ("strengths_html", JStr strengths_html);
       ("weaknesses_html", JStr weaknesses_html);
       ("news_html", JStr news_html);
       ("pricing_model", py_or pricing_model (JStr "N/A"));
       ("tech_html", JStr tech_html);
       ("social_html", JStr social_html) ].

Definition format_html_from_json (today : string) (data : json)
  : result string :=
  kwargs <- template_args today data ;;
  py_format HTML_TEMPLATE kwargs.

End Renderer.

(* ===================================================================== *)
(** * The world the pipelines run in *)
(* ===================================================================== *)

(** What the program has done so far: the prompts passed to [runner.run] and
    the lines printed, both oldest first. *)
Record World : Type := mkWorld { sent : list string; stdout : list string }.

Definition initial_world : World := mkWorld [] [].

(** The environment: the outcome of a generation call (the text of the
    response, or the exception the service raises) and the date the clock
    shows, each a function of what happened before. *)
Class Env : Type := {
  runner_run : World -> string -> result string;
  today : World -> string
}.

Definition M (A : Type) : Type := World -> result A * World.

Definition mret {A : Type} (a : A) : M A := fun w => (Ok a, w).

Definition mbind {A B : Type} (c : M A) (k : A -> M B) : M B :=
  fun w =>
    match c w with
    | (Ok a, w') => k a w'
    | (Raise e, w') => (Raise e, w')
    end.

Notation "x <~ c ;; k" := (mbind c (fun x => k))
  (at level 61, c at next level, right associativity) : py_scope.
Notation "c ;;; k" := (mbind c (fun _ => k))
  (at level 61, right associativity) : py_scope.

Definition lift {A : Type} (r : result A) : M A := fun w => (r, w).

Definition raise {A : Type} (e : exn) : M A := fun w => (Raise e, w).

(** [print(line)] *)
Definition print (line : string) : M unit :=
  fun w => (Ok tt, mkWorld (sent w) (stdout w ++ [line])).

(** Runs [c] and hands its outcome, value or exception, to the
    continuation: the [try] of a [try ... except Exception]. *)
Definition attempt {A : Type} (c : M A) : M (result A) :=
  fun w => let (r, w') := c w in (Ok r, w').

Section Pipelines.
Context {rt : Runtime} {env : Env}.

(** [self.runner.run(agent=self.agent, input_text=prompt)], read through
    [response.text] *)
Definition generate (prompt : string) : M string :=
  fun w => (runner_run w prompt, mkWorld (sent w ++ [prompt]) (stdout w)).

(** [datetime.now().strftime("%Y-%m-%d")] *)
Definition read_today : M string := fun w => (Ok (today w), w).

(** [format_html_from_json], with the date it reads *)
Definition render (data : json) : M string :=
  date <~ read_today ;; lift (format_html_from_json date data).

(** [str(name)] for a company name, which is a [str] or [None] *)
Definition name_str (name : option string) : string :=
  match name with
  | Some s => s
  | None => "None"
  end.

(** [bool(name)] *)
Definition name_given (name : option string) : bool :=
  match name with
  | Some s => negb (String.eqb s "")
  | None => false
  end.

(** A company name as a dictionary key *)
Definition name_key (name : option string) : json :=
  match name with
  | Some s => JStr s
  | None => JNull
  end.

Definition rule : string := repeat_str "=" 60.

(** ** [OptimizedCompetitorAnalysisPipeline] *)

Definition _create_prompt (website : string) (name : option string)
  : M string :=
  date <~ read_today ;;
  mret (py_strip ("
Analyze the competitor at: " ++ website ++ "
" ++ (if name_given name then "Company Name: " ++ name_str name else "") ++ "

Search for comprehensive information and return structured JSON data.
Current date: " ++ date ++ "

Focus on gathering accurate, verifiable information from reliable sources.
        ")).

Definition py_index (l : list string) (i : nat) : result string :=
  match nth_error l i with
  | Some x => Ok x
  | None => Raise (Exn IndexError "list index out of range")
  end.

(** The text to decode when the response is not decoded as it is: what
    lies between the first fence marker and the next one, or the whole
    response when it has no fence. Both parsers contain this statement. *)
Definition fenced_text (response_text : string) : result string :=
  if py_in "```json" response_text then
    after <- py_index (py_split "```json" response_text) 1 ;;
    py_index (py_split "```" after) 0
  else if py_in "```" response_text then
    after <- py_index (py_split "```" response_text) 1 ;;
    py_index (py_split "```" after) 0
  else Ok response_text.

(** The inner [try] of [_parse_response] *)
Definition decode_response (response_text : string) : result json :=
  match json_loads response_text with
  | Ok v => Ok v
  | Raise e =>
      if is_JSONDecodeError (exn_cls e) then
        json_text <- fenced_text response_text ;;
        json_loads (py_strip json_text)
      else Raise e
  end.

Definition _parse_response (response_text : string) : M json :=
  r <~ attempt (lift (decode_response response_text)) ;;
  match r with
  | Ok v => mret v
  | Raise e =>
      print ("❌ Error parsing response: " ++ exn_str e) ;;;
      print ("Raw response preview: " ++ py_take 500 response_text ++ "...") ;;;
      raise (Exn ValueError ("Failed to parse agent response: " ++ exn_str e))
  end.

Definition analyze_competitor (company_website : string)
           (company_name : option string) : M string :=
  print (nl ++ rule) ;;;
  print ("🚀 Starting Analysis: "
           ++ (if name_given company_name then name_str company_name
               else company_website)) ;;;
  print "💰 Cost Optimization: 1 LLM call (saves 67% vs traditional)" ;;;
  print (rule ++ nl) ;;;
  prompt <~ _create_prompt company_website company_name ;;
  print "🔍 Running AI analysis with web search..." ;;;
  response <~ generate prompt ;;
  structured_data <~ _parse_response response ;;
  print ("✅ Data collected and structured" ++ nl) ;;;
  print "📄 Generating HTML report (no LLM call)..." ;;;
  html_report <~ render structured_data ;;
  print ("✅ HTML report generated" ++ nl) ;;;
  print rule ;;;
  print "✨ Analysis Complete!" ;;;
  print "💰 Total LLM Calls: 1" ;;;
  print (rule ++ nl) ;;;
  mret html_report.

(** ** [BatchOptimizedPipeline] *)

(** [int(((n - 1) / n) * 100)]. The quotient is computed in exact
    arithmetic. *)
Definition _calculate_savings (num_companies : nat) : result Z :=
  let individual_calls := Z.of_nat num_companies in
  let batch_calls := 1%Z in
  if Z.eqb individual_calls 0
  then Raise (Exn ZeroDivisionError "division by zero")
  else Ok (Z.quot ((individual_calls - batch_calls) * 100) individual_calls).

(** The lines [f"{i+1}. {name} - {url}"], [i] counting from [i0] *)
Fixpoint company_lines (i0 : nat) (companies : list (string * option string))
  : list string :=
  match companies with
  | [] => []
  | (url, name) :: rest =>
      (str_of_nat (i0 + 1) ++ ". " ++ name_str name ++ " - " ++ url)
        :: company_lines (S i0) rest
  end.

Definition _create_batch_prompt (companies : list (string * option string))
  : M string :=
  let companies_list := String.concat nl (company_lines 0 companies) in
  date <~ read_today ;;
  mret (py_strip ("
Analyze these " ++ str_of_nat (List.length companies) ++ " competitors and return a JSON array with complete analysis for each.

Companies to analyze:
" ++ companies_list ++ "

Return a JSON ARRAY (not an object) where each element is a complete competitor analysis.
Each element must follow the exact schema provided in your instructions.

Output format:
[
  {...complete data for company 1...},
  {...complete data for company 2...},
  {...complete data for company 3...}
]

CRITICAL: 
- Output ONLY the JSON array, no markdown, no explanations
- Each company must have complete data
- Maintain consistent structure across all entries

Current date: " ++ date ++ "
        ")).

Definition _parse_batch_response (response_text : string)
  : result (list json) :=
  json_text <- fenced_text response_text ;;
  batch_data <- json_loads (py_strip json_text) ;;
  match batch_data with
  | JList items => Ok items
  | _ => Raise (Exn ValueError "Response is not a JSON array")
  end.

Definition _create_error_report (company_name : option string)
           (error : string) : string :=
  "
        <html>
        <head><title>Analysis Failed - " ++ name_str company_name ++ "</title></head>
        <body>
            <h1>Analysis Failed</h1>
            <p><strong>Company:</strong> " ++ name_str company_name ++ "</p>
            <p><strong>Error:</strong> " ++ error ++ "</p>
        </body>
        </html>
        ".

(** The loop of [_fallback_individual_analysis]; [i] is the position of
    the first company of [companies], counted from 1, and [total] is
    [len(companies)] of the whole list. *)
Fixpoint fallback_loop (total i : nat)
         (companies : list (string * option string))
         (results : list (json * string)) : M (list (json * string)) :=
  match companies with
  | [] => mret results
  | (url, name) :: rest =>
      print (nl ++ "[" ++ str_of_nat i ++ "/" ++ str_of_nat total
                ++ "] Analyzing " ++ name_str name ++ "...") ;;;
      r <~ attempt (analyze_competitor url name) ;;
      match r with
      | Ok html =>
          fallback_loop total (S i) rest
                        (dict_set key_eqb (name_key name) html results)
      | Raise e =>
          print ("❌ Failed: " ++ exn_str e) ;;;
          fallback_loop total (S i) rest
            (dict_set key_eqb (name_key name)
                      (_create_error_report name (exn_str e)) results)
      end
  end.

Definition _fallback_individual_analysis
           (companies : list (string * option string))
  : M (list (json * string)) :=
  print "⚠️ Using fallback: Individual analysis mode" ;;;
  fallback_loop (List.length companies) 1 companies [].

(** The loop over [batch_data] of [analyze_multiple_competitors] *)
Fixpoint batch_loop (batch_data : list json) (results : list (json * string))
  : M (list (json * string)) :=
  match batch_data with
  | [] => mret results
  | data :: rest =>
      company_name <~ lift (py_get data "company_name" (JStr "Unknown")) ;;
      html <~ render data ;;
      results' <~ lift (set_item company_name html results) ;;
      print ("✅ Generated report for " ++ py_str company_name) ;;;
      batch_loop rest results'
  end.

(** [analyze_multiple_competitors] up to and including its generation
    call: the banner, the batch prompt and [runner.run]. *)
Definition request_batch (companies : list (string * option string))
  : M string :=
  let n := List.length companies in
  print (nl ++ rule) ;;;
  print ("🚀 BATCH Analysis for " ++ str_of_nat n ++ " competitors") ;;;
  savings <~ lift (_calculate_savings n) ;;
  print ("💰 Cost Savings: ~" ++ str_of_Z savings ++ "% vs sequential") ;;;
  print (rule ++ nl) ;;;
  batch_prompt <~ _create_batch_prompt companies ;;
  print ("🔍 Running batch AI analysis for all " ++ str_of_nat n
           ++ " companies...") ;;;
  generate batch_prompt.

(** The rest of [analyze_multiple_competitors]: parse the response, fall
    back when parsing raises, otherwise render each element. *)
Definition complete_batch (companies : list (string * option string))
           (response : string) : M (list (json * string)) :=
  let n := List.length companies in
  parsed <~ attempt (lift (_parse_batch_response response)) ;;
  match parsed with
  | Raise e =>
      print ("❌ Batch parsing failed: " ++ exn_str e) ;;;
      print "🔄 Falling back to individual analysis..." ;;;
      _fallback_individual_analysis companies
  | Ok batch_data =>
      results <~ batch_loop batch_data [] ;;
      print (nl ++ rule) ;;;
      print "✨ Batch Analysis Complete!" ;;;
      print ("💰 Total LLM Calls: 1 (for " ++ str_of_nat n ++ " companies!)") ;;;
      savings <~ lift (_calculate_savings n) ;;
      print ("💵 Savings: ~" ++ str_of_Z savings ++ "% vs individual") ;;;
      print (rule ++ nl) ;;;
      mret results
  end.

Definition analyze_multiple_competitors
           (companies : list (string * option string))
  : M (list (json * string)) :=
  response <~ request_batch companies ;;
  complete_batch companies response.

End Pipelines.

(* ===================================================================== *)
(** * A reference runtime *)
(* ===================================================================== *)

(** [json.loads] as CPython 3.11 implements it for a [str] document, with
    the messages and positions of its [JSONDecodeError]; the recursion limit
    of the interpreter and its limit on the digits of an integer are not
    modelled. The properties below hold for every [Runtime]; this one is
    used to evaluate the program on concrete responses. *)
Module CPython.

(** An error: its message and the input left at the reported position. *)
Definition error : Type := (string * string)%type.
Definition parsed (A : Type) : Type := (error + A * string)%type.

Definition is_json_space (c : ascii) : bool :=
  let n := nat_of_ascii c in
  (Nat.eqb n 32 || Nat.eqb n 9 || Nat.eqb n 10 || Nat.eqb n 13)%bool.

Fixpoint skip_space (s : string) : string :=
  match s with
  | EmptyString => EmptyString
  | String c s' => if is_json_space c then skip_space s' else s
  end.

Definition is_digit (c : ascii) : bool :=
  let n := nat_of_ascii c in (Nat.leb 48 n && Nat.leb n 57)%bool.

Definition digit_value (c : ascii) : Z := Z.of_nat (nat_of_ascii c - 48).

(** The longest prefix of digits, reversed, and what follows it. *)
Fixpoint digits_go (acc : string) (s : string) : string * string :=
  match s with
  | String c s' => if is_digit c then digits_go (String c acc) s' else (acc, s)
  | EmptyString => (acc, s)
  end.

Definition digits (s : string) : string * string :=
  let (acc, rest) := digits_go EmptyString s in (rev acc, rest).

Fixpoint Z_of_digits (acc : Z) (ds : string) : Z :=
  match ds with
  | EmptyString => acc
  | String c ds' => Z_of_digits (10 * acc + digit_value c) ds'
  end.

(** Integer part: [0] or a digit from 1 to 9 followed by digits. *)
Definition integer_part (s : string) : option (string * string) :=
  match s with
  | String c s' =>
      if Ascii.eqb c "0"%char then Some ("0", s')
      else if is_digit c then
             let (ds, rest) := digits s' in Some (String c ds, rest)
           else None
  | EmptyString => None
  end.

(** Fraction: a point followed by at least one digit, or nothing. *)
Definition fraction_part (s : string) : string * string :=
  match s with
  | String c s' =>
      if Ascii.eqb c "."%char then
        match digits s' with
        | (EmptyString, _) => (EmptyString, s)
        | (ds, rest) => (String c ds, rest)
        end
      else (EmptyString, s)
  | EmptyString => (EmptyString, s)
  end.

(** Exponent: [e] or [E], an optional sign and at least one digit, or
    nothing. *)
Definition exponent_part (s : string) : string * string :=
  match s with
  | String c s' =>
      if (Ascii.eqb c "e"%char || Ascii.eqb c "E"%char)%bool then
        let (sign, s'') :=
          match s' with
          | String d t =>
              if (Ascii.eqb d "-"%char || Ascii.eqb d "+"%char)%bool
              then (String d EmptyString, t) else (EmptyString, s')
          | EmptyString => (EmptyString, s')
          end in
        match digits s'' with
        | (EmptyString, _) => (EmptyString, s)
        | (ds, rest) => (String c (sign ++ ds), rest)
        end
      else (EmptyString, s)
  | EmptyString => (EmptyString, s)
  end.

(** A number: an [int] when it has neither fraction nor exponent,
    otherwise a [float], kept as its literal. *)
Definition match_number (s : string) : option (json * string) :=
  let (negative, s1) :=
    match s with
    | String c s' => if Ascii.eqb c "-"%char then (true, s') else (false, s)
    | EmptyString => (false, s)
    end in
  match integer_part s1 with
  | None => None
  | Some (int, s2) =>
      let (frac, s3) := fraction_part s2 in
      let (exp, s4) := exponent_part s3 in
      match frac, exp with
      | EmptyString, EmptyString =>
          let z := Z_of_digits 0 int in
          Some (JInt (if negative then (- z)%Z else z), s4)
      | _, _ =>
          Some (JFloat ((if negative then "-" else "") ++ int ++ frac ++ exp),
                s4)
      end
  end.

Definition hex_value (c : ascii) : option N :=
  let n := nat_of_ascii c in
  if (Nat.leb 48 n && Nat.leb n 57)%bool then Some (N.of_nat (n - 48))
  else if (Nat.leb 65 n && Nat.leb n 70)%bool then Some (N.of_nat (n - 55))
  else if (Nat.leb 97 n && Nat.leb n 102)%bool then Some (N.of_nat (n - 87))
  else None.

(** Four hexadecimal digits and what follows them. *)
Definition hex4 (s : string) : option (N * string) :=
  match s with
  | String a (String b (String c (String d rest))) =>
      match hex_value a, hex_value b, hex_value c, hex_value d with
      | Some x, Some y, Some z, Some w =>
          Some ((((x * 16 + y) * 16 + z) * 16 + w)%N, rest)
      | _, _, _, _ => None
      end
  | _ => None
  end.

Definition byte (n : N) : ascii := ascii_of_N n.

(** UTF-8 encoding of a code point (a lone surrogate is encoded like any
    other three-byte code point). *)
Definition utf8 (cp : N) : string :=
  if (cp <? 128)%N then String (byte cp) EmptyString
  else if (cp <? 2048)%N then
    String (byte (192 + cp / 64)) (String (byte (128 + cp mod 64)) EmptyString)
  else if (cp <? 65536)%N then
    String (byte (224 + cp / 4096))
      (String (byte (128 + (cp / 64) mod 64))
         (String (byte (128 + cp mod 64)) EmptyString))
  else
    String (byte (240 + cp / 262144))
      (String (byte (128 + (cp / 4096) mod 64))
         (String (byte (128 + (cp / 64) mod 64))
            (String (byte (128 + cp mod 64)) EmptyString))).

Definition simple_escape (c : ascii) : option ascii :=
  let n := nat_of_ascii c in
  if Nat.eqb n 34 then Some c
  else if Nat.eqb n 92 then Some c
  else if Nat.eqb n 47 then Some c
  else if Nat.eqb n 98 then Some (ascii_of_nat 8)
  else if Nat.eqb n 102 then Some (ascii_of_nat 12)
  else if Nat.eqb n 110 then Some (ascii_of_nat 10)
  else if Nat.eqb n 114 then Some (ascii_of_nat 13)
  else if Nat.eqb n 116 then Some (ascii_of_nat 9)
  else None.

Definition is_high_surrogate (cp : N) : bool :=
  ((55296 <=? cp) && (cp <=? 56319))%N%bool.
Definition is_low_surrogate (cp : N) : bool :=
  ((56320 <=? cp) && (cp <=? 57343))%N%bool.

(** The escape [\uXXXX] whose [u] starts [s]: the code point and what
    follows. The four digits must be followed by one more character at
    least. A high surrogate followed by the escape of a low one makes one
    code point with it; that second escape, too, is read only when a further
    character follows. *)
Definition unicode_escape (s : string) : parsed N :=
  match hex4 (drop 1 s) with
  | Some (cp, String c rest) =>
      let after := String c rest in
      if (is_high_surrogate cp && prefix "\u" after)%bool then
        match hex4 (drop 2 after) with
        | Some (cp2, String d rest2) =>
            if is_low_surrogate cp2
            then inr ((65536 + ((cp - 55296) * 1024 + (cp2 - 56320)))%N,
                      String d rest2)
            else inr (cp, after)
        | _ => inl ("Invalid \uXXXX escape", drop 1 after)
        end
      else inr (cp, after)
  | _ => inl ("Invalid \uXXXX escape", s)
  end.

(** The body of a string, after its opening quote; [begin] is the input
    from that quote on and [acc] the decoded text, reversed. *)
Fixpoint scanstring (fuel : nat) (begin : string) (acc : string) (s : string)
  : parsed string :=
  match fuel with
  | O => inl ("Unterminated string starting at", begin)
  | S fuel' =>
      match s with
      | EmptyString => inl ("Unterminated string starting at", begin)
      | String c s' =>
          if Ascii.eqb c dquote then inr (rev acc, s')
          else if Ascii.eqb c "\"%char then
            match s' with
            | EmptyString => inl ("Unterminated string starting at", begin)
            | String e s'' =>
                if Ascii.eqb e "u"%char then
                  match unicode_escape s' with
                  | inr (cp, rest) =>
                      scanstring fuel' begin (rev_onto (utf8 cp) acc) rest
                  | inl err => inl err
                  end
                else
                  match simple_escape e with
                  | Some d => scanstring fuel' begin (String d acc) s''
                  | None => inl ("Invalid \escape", s)
                  end
            end
          else if Nat.leb (nat_of_ascii c) 31
               then inl ("Invalid control character at", s)
               else scanstring fuel' begin (String c acc) s'
      end
  end.

Inductive task : Type :=
| Value
| Items (acc : list json)
| Members (acc : list (string * json)).

Definition constants : list (string * json) :=
  [ ("null", JNull); ("true", JBool true); ("false", JBool false);
    ("NaN", JFloat "NaN"); ("Infinity", JFloat "Infinity");
    ("-Infinity", JFloat "-Infinity") ].

Definition match_constant (s : string) : option (json * string) :=
  match find (fun p => prefix (fst p) s) constants with
  | Some (name, v) => Some (v, drop (String.length name) s)
  | None => None
  end.

(** What follows [c], when [c] is the first character of [s] after white
    space. *)
Definition next_is (c : ascii) (s : string) : option string :=
  match skip_space s with
  | String x rest => if Ascii.eqb x c then Some rest else None
  | EmptyString => None
  end.

(** [Value] reads one value; [Items acc] reads the rest of an array whose
    next item starts [s]; [Members acc] reads the rest of an object whose
    next key starts [s]. *)
Fixpoint scan (fuel : nat) (t : task) (s : string) : parsed json :=
  match fuel with
  | O => inl ("Expecting value", s)
  | S fuel' =>
      match t with
      | Value =>
          match s with
          | EmptyString => inl ("Expecting value", s)
          | String c s' =>
              if Ascii.eqb c dquote then
                match scanstring (String.length s) s EmptyString s' with
                | inr (str, rest) => inr (JStr str, rest)
                | inl err => inl err
                end
              else if Ascii.eqb c "["%char then
                match next_is "]"%char s' with
                | Some rest => inr (JList [], rest)
                | None => scan fuel' (Items []) (skip_space s')
                end
              else if Ascii.eqb c "{"%char then
                match next_is "}"%char s' with
                | Some rest => inr (JObj [], rest)
                | None => scan fuel' (Members []) (skip_space s')
                end
              else
                match match_constant s with
                | Some r => inr r
                | None =>
                    match match_number s with
                    | Some r => inr r
                    | None => inl ("Expecting value", s)
                    end
                end
          end
      | Items acc =>
          match scan fuel' Value s with
          | inl err => inl err
          | inr (v, rest) =>
              match next_is "]"%char rest with
              | Some rest' => inr (JList (List.rev (v :: acc)), rest')
              | None =>
                  match next_is ","%char rest with
                  | Some rest' =>
                      scan fuel' (Items (v :: acc)) (skip_space rest')
                  | None => inl ("Expecting ',' delimiter", skip_space rest)
                  end
              end
          end
      | Members acc =>
          match s with
          | EmptyString =>
              inl ("Expecting property name enclosed in double quotes", s)
          | String c s' =>
              if Ascii.eqb c dquote then
                match scanstring (String.length s) s EmptyString s' with
                | inl err => inl err
                | inr (key, rest) =>
                    match next_is ":"%char rest with
                    | None => inl ("Expecting ':' delimiter", skip_space rest)
                    | Some rest' =>
                        match scan fuel' Value (skip_space rest') with
                        | inl err => inl err
                        | inr (v, rest2) =>
                            let acc' := dict_set String.eqb key v acc in
                            match next_is "}"%char rest2 with
                            | Some rest3 => inr (JObj acc', rest3)
                            | None =>
                                match next_is ","%char rest2 with
                                | Some rest3 =>
                                    scan fuel' (Members acc') (skip_space rest3)
                                | None =>
                                    inl ("Expecting ',' delimiter",
                                         skip_space rest2)
                                end
                            end
                        end
                    end
                end
              else inl ("Expecting property name enclosed in double quotes", s)
          end
      end
  end.

(** Number of characters (code points) of a string. *)
Definition nchars (s : string) : nat := List.length (py_chars s).

Fixpoint take (n : nat) (s : string) : string :=
  match n, s with
  | S n', String c s' => String c (take n' s')
  | _, _ => EmptyString
  end.

(** The text after the last newline of [s]; [cur] is that text so far,
    reversed. *)
Fixpoint last_line_go (cur : string) (s : string) : string :=
  match s with
  | EmptyString => rev cur
  | String c s' =>
      if Nat.eqb (nat_of_ascii c) 10 then last_line_go EmptyString s'
      else last_line_go (String c cur) s'
  end.

Fixpoint count_newlines (s : string) : nat :=
  match s with
  | EmptyString => O
  | String c s' =>
      (if Nat.eqb (nat_of_ascii c) 10 then 1 else 0) + count_newlines s'
  end.

(** [JSONDecodeError(msg, doc, pos)], [pos] being where [rest] starts *)
Definition decode_error (msg doc rest : string) : exn :=
  let before := take (String.length doc - String.length rest) doc in
  Exn JSONDecodeError
      (msg ++ ": line " ++ str_of_nat (count_newlines before + 1)
           ++ " column " ++ str_of_nat (nchars (last_line_go EmptyString before) + 1)
           ++ " (char " ++ str_of_nat (nchars before) ++ ")").

Definition bom : string := bytes [239; 187; 191].

Definition loads (doc : string) : result json :=
  if prefix bom doc
  then Raise (decode_error "Unexpected UTF-8 BOM (decode using utf-8-sig)"
                           doc doc)
  else
    match scan (2 * String.length doc + 2) Value (skip_space doc) with
    | inl (msg, rest) => Raise (decode_error msg doc rest)
    | inr (v, rest) =>
        match skip_space rest with
        | EmptyString => Ok v
        | rest' => Raise (decode_error "Extra data" doc rest')
        end
    end.

(** ** Floats and [repr] *)

(** A float is an IEEE 754 binary64 number. *)
Definition float : Type := SpecFloat.spec_float.

(** The number of decimal digits of a positive integer *)
Definition decimal_digits (z : Z) : Z := Z.of_nat (String.length (str_of_Z z)).

(** The float nearest to [d * 10 ^ e], for a natural number [d], ties
    going to the even mantissa: the correctly rounded conversion of
    [float()]. A number of 310 digits or more before the point is beyond
    the largest float, and one under 10 ^ -324 is nearer to zero than to
    the least positive float. *)
Definition float_of_decimal (negative : bool) (d e : Z) : float :=
  match d with
  | Z0 => SpecFloat.S754_zero negative
  | Zneg _ => SpecFloat.S754_nan
  | Zpos _ =>
      let n := decimal_digits d in
      if (310 <=? n + e)%Z then SpecFloat.S754_infinity negative
      else if (n + e <=? -324)%Z then SpecFloat.S754_zero negative
      else if (0 <=? e)%Z then
        SpecFloat.binary_normalize 53 1024
          (if negative then - (d * 10 ^ e) else d * 10 ^ e)%Z 0 false
      else
        let '(q, e', l) :=
          SpecFloat.SFdiv_core_binary 53 1024 d 0 (10 ^ (- e))%Z 0 in
        SpecFloat.binary_round_aux 53 1024 negative q e' l
  end.

(** The value of the exponent part of a literal *)
Definition exponent_value (exp : string) : Z :=
  match exp with
  | String _ (String c ds) =>
      if Ascii.eqb c "-"%char then (- Z_of_digits 0 ds)%Z
      else if Ascii.eqb c "+"%char then Z_of_digits 0 ds
      else Z_of_digits 0 (String c ds)
  | _ => 0%Z
  end.

(** The float a literal of the decoder denotes *)
Definition float_of_literal (lit : string) : float :=
  if String.eqb lit "NaN" then SpecFloat.S754_nan
  else if String.eqb lit "Infinity" then SpecFloat.S754_infinity false
  else if String.eqb lit "-Infinity" then SpecFloat.S754_infinity true
  else
    let (negative, s1) :=
      match lit with
      | String c s' => if Ascii.eqb c "-"%char then (true, s') else (false, lit)
      | EmptyString => (false, lit)
      end in
    match integer_part s1 with
    | None => SpecFloat.S754_nan
    | Some (int, s2) =>
        let (frac, s3) := fraction_part s2 in
        let (exp, _) := exponent_part s3 in
        let frac_digits := drop 1 frac in
        float_of_decimal negative
          (Z_of_digits 0 (int ++ frac_digits))
          (exponent_value exp - Z.of_nat (String.length frac_digits))
    end.

(** [bool(x)] is false for the two zeros only. *)
Definition literal_is_zero (lit : string) : bool :=
  match float_of_literal lit with
  | SpecFloat.S754_zero _ => true
  | _ => false
  end.

(** The magnitude of a finite float as a fraction *)
Definition fraction_of (m : positive) (e : Z) : Z * Z :=
  if (0 <=? e)%Z then (Zpos m * 2 ^ e, 1)%Z else (Zpos m, 2 ^ (- e))%Z.

(** [x == z] for an [int] [z]: the comparison is exact. *)
Definition float_eq_int (x : float) (z : Z) : bool :=
  match x with
  | SpecFloat.S754_zero _ => (z =? 0)%Z
  | SpecFloat.S754_finite s m e =>
      let (num, den) := fraction_of m e in
      (num =? den * (if s then - z else z))%Z
  | _ => false
  end.

(** Whether a float is the same dictionary key as another value. Numbers
    are one key when they are equal, whatever their types. The decoder
    returns one object for every [NaN], and a dictionary takes a key that
    is the same object for the same key before it compares with [==]. *)
Definition literal_eqb (lit : string) (v : json) : bool :=
  match v with
  | JFloat lit' =>
      (String.eqb lit "NaN" && String.eqb lit' "NaN"
       || SpecFloat.SFeqb (float_of_literal lit) (float_of_literal lit'))%bool
  | JInt z => float_eq_int (float_of_literal lit) z
  | JBool b => float_eq_int (float_of_literal lit) (if b then 1 else 0)
  | _ => false
  end.

(** The position [k] of the decimal point of a positive fraction:
    10 ^ (k - 1) <= num / den < 10 ^ k *)
Definition decimal_point (num den : Z) : Z :=
  if (den <=? num)%Z then decimal_digits (num / den)
  else
    let dq := decimal_digits (den / num) in
    if (den <=? num * 10 ^ (dq - 1))%Z then (2 - dq)%Z else (1 - dq)%Z.

(** The shortest decimal [d * 10 ^ e] that [float()] reads back as [x],
    for a positive finite [x] = num / den with its point at [k]: with [n]
    digits, the decimals on either side of [x] are tried, the nearer one
    taken when both read back as [x] (the even one when they are as near),
    and [n] grows until one does. *)
Fixpoint shortest_decimal (x : float) (num den k n : Z) (fuel : nat)
  : Z * Z :=
  match fuel with
  | O => (0, 0)%Z
  | S fuel' =>
      let e := (k - n)%Z in
      let (a, b) :=
        if (e <=? 0)%Z then (num * 10 ^ (- e), den)%Z
        else (num, den * 10 ^ e)%Z in
      let lo := (a / b)%Z in
      let r := (a mod b)%Z in
      let hi := (lo + 1)%Z in
      let lo_ok := SpecFloat.SFeqb (float_of_decimal false lo e) x in
      let hi_ok := SpecFloat.SFeqb (float_of_decimal false hi e) x in
      if (lo_ok && hi_ok)%bool then
        match (2 * r ?= b)%Z with
        | Lt => (lo, e)
        | Gt => (hi, e)
        | Eq => if Z.even lo then (lo, e) else (hi, e)
        end
      else if lo_ok then (lo, e)
      else if hi_ok then (hi, e)
      else shortest_decimal x num den k (n + 1) fuel'
  end.

Fixpoint strip_zeros_go (rev_digits : string) : string :=
  match rev_digits with
  | String c s' => if Ascii.eqb c "0"%char then strip_zeros_go s' else rev_digits
  | EmptyString => EmptyString
  end.

(** The digits without the zeros at their end *)
Definition strip_zeros (ds : string) : string := rev (strip_zeros_go (rev ds)).

(** [repr] of the float 0.d1...dn * 10 ^ decpt: with an exponent of two
    digits at least when the point is beyond 16 places right or 4 places
    left of the first digit, and otherwise with a digit at least on both
    sides of the point. *)
Definition float_repr_digits (ds : string) (decpt : Z) : string :=
  let n := Z.of_nat (String.length ds) in
  if ((decpt <=? -4) || (16 <? decpt))%Z%bool then
    let exp := (decpt - 1)%Z in
    let shown := str_of_Z (Z.abs exp) in
    substring 0 1 ds
      ++ (if (1 <? n)%Z then "." ++ drop 1 ds else "")
      ++ "e" ++ (if (exp <? 0)%Z then "-" else "+")
      ++ (if (Z.abs exp <? 10)%Z then "0" else "") ++ shown
  else if (decpt <=? 0)%Z then "0." ++ repeat_str "0" (Z.to_nat (- decpt)) ++ ds
  else if (decpt <? n)%Z then
    substring 0 (Z.to_nat decpt) ds ++ "." ++ drop (Z.to_nat decpt) ds
  else ds ++ repeat_str "0" (Z.to_nat (decpt - n)) ++ ".0".

(** [repr(x)], which is [str(x)] too *)
Definition float_repr (x : float) : string :=
  match x with
  | SpecFloat.S754_nan => "nan"
  | SpecFloat.S754_infinity s => if s then "-inf" else "inf"
  | SpecFloat.S754_zero s => if s then "-0.0" else "0.0"
  | SpecFloat.S754_finite s m e =>
      let (num, den) := fraction_of m e in
      let k := decimal_point num den in
      let (d, e10) :=
        shortest_decimal (SpecFloat.S754_finite false m e) num den k 1 17 in
      let all := str_of_Z d in
      (if s then "-" else "")
        ++ float_repr_digits (strip_zeros all)
                             (Z.of_nat (String.length all) + e10)
  end.

Definition backslash : ascii := "\"%char.
Definition squote : ascii := "'"%char.

Fixpoint has_char (c : ascii) (s : string) : bool :=
  match s with
  | EmptyString => false
  | String c' s' => (Ascii.eqb c c' || has_char c s')%bool
  end.

Definition hex_digit (n : nat) : ascii :=
  ascii_of_nat (if Nat.ltb n 10 then 48 + n else 87 + n).

(** The characters of [repr(s)] between its quotes, [quote] being the
    quote chosen. Characters outside ASCII are taken to be printable. *)
Fixpoint repr_chars (quote : ascii) (s : string) : string :=
  match s with
  | EmptyString => EmptyString
  | String c s' =>
      let n := nat_of_ascii c in
      (if (Ascii.eqb c quote || Ascii.eqb c backslash)%bool
       then String backslash (String c EmptyString)
       else if Nat.eqb n 9 then "\t"
       else if Nat.eqb n 10 then "\n"
       else if Nat.eqb n 13 then "\r"
       else if (Nat.ltb n 32 || Nat.eqb n 127)%bool
            then "\x" ++ String (hex_digit (n / 16))
                           (String (hex_digit (n mod 16)) EmptyString)
            else String c EmptyString)
        ++ repr_chars quote s'
  end.

Definition repr_str (s : string) : string :=
  let quote :=
    if (has_char squote s && negb (has_char dquote s))%bool
    then dquote else squote in
  String quote (repr_chars quote s ++ String quote EmptyString).

(** [repr(v)] *)
Fixpoint repr (v : json) : string :=
  match v with
  | JNull => "None"
  | JBool true => "True"
  | JBool false => "False"
  | JInt z => str_of_Z z
  | JFloat lit => float_repr (float_of_literal lit)
  | JStr s => repr_str s
  | JList items => "[" ++ String.concat ", " (map repr items) ++ "]"
  | JObj items =>
      "{" ++ String.concat ", "
               (map (fun p => repr_str (fst p) ++ ": " ++ repr (snd p)) items)
          ++ "}"
  end.

Definition runtime : Runtime :=
  {| json_loads := loads;
     float_is_zero := literal_is_zero;
     float_eqb := literal_eqb;
     py_repr := repr |}.

End CPython.

(* ===================================================================== *)
(** * Vocabulary of the specification *)
(* ===================================================================== *)

(** A field of a record, [None] when the record does not have it. *)
Definition lookup (data : json) (key : string) : option json :=
  match data with
  | JObj kv => dict_get String.eqb key kv
  | _ => None
  end.

(** A field of the [overview] or [market_position] object of a record. *)
Definition nested (data : json) (outer key : string) : option json :=
  match lookup data outer with
  | Some o => lookup o key
  | None => None
  end.

Definition value_or (default : json) (o : option json) : json :=
  match o with
  | Some v => v
  | None => default
  end.

Definition null_or_absent (o : option json) : bool :=
  match o with
  | None | Some JNull => true
  | Some _ => false
  end.

Definition falsy_or_absent {rt : Runtime} (o : option json) : bool :=
  match o with
  | None => true
  | Some v => negb (truthy v)
  end.

Definition is_dict (v : json) : bool :=
  match v with
  | JObj _ => true
  | _ => false
  end.

Definition is_list (v : json) : bool :=
  match v with
  | JList _ => true
  | _ => false
  end.

Definition absent_or (p : json -> bool) (o : option json) : bool :=
  match o with
  | None => true
  | Some v => p v
  end.

(** [null] or a list whose elements satisfy [p] *)
Definition null_or_list_of (p : json -> bool) (v : json) : bool :=
  match v with
  | JNull => true
  | JList items => forallb p items
  | _ => false
  end.

Definition null_or_dict (v : json) : bool :=
  match v with
  | JNull | JObj _ => true
  | _ => false
  end.

(** The shape of a CompetitorRecord: an object whose [overview] and
    [market_position], when present, are objects; whose collections, when
    present, are [null] or lists (of objects for products and news); and
    whose [social_media_presence], when present, is [null] or an object.
    Scalar fields may hold any value, be [null] or be absent. *)
Definition record_shaped (data : json) : bool :=
  (is_dict data
   && absent_or is_dict (lookup data "overview")
   && absent_or is_dict (lookup data "market_position")
   && absent_or (null_or_list_of is_dict) (lookup data "products_services")
   && absent_or (null_or_list_of (fun _ => true))
                (nested data "market_position" "key_competitors")
   && absent_or (null_or_list_of (fun _ => true)) (lookup data "strengths")
   && absent_or (null_or_list_of (fun _ => true)) (lookup data "weaknesses")
   && absent_or (null_or_list_of is_dict) (lookup data "recent_news")
   && absent_or (null_or_list_of (fun _ => true))
                (lookup data "technology_stack")
   && absent_or null_or_dict (lookup data "social_media_presence"))%bool.

(** The optional scalar fields of a record *)
Inductive scalar_field : Type :=
| FoundedYear
| Headquarters
| Size
| MarketShare
| PricingModel
| TargetMarket
| Description.

(** Where the record holds the field *)
Definition field_value (data : json) (f : scalar_field) : option json :=
  match f with
  | FoundedYear => nested data "overview" "founded_year"
  | Headquarters => nested data "overview" "headquarters"
  | Size => nested data "overview" "size"
  | MarketShare => nested data "market_position" "market_share"
  | PricingModel => lookup data "pricing_model"
  | TargetMarket => nested data "market_position" "target_market"
  | Description => nested data "overview" "description"
  end.

(** The template slot the field goes to *)
Definition slot_name (f : scalar_field) : string :=
  match f with
  | FoundedYear => "founded_year"
  | Headquarters => "headquarters"
  | Size => "size"
  | MarketShare => "market_share"
  | PricingModel => "pricing_model"
  | TargetMarket => "target_market"
  | Description => "description"
  end.

Definition placeholder (f : scalar_field) : string :=
  match f with
  | Description => "No description available"
  | _ => "N/A"
  end.

(** The fields the schema of the agent declares as [string or null] or
    [integer or null]; [target_market] and [description] are declared
    [string]. *)
Definition nullable (f : scalar_field) : bool :=
  match f with
  | TargetMarket | Description => false
  | _ => true
  end.

(** The names of the replacement fields of a parsed template *)
Fixpoint field_names (segs : list segment) : list string :=
  match segs with
  | [] => []
  | Lit _ :: segs' => field_names segs'
  | Field name :: segs' => name :: field_names segs'
  end.

Section Fragments.
Context {rt : Runtime}.

(** The fragments the renderer emits for one element of a collection.
    [element_field] is the value an element holds under [key], the string
    [default] when it has no such key. *)
Definition element_field (element : list (string * json))
           (key default : string) : json :=
  value_or (JStr default) (dict_get String.eqb key element).

(** The card of a product: its name, its category and its description,
    each under its tag. *)
Definition product_fragment (product : list (string * json)) : string :=
  q "
        <div class=^card^>
            <h3>" ++ py_str (element_field product "name" "N/A") ++ "</h3>
            <p><strong>Category:</strong> "
    ++ py_str (element_field product "category" "N/A") ++ "</p>
            <p>"
    ++ py_str (element_field product "description" "No description available")
    ++ "</p>
        </div>
        ".

(** The card of a news item: its title, its date and its source in one
    line, its summary. *)
Definition news_fragment (news : list (string * json)) : string :=
  q "
        <div class=^news-item^>
            <h3>" ++ py_str (element_field news "title" "No Title") ++ q "</h3>
            <p class=^meta^><em>" ++ py_str (element_field news "date" "N/A")
    ++ " ‚Ä¢ " ++ py_str (element_field news "source" "Unknown Source")
    ++ "</em></p>
            <p>"
    ++ py_str (element_field news "summary" "No summary available")
    ++ "</p>
        </div>
        ".

Definition tag_fragment (item : json) : string :=
  q "<span class=^tag^>" ++ py_str item ++ "</span>".

Definition item_fragment (css_class : string) (item : json) : string :=
  q "<div class=^" ++ css_class ++ q "^>" ++ py_str item ++ "</div>".

(** The scalar slots of the template, read off the record: what
    [format_html_from_json] passes for each of them. *)
Definition scalar_slots (data : json) : list (string * json) :=
  [ ("description",
     value_or (JStr "No description available")
              (nested data "overview" "description"));
    ("founded_year",
     py_or (value_or JNull (nested data "overview" "founded_year"))
           (JStr "N/A"));
    ("headquarters",
     py_or (value_or JNull (nested data "overview" "headquarters"))
           (JStr "N/A"));
    ("size",
     py_or (value_or JNull (nested data "overview" "size")) (JStr "N/A"));
    ("target_market",
     value_or (JStr "N/A") (nested data "market_position" "target_market"));
    ("market_share",
     py_or (value_or JNull (nested data "market_position" "market_share"))
           (JStr "N/A"));
    ("pricing_model",
     py_or (value_or JNull (lookup data "pricing_model")) (JStr "N/A")) ].

(** The names of the keyword arguments, in the order they are passed *)
Definition slot_names : list string :=
  [ "company_name"; "website"; "analysis_date"; "description";
    "founded_year"; "headquarters"; "size"; "products_html";
    "target_market"; "market_share"; "competitors_html";
    "strengths_html"; "weaknesses_html"; "news_html"; "pricing_model";
    "tech_html"; "social_html" ].

(** A section: the placeholder for an empty collection, otherwise the
    fragments of its elements, in order, between [opening] and
    [closing]. *)
Definition section_html {A : Type} (placeholder opening closing : string)
           (fragment : A -> string) (items : list A) : string :=
  match items with
  | [] => placeholder
  | _ :: _ => opening ++ String.concat "" (map fragment items) ++ closing
  end.
End Fragments.

(** The list-valued fields of a record *)
Inductive list_field : Type :=
| Products
| Competitors
| Strengths
| Weaknesses
| News
| Technology.

(** Where the record holds the field *)
Definition list_value (data : json) (f : list_field) : option json :=
  match f with
  | Products => lookup data "products_services"
  | Competitors => nested data "market_position" "key_competitors"
  | Strengths => lookup data "strengths"
  | Weaknesses => lookup data "weaknesses"
  | News => lookup data "recent_news"
  | Technology => lookup data "technology_stack"
  end.

(** The template slot the section of the field goes to *)
Definition section_slot (f : list_field) : string :=
  match f with
  | Products => "products_html"
  | Competitors => "competitors_html"
  | Strengths => "strengths_html"
  | Weaknesses => "weaknesses_html"
  | News => "news_html"
  | Technology => "tech_html"
  end.

(** The items of an object; products and news are objects. *)
Definition items_of (x : json) : list (string * json) :=
  match x with
  | JObj kv => kv
  | _ => []
  end.

Section Sections.
Context {rt : Runtime}.

(** The "no data" paragraph of the section *)
Definition empty_section (f : list_field) : string :=
  match f with
  | Products => "<p>No product information available.</p>"
  | Competitors => "<p>No competitor information available.</p>"
  | News => "<p>No recent news available.</p>"
  | Strengths | Weaknesses | Technology => "<p>No information available.</p>"
  end.

(** What stands before and after the fragments: the products are in a
    grid. *)
Definition section_opening (f : list_field) : string :=
  match f with
  | Products => q "<div class=^grid^>"
  | _ => EmptyString
  end.

Definition section_closing (f : list_field) : string :=
  match f with
  | Products => "</div>"
  | _ => EmptyString
  end.

(** The styled fragment of one element *)
Definition fragment_of (f : list_field) (x : json) : string :=
  match f with
  | Products => product_fragment (items_of x)
  | News => news_fragment (items_of x)
  | Competitors | Technology => q "<span class=^tag^>" ++ py_str x ++ "</span>"
  | Strengths => q "<div class=^list-item^>" ++ py_str x ++ "</div>"
  | Weaknesses => q "<div class=^list-item weakness^>" ++ py_str x ++ "</div>"
  end.
End Sections.

(** A field is missing when the record does not have it, or, for a nullable
    field, when it holds [null]. *)
Definition missing (data : json) (f : scalar_field) : bool :=
  if nullable f then null_or_absent (field_value data f)
  else match field_value data f with
       | None => true
       | Some _ => false
       end.

Section SlotValues.
Context {rt : Runtime}.

(** What [format_html_from_json] passes for the slot of a scalar field *)
Definition slot_value (data : json) (f : scalar_field) : json :=
  if nullable f
  then py_or (value_or JNull (field_value data f)) (JStr "N/A")
  else value_or (JStr (placeholder f)) (field_value data f).

(** The text both parsers decode once stripped, when they do not decode
    the response as it is *)
Definition block_of (response_text : string) : string :=
  match fenced_text response_text with
  | Ok t => t
  | Raise _ => response_text
  end.

(** A page the renderer can produce *)
Definition is_report (html : string) : Prop :=
  exists date data, format_html_from_json date data = Ok html.
End SlotValues.

(** The error of the batch parser for a decoded value that is not a list *)
Definition not_an_array : exn := Exn ValueError "Response is not a JSON array".

(** Keys that company names give: [None] and strings *)
Definition plain_key (k : json) : bool :=
  match k with
  | JNull | JStr _ => true
  | _ => false
  end.

(** Companies that all have a display name *)
Definition named_companies (named : list (string * string))
  : list (string * option string) :=
  map (fun c => (fst c, Some (snd c))) named.

Section OrchestratorVocabulary.
Context {rt : Runtime} {env : Env}.

Definition is_error_page (name : option string) (html : string) : Prop :=
  exists msg, html = _create_error_report name msg.

(** An entry of the returned mapping for the company called [name]: keyed
    by the name, holding a report or an error page *)
Definition entry_for (name : option string) (entry : json * string) : Prop :=
  fst entry = name_key name
  /\ (is_report (snd entry) \/ is_error_page name (snd entry)).

(** The world once the loop of the fallback has announced a company *)
Definition announced (total i : nat) (name : option string) (w : World)
  : World :=
  mkWorld (sent w)
          (stdout w ++ [nl ++ "[" ++ str_of_nat i ++ "/" ++ str_of_nat total
                           ++ "] Analyzing " ++ name_str name ++ "..."]).
End OrchestratorVocabulary.


(* ===================================================================== *)
(** * Example inputs *)
(* ===================================================================== *)

Module Examples.

Definition dateless : json := JObj [("company_name", JStr "Acme")].

Definition dated : json :=
  JObj [("company_name", JStr "Acme"); ("analysis_date", JStr "2024-11-30")].

Definition null_target_market : json :=
  JObj [("company_name", JStr "Acme");
        ("market_position", JObj [("target_market", JNull)])].

Definition sparse : json :=
  JObj [("company_name", JStr "Acme");
        ("overview", JObj [("founded_year", JNull); ("size", JStr "")]);
        ("pricing_model", JInt 0);
        ("strengths", JList [])].

Definition two_named : list (string * string) :=
  [("https://a.com", "A"); ("https://b.com", "B")].

Definition two_companies : list (string * option string) :=
  named_companies two_named.

Definition acme_alone : list (string * option string) :=
  [("https://acme.example", Some "Acme")].

(** A world in which a prompt has already been sent. *)
Definition busy_world : World := mkWorld ["an earlier prompt"] [].

(** A service that answers every prompt with the empty array. *)
Definition empty_array_service : Env :=
  {| runner_run := fun _ _ => Ok "[]";
     today := fun _ => "2024-12-01" |}.

(** A service whose first answer is not JSON and which fails afterwards. *)
Definition failing_service : Env :=
  {| runner_run := fun w _ =>
       match sent w with
       | [] => Ok "Sorry, I cannot help with that."
       | _ => Raise (Exn (OtherError "ServiceUnavailable") "quota exceeded")
       end;
     today := fun _ => "2024-12-01" |}.

(** A service whose answers are never JSON. *)
Definition chatty_service : Env :=
  {| runner_run := fun _ _ => Ok "hello";
     today := fun _ => "2024-12-01" |}.

(** An array of one string, the string being a fence marker. *)
Definition fence_in_string : string := q "[^```^]".

(** An object, not an array. *)
Definition single_object : string := q "{^company_name^: ^Acme^}".

(** An array with white space around it. *)
Definition padded_array : string := nl ++ " [1, 2] " ++ nl.

(** An array inside a fenced block. *)
Definition fenced_array : string :=
  "```json" ++ nl ++ q "[{^company_name^: ^Acme^}]" ++ nl ++ "```".

End Examples.

(* ===================================================================== *)
(** * Vocabulary of the further properties *)
(* ===================================================================== *)

(** The fields of a record the renderer reads *)
Definition read_keys : list string :=
  [ "products_services"; "market_position"; "strengths"; "weaknesses";
    "recent_news"; "technology_stack"; "social_media_presence";
    "company_name"; "website"; "analysis_date"; "overview";
    "pricing_model" ].

(** A record without one of its fields *)
Definition without (key : string) (data : json) : json :=
  match data with
  | JObj kv => JObj (filter (fun p => negb (String.eqb (fst p) key)) kv)
  | _ => data
  end.

Section Links.
Context {rt : Runtime}.

(** The list item [_format_social_media] emits for one row of its
    [platforms] table: nothing when the record has no URL for it, or a
    falsy one. *)
Definition social_link (social : list (string * json))
           (platform : string * (string * string)) : string :=
  let url := value_or JNull (dict_get String.eqb (fst platform) social) in
  if truthy url
  then q "<li style=^margin: 10px 0;^><strong>" ++ snd (snd platform) ++ " "
         ++ fst (snd platform) ++ q ":</strong> <a href=^" ++ py_str url
         ++ q "^ target=^_blank^>" ++ py_str url ++ "</a></li>"
  else "".

Definition social_list (social : list (string * json)) : string :=
  "<ul style='list-style: none; padding: 0;'>"
    ++ String.concat "" (map (social_link social) platforms) ++ "</ul>".
End Links.

(** A number or a boolean *)
Definition is_number (v : json) : bool :=
  match v with
  | JBool _ | JInt _ | JFloat _ => true
  | _ => false
  end.

Section Requests.
Context {rt : Runtime} {env : Env}.

(** [analyze_competitor] up to and including its generation call: the
    banner, the prompt and [runner.run]. *)
Definition request_analysis (company_website : string)
           (company_name : option string) : M string :=
  print (nl ++ rule) ;;;
  print ("🚀 Starting Analysis: "
           ++ (if name_given company_name then name_str company_name
               else company_website)) ;;;
  print "💰 Cost Optimization: 1 LLM call (saves 67% vs traditional)" ;;;
  print (rule ++ nl) ;;;
  prompt <~ _create_prompt company_website company_name ;;
  print "🔍 Running AI analysis with web search..." ;;;
  generate prompt.

(** The rest of [analyze_competitor]: parse the response, render the
    decoded value. *)
Definition complete_analysis (response : string) : M string :=
  structured_data <~ _parse_response response ;;
  print ("✅ Data collected and structured" ++ nl) ;;;
  print "📄 Generating HTML report (no LLM call)..." ;;;
  html_report <~ render structured_data ;;
  print ("✅ HTML report generated" ++ nl) ;;;
  print rule ;;;
  print "✨ Analysis Complete!" ;;;
  print "💰 Total LLM Calls: 1" ;;;
  print (rule ++ nl) ;;;
  mret html_report.
End Requests.

(** The key under which [analyze_multiple_competitors] files an element of
    the batch response *)
Definition response_key (data : json) : json :=
  value_or (JStr "Unknown") (lookup data "company_name").

(** The page of a record, on some day *)
Definition rendering_of {rt : Runtime} (data : json) (html : string) : Prop :=
  exists date, format_html_from_json date data = Ok html.

(** An element the batch loop renders and files: a shaped record whose name
    is a string or [null], or absent. *)
Definition batch_item (data : json) : bool :=
  (record_shaped data && plain_key (response_key data))%bool.

(** The character of the fence markers *)
Definition backquote : ascii := "`"%char.

(** [c not in s], for a character [c] *)
Fixpoint free_of (c : ascii) (s : string) : bool :=
  match s with
  | EmptyString => true
  | String x s' => (negb (Ascii.eqb x c) && free_of c s')%bool
  end.

(** The first piece of a list of pieces, with [a] put before it *)
Definition prepend (a : string) (pieces : list string) : list string :=
  match pieces with
  | [] => []
  | h :: t => (a ++ h) :: t
  end.

(** The white space of ASCII: U+0009..U+000D, U+001C..U+0020 *)
Definition is_ascii_space (c : ascii) : bool :=
  let n := nat_of_ascii c in
  (Nat.leb 9 n && Nat.leb n 13 || Nat.leb 28 n && Nat.leb n 32)%bool.

(** An ASCII character that is not white space *)
Definition is_plain (c : ascii) : bool :=
  (Nat.ltb (nat_of_ascii c) 128 && negb (is_ascii_space c))%bool.

Fixpoint all_spaces (s : string) : bool :=
  match s with
  | EmptyString => true
  | String c s' => (is_ascii_space c && all_spaces s')%bool
  end.

(** A text that starts, or ends, with an ASCII character that is not white
    space *)
Definition first_plain (s : string) : bool :=
  match s with
  | String c _ => is_plain c
  | EmptyString => false
  end.

Definition last_plain (s : string) : bool := first_plain (rev s).

(** ** The arithmetic of [_calculate_savings]

    Python's [float] is IEEE 754 binary64, rounding to nearest, ties to
    even: 53 bits of precision, exponents below 1024. *)
Module Binary64.

Definition float : Type := SpecFloat.spec_float.

(** [float(z)] *)
Definition of_int (z : Z) : float := SpecFloat.binary_normalize 53 1024 z 0 false.

Definition div (x y : float) : float := SpecFloat.SFdiv 53 1024 x y.

Definition mul (x y : float) : float := SpecFloat.SFmul 53 1024 x y.

(** [int(x)] for a finite [x]: the integer part, rounded toward zero *)
Definition to_int (x : float) : Z :=
  match x with
  | SpecFloat.S754_finite s m e =>
      let magnitude :=
        match e with
        | Z0 => Zpos m
        | Zpos p => Z.shiftl (Zpos m) (Zpos p)
        | Zneg p => Z.shiftr (Zpos m) (Zpos p)
        end in
      if s then Z.opp magnitude else magnitude
  | _ => 0%Z
  end.

End Binary64.

(** [_calculate_savings] with the arithmetic of the source: [/] between two
    [int]s is the quotient rounded to a [float], [* 100] a product of
    [float]s. *)
Definition _calculate_savings_binary64 (num_companies : nat) : result Z :=
  let individual_calls := Z.of_nat num_companies in
  let batch_calls := 1%Z in
  if Z.eqb individual_calls 0
  then Raise (Exn ZeroDivisionError "division by zero")
  else
    let savings :=
      Binary64.mul
        (Binary64.div (Binary64.of_int (individual_calls - batch_calls))
                      (Binary64.of_int individual_calls))
        (Binary64.of_int 100) in
    Ok (Binary64.to_int savings).

(** Whether the two computations of the savings agree for [n] companies,
    on the integer part of 100 (n - 1) / n *)
Definition savings_agree (n : nat) : bool :=
  match _calculate_savings_binary64 n, _calculate_savings n with
  | Ok x, Ok y => (Z.eqb x y && Z.eqb y (Z.of_nat ((n - 1) * 100 / n)))%bool
  | _, _ => false
  end.

(** ** Reading the list of companies ([main.py], [example_from_file]) *)

(** The body of the loop over the lines of the file: the company a line
    gives, [None] for a line that is skipped. *)
Definition company_of_line (line : string)
  : result (option (string * option string)) :=
  let line := py_strip line in
  if (negb (String.eqb line "") && negb (prefix "#" line))%bool then
    let parts := py_split "," line in
    part0 <- py_index parts 0 ;;
    let url := py_strip part0 in
    name <- (if Nat.ltb 1 (List.length parts)
             then part1 <- py_index parts 1 ;; Ok (Some (py_strip part1))
             else Ok None) ;;
    Ok (Some (url, name))
  else Ok None.

(** [for line in f: ...], appending to [competitors] *)
Fixpoint read_competitors (lines : list string)
         (competitors : list (string * option string))
  : result (list (string * option string)) :=
  match lines with
  | [] => Ok competitors
  | line :: rest =>
      company <- company_of_line line ;;
      read_competitors rest
        (match company with
         | Some c => (competitors ++ [c])%list
         | None => competitors
         end)
  end.

(** A field of a line held in memory: a text without a comma that starts
    and ends with ASCII characters other than white space. It may hold a
    line break inside; a field written to a file may not, see
    [is_line_field]. *)
Definition is_field (s : string) : bool :=
  (free_of ","%char s && first_plain s && last_plain s)%bool.

(** The line of the file for a company with a name *)
Definition line_of (company : string * string) : string :=
  fst company ++ "," ++ snd company ++ nl.

Definition LF : ascii := "010"%char.
Definition CR : ascii := "013"%char.

(** The lines [for line in f] yields, for a file opened in text mode whose
    content is [s]: a line ends at a line feed, at a carriage return or at
    a carriage return followed by a line feed, each read as "\n" (universal
    newlines), and keeps it; the last line may lack it. [cur] is the line
    being read, reversed. *)
Fixpoint lines_go (cur : string) (s : string) : list string :=
  match s with
  | EmptyString =>
      match cur with
      | EmptyString => []
      | _ => [rev cur]
      end
  | String c s' =>
      if Ascii.eqb c LF then rev (String LF cur) :: lines_go EmptyString s'
      else if Ascii.eqb c CR then
        match s' with
        | String c' s'' =>
            if Ascii.eqb c' LF
            then rev (String LF cur) :: lines_go EmptyString s''
            else rev (String LF cur) :: lines_go EmptyString s'
        | EmptyString => [rev (String LF cur)]
        end
      else lines_go (String c cur) s'
  end.

Definition file_lines (content : string) : list string :=
  lines_go EmptyString content.

(** The list [example_from_file] reads from a file whose content is
    [content] *)
Definition read_file (content : string)
  : result (list (string * option string)) :=
  read_competitors (file_lines content) [].

(** A field of a line of a file: a field that holds no line break *)
Definition is_line_field (s : string) : bool :=
  (is_field s && free_of LF s && free_of CR s)%bool.

(** The content of the file written with one line per company *)
Definition file_of (companies : list (string * string)) : string :=
  String.concat "" (map line_of companies).

(** The classes of the exceptions the renderer raises *)
Definition renderer_error (c : exn_class) : bool :=
  match c with
  | AttributeError | TypeError => true
  | _ => false
  end.

Module MoreExamples.

(** A record with a field the renderer does not read. *)
Definition annotated : list (string * json) :=
  [("internal_note", JStr "draft"); ("company_name", JStr "Acme")].

Definition plain : list (string * json) := [("company_name", JStr "Acme")].

(** A record whose [overview] is [null]. *)
Definition null_overview : json :=
  JObj [("company_name", JStr "Acme"); ("overview", JNull)].

(** A record whose name holds markup. *)
Definition markup_name : json := JObj [("company_name", JStr "<b>Acme</b>")].

Definition one_product : list (list (string * json)) :=
  [[("name", JStr "Cloud Platform")]].

Definition two_links : list (string * json) :=
  [("facebook", JStr "https://facebook.com/acme");
   ("linkedin", JStr "https://linkedin.com/company/acme")].

Definition instagram_only : list (string * json) :=
  [("instagram", JStr "https://instagram.com/acme")].

(** A service that answers every prompt with one object. *)
Definition object_service : Env :=
  {| runner_run := fun _ _ => Ok Examples.single_object;
     today := fun _ => "2024-12-01" |}.

(** A service that answers every prompt with an array of two records. *)
Definition two_reports_service : Env :=
  {| runner_run := fun _ _ =>
       Ok (q "[{^company_name^: ^A^}, {^company_name^: ^B^}]");
     today := fun _ => "2024-12-01" |}.

(** A service whose array holds a number after a record. *)
Definition broken_batch_service : Env :=
  {| runner_run := fun _ _ => Ok (q "[{^company_name^: ^A^}, 7]");
     today := fun _ => "2024-12-01" |}.

(** An object that holds, in a string, an empty array between two fence
    markers. *)
Definition fence_in_object : string := q "{^note^: ^```[]```^}".

(** A record with floats in scalar fields. *)
Definition record_with_floats : string :=
  q "{^overview^: {^founded_year^: 1e-400, ^size^: 12.50},
      ^market_position^: {^market_share^: 0.1e2}}".

(** Two records named by equal numbers. *)
Definition numbered_records : string :=
  q "[{^company_name^: 1.0}, {^company_name^: 1}]".

(** A record with two products. *)
Definition catalogue : json :=
  JObj [("company_name", JStr "Acme");
        ("products_services",
         JList [JObj [("name", JStr "Cloud Platform")];
                JObj [("name", JStr "Edge Cache"); ("category", JStr "CDN")]]);
        ("strengths", JList [])].

Definition sample_companies : list (string * string) :=
  [("https://www.stripe.com", "Stripe"); ("https://www.square.com", "Square")].

End MoreExamples.


(* ===================================================================== *)
(** * Properties of the renderer *)
(* ===================================================================== *)

Lemma append_nil_r (s : string) : s ++ "" = s.
Proof. induction s as [|c s IH]; simpl; [reflexivity | now rewrite IH]. Qed.

Lemma append_assoc (a b c : string) : (a ++ b) ++ c = a ++ b ++ c.
Proof. induction a as [|x a IH]; simpl; [reflexivity | now rewrite IH]. Qed.

Lemma concat_cons (x : string) (l : list string) :
  String.concat "" (x :: l) = x ++ String.concat "" l.
Proof. destruct l; simpl; [now rewrite append_nil_r | reflexivity]. Qed.

Lemma bind_Ok_inv {A B : Type} (c : result A) (k : A -> result B) (b : B) :
  bind c k = Ok b -> exists a, c = Ok a /\ k a = Ok b.
Proof. destruct c as [a|e]; simpl; [eauto | discriminate]. Qed.

Lemma parse_HTML_TEMPLATE :
  parse_format HTML_TEMPLATE = Ok HTML_TEMPLATE_segments.
Proof. vm_compute. reflexivity. Qed.

Lemma dict_get_present {V : Type} (name : string) (kw : list (string * V)) :
  existsb (String.eqb name) (map fst kw) = true ->
  exists v, dict_get String.eqb name kw = Some v.
Proof.
  induction kw as [|[k v] kw IH]; simpl; [discriminate|].
  destruct (String.eqb name k); simpl; eauto.
Qed.

Ltac invert_binds H :=
  repeat (let a := fresh "a" in
          let Ha := fresh "Ha" in
          apply bind_Ok_inv in H as (a & Ha & H)).

Section RendererFacts.
Context {rt : Runtime}.

(** ** Collections *)

Lemma comprehension_map (f : json -> result string) (g : json -> string)
      (xs : list json) :
  (forall x, f x = Ok (g x)) -> comprehension f xs = Ok (map g xs).
Proof.
  intros Hf. induction xs as [|x xs IH]; simpl; [reflexivity|].
  now rewrite Hf, IH.
Qed.

Lemma for_append_map {A : Type} (f : json -> result string) (inj : A -> json)
      (g : A -> string) (xs : list A) (html : string) :
  (forall x, f (inj x) = Ok (g x)) ->
  for_append f (map inj xs) html = Ok (html ++ String.concat "" (map g xs)).
Proof.
  intros Hf. revert html.
  induction xs as [|x xs IH]; intros html; simpl map.
  - simpl. now rewrite append_nil_r.
  - simpl for_append. rewrite Hf. simpl bind. rewrite IH, concat_cons.
    now rewrite append_assoc.
Qed.

Lemma product_card_dict (kv : list (string * json)) :
  product_card (JObj kv) = Ok (product_fragment kv).
Proof. reflexivity. Qed.

Lemma news_card_dict (kv : list (string * json)) :
  news_card (JObj kv) = Ok (news_fragment kv).
Proof. reflexivity. Qed.

Lemma _format_products_list (products : list (list (string * json))) :
  _format_products (JList (map JObj products))
  = Ok (section_html no_products (q "<div class=^grid^>") "</div>"
                     product_fragment products).
Proof.
  destruct products as [|p ps]; [reflexivity|].
  unfold _format_products, section_html.
  change (truthy (JList (map JObj (p :: ps)))) with true.
  cbv beta iota delta [negb py_iter bind].
  rewrite (for_append_map product_card JObj product_fragment)
    by apply product_card_dict.
  now rewrite append_assoc.
Qed.

Lemma _format_news_list (news : list (list (string * json))) :
  _format_news (JList (map JObj news))
  = Ok (section_html no_news "" "" news_fragment news).
Proof.
  destruct news as [|p ps]; [reflexivity|].
  unfold _format_news, section_html.
  change (truthy (JList (map JObj (p :: ps)))) with true.
  cbv beta iota delta [negb py_iter bind].
  rewrite (for_append_map news_card JObj news_fragment)
    by apply news_card_dict.
  now rewrite append_nil_r.
Qed.

Lemma _format_competitors_list (competitors : list json) :
  _format_competitors (JList competitors)
  = Ok (section_html no_competitors "" "" tag_fragment competitors).
Proof.
  destruct competitors as [|c cs]; [reflexivity|].
  unfold _format_competitors, section_html.
  change (truthy (JList (c :: cs))) with true.
  cbv beta iota delta [negb py_iter bind].
  rewrite (comprehension_map competitor_tag tag_fragment) by reflexivity.
  now rewrite append_nil_r.
Qed.

Lemma _format_list_items_list (items : list json) (css_class : string) :
  _format_list_items (JList items) css_class
  = Ok (section_html no_information "" "" (item_fragment css_class) items).
Proof.
  destruct items as [|c cs]; [reflexivity|].
  unfold _format_list_items, section_html.
  change (truthy (JList (c :: cs))) with true.
  cbv beta iota delta [negb py_iter bind].
  rewrite (comprehension_map (list_item css_class) (item_fragment css_class))
    by reflexivity.
  now rewrite append_nil_r.
Qed.

Lemma _format_tags_list (items : list json) :
  _format_tags (JList items)
  = Ok (section_html no_information "" "" tag_fragment items).
Proof.
  destruct items as [|c cs]; [reflexivity|].
  unfold _format_tags, section_html.
  change (truthy (JList (c :: cs))) with true.
  cbv beta iota delta [negb py_iter bind].
  rewrite (comprehension_map tech_tag tag_fragment) by reflexivity.
  now rewrite append_nil_r.
Qed.

(** The six formatters on lists: each returns its "no data" paragraph for
    the empty list, and otherwise the fragments of the elements, one per
    element, concatenated in the order of the list. *)
Lemma formatters_follow_their_lists
        (products news : list (list (string * json)))
        (competitors strengths weaknesses technology : list json) :
  _format_products (JList (map JObj products))
    = Ok (section_html no_products (q "<div class=^grid^>") "</div>"
                       product_fragment products)
  /\ _format_competitors (JList competitors)
     = Ok (section_html no_competitors "" "" tag_fragment competitors)
  /\ _format_list_items (JList strengths) "list-item"
     = Ok (section_html no_information "" "" (item_fragment "list-item")
                        strengths)
  /\ _format_list_items (JList weaknesses) "list-item weakness"
     = Ok (section_html no_information "" ""
                        (item_fragment "list-item weakness") weaknesses)
  /\ _format_news (JList (map JObj news))
     = Ok (section_html no_news "" "" news_fragment news)
  /\ _format_tags (JList technology)
     = Ok (section_html no_information "" "" tag_fragment technology).
Proof.
  repeat split.
  - apply _format_products_list.
  - apply _format_competitors_list.
  - apply _format_list_items_list.
  - apply _format_list_items_list.
  - apply _format_news_list.
  - apply _format_tags_list.
Qed.

(** ** Scalar slots *)

Lemma py_get_Ok_inv (v : json) (key : string) (default x : json) :
  py_get v key default = Ok x ->
  is_dict v = true /\ x = value_or default (lookup v key).
Proof.
  destruct v; simpl; try discriminate.
  intros H. injection H as <-. split; [reflexivity|].
  unfold value_or. now destruct (dict_get String.eqb key items).
Qed.

(** Reading a field of [overview] or [market_position] in two steps, as the
    renderer does, gives the nested field of the record. *)
Lemma nested_get (data : json) (outer key : string) (default o x : json) :
  py_get data outer (JObj []) = Ok o ->
  py_get o key default = Ok x ->
  x = value_or default (nested data outer key).
Proof.
  intros Ho Hx.
  apply py_get_Ok_inv in Ho as [_ ->]. apply py_get_Ok_inv in Hx as [_ ->].
  unfold nested. now destruct (lookup data outer).
Qed.

Lemma template_args_slots (date : string) (data : json)
      (kwargs : list (string * json)) :
  template_args date data = Ok kwargs ->
  map fst kwargs = slot_names
  /\ Forall (fun slot =>
               dict_get String.eqb (fst slot) kwargs = Some (snd slot))
            (scalar_slots data).
Proof.
  unfold template_args. intros H.
  invert_binds H.
  injection H as <-.
  split; [reflexivity|].
  unfold scalar_slots.
  repeat match goal with
         | Ho : py_get data ?outer (JObj []) = Ok ?o,
           Hx : py_get ?o ?key ?d = Ok ?x |- _ =>
             apply (nested_get data outer key d o x Ho) in Hx; subst x
         end.
  match goal with
  | Hx : py_get data "pricing_model" JNull = Ok ?x |- _ =>
      apply py_get_Ok_inv in Hx as [_ ->]
  end.
  repeat constructor.
Qed.

End RendererFacts.

(* ===================================================================== *)
(** * Rendering a shaped record *)
(* ===================================================================== *)

Section Totality.
Context {rt : Runtime}.

Lemma fill_total (kwargs : list (string * json)) (segs : list segment) :
  forallb (fun name => existsb (String.eqb name) (map fst kwargs))
          (field_names segs) = true ->
  exists html, fill kwargs segs = Ok html.
Proof.
  induction segs as [|[text|name] segs IH]; simpl; intros H.
  - eauto.
  - destruct (IH H) as [rest ->]. simpl. eauto.
  - apply andb_true_iff in H as [Hn H].
    destruct (dict_get_present _ _ Hn) as [v ->].
    destruct (IH H) as [rest ->]. simpl. eauto.
Qed.

(** The text filled in for a field sits between the texts of what
    precedes and what follows the field in the template. *)
Lemma fill_split (kwargs : list (string * json)) (before after : list segment)
      (name : string) (html : string) :
  fill kwargs (before ++ Field name :: after)%list = Ok html ->
  exists v b a,
    dict_get String.eqb name kwargs = Some v
    /\ fill kwargs before = Ok b /\ fill kwargs after = Ok a
    /\ html = b ++ py_str v ++ a.
Proof.
  revert html.
  induction before as [|[text|n] before IH]; simpl; intros html H.
  - destruct (dict_get String.eqb name kwargs) as [v|]; [|discriminate].
    apply bind_Ok_inv in H as (a & Ha & H). injection H as <-.
    exists v, "", a. auto.
  - apply bind_Ok_inv in H as (rest & Hrest & H). injection H as <-.
    destruct (IH _ Hrest) as (v & b & a & Hv & Hb & Ha & ->).
    exists v, (text ++ b), a. rewrite Hb. simpl.
    repeat split; auto. now rewrite append_assoc.
  - destruct (dict_get String.eqb n kwargs) as [w|]; [|discriminate].
    apply bind_Ok_inv in H as (rest & Hrest & H). injection H as <-.
    destruct (IH _ Hrest) as (v & b & a & Hv & Hb & Ha & ->).
    exists v, (py_str w ++ b), a. rewrite Hb. simpl.
    repeat split; auto. now rewrite append_assoc.
Qed.

Lemma for_append_total (f : json -> result string) (xs : list json)
      (html : string) :
  (forall kv, exists piece, f (JObj kv) = Ok piece) ->
  forallb is_dict xs = true ->
  exists out, for_append f xs html = Ok out.
Proof.
  intros Hf. revert html.
  induction xs as [|x xs IH]; simpl; intros html H; [eauto|].
  apply andb_true_iff in H as [Hx H].
  destruct x; try discriminate.
  destruct (Hf items) as [piece ->]. simpl. apply IH, H.
Qed.

Lemma _format_products_total (v : json) :
  null_or_list_of is_dict v = true -> exists html, _format_products v = Ok html.
Proof.
  destruct v; try discriminate; simpl null_or_list_of; intros H.
  - now exists no_products.
  - destruct items as [|x xs]; [now exists no_products|].
    unfold _format_products.
    change (truthy (JList (x :: xs))) with true.
    cbv beta iota delta [negb py_iter bind].
    destruct (for_append_total product_card (x :: xs)
                               (q "<div class=^grid^>")) as [out ->];
      [intros kv; now exists (product_fragment kv) | exact H | eauto].
Qed.

Lemma _format_news_total (v : json) :
  null_or_list_of is_dict v = true -> exists html, _format_news v = Ok html.
Proof.
  destruct v; try discriminate; simpl null_or_list_of; intros H.
  - now exists no_news.
  - destruct items as [|x xs]; [now exists no_news|].
    unfold _format_news.
    change (truthy (JList (x :: xs))) with true.
    cbv beta iota delta [negb py_iter bind].
    apply for_append_total; [intros kv; now exists (news_fragment kv) | exact H].
Qed.

Lemma _format_competitors_total (v : json) :
  null_or_list_of (fun _ => true) v = true ->
  exists html, _format_competitors v = Ok html.
Proof.
  destruct v; try discriminate; intros _.
  - now exists no_competitors.
  - rewrite _format_competitors_list. eauto.
Qed.

Lemma _format_list_items_total (v : json) (css_class : string) :
  null_or_list_of (fun _ => true) v = true ->
  exists html, _format_list_items v css_class = Ok html.
Proof.
  destruct v; try discriminate; intros _.
  - now exists no_information.
  - rewrite _format_list_items_list. eauto.
Qed.

Lemma _format_tags_total (v : json) :
  null_or_list_of (fun _ => true) v = true ->
  exists html, _format_tags v = Ok html.
Proof.
  destruct v; try discriminate; intros _.
  - now exists no_information.
  - rewrite _format_tags_list. eauto.
Qed.

Lemma _format_social_media_total (v : json) :
  null_or_dict v = true -> exists html, _format_social_media v = Ok html.
Proof.
  destruct v; try discriminate; intros _.
  - now exists no_social.
  - unfold _format_social_media.
    destruct (negb (truthy (JObj items))); [eauto|].
    cbn [py_values bind].
    destruct (negb (existsb truthy (map snd items))); [eauto|].
    unfold platforms. cbn [social_links py_get bind]. eauto.
Qed.

Lemma py_get_dict (kv : list (string * json)) (key : string) (default : json) :
  py_get (JObj kv) key default
  = Ok (value_or default (dict_get String.eqb key kv)).
Proof. reflexivity. Qed.

Lemma absent_or_value_or (p : json -> bool) (default : json)
      (o : option json) :
  p default = true -> absent_or p o = true -> p (value_or default o) = true.
Proof. now destruct o. Qed.

Lemma template_args_total (date : string) (data : json) :
  record_shaped data = true ->
  exists kwargs, template_args date data = Ok kwargs.
Proof.
  unfold record_shaped. rewrite !andb_true_iff.
  intros (((((((((Hd & Ho) & Hm) & Hp) & Hk) & Hs) & Hw) & Hn) & Ht) & Hsoc).
  destruct data; try discriminate. clear Hd.
  unfold nested in Hk. cbn [lookup] in *.
  assert (Hov : exists okv, value_or (JObj [])
                 (dict_get String.eqb "overview" items) = JObj okv).
  { destruct (dict_get String.eqb "overview" items) as [[]|];
      try discriminate; simpl; eauto. }
  assert (Hmk : exists mkv, value_or (JObj [])
                 (dict_get String.eqb "market_position" items) = JObj mkv
               /\ null_or_list_of (fun _ => true)
                    (value_or (JList [])
                       (dict_get String.eqb "key_competitors" mkv)) = true).
  { destruct (dict_get String.eqb "market_position" items) as [[]|];
      try discriminate; simpl; eexists; split; try reflexivity.
    now apply absent_or_value_or. }
  destruct Hov as [okv Hov]. destruct Hmk as (mkv & Hmk & Hkc).
  unfold template_args.
  rewrite py_get_dict. cbn [bind].
  destruct (_format_products_total _ (absent_or_value_or _ (JList []) _ eq_refl Hp))
    as [h1 ->]. cbn [bind].
  rewrite py_get_dict, Hmk. cbn [bind]. rewrite py_get_dict. cbn [bind].
  destruct (_format_competitors_total _ Hkc) as [h2 ->]. cbn [bind].
  rewrite py_get_dict. cbn [bind].
  destruct (_format_list_items_total _ "list-item"
             (absent_or_value_or _ (JList []) _ eq_refl Hs)) as [h3 ->].
  cbn [bind]. rewrite py_get_dict. cbn [bind].
  destruct (_format_list_items_total _ "list-item weakness"
             (absent_or_value_or _ (JList []) _ eq_refl Hw)) as [h4 ->].
  cbn [bind]. rewrite py_get_dict. cbn [bind].
  destruct (_format_news_total _ (absent_or_value_or _ (JList []) _ eq_refl Hn))
    as [h5 ->]. cbn [bind].
  rewrite py_get_dict. cbn [bind].
  destruct (_format_tags_total _ (absent_or_value_or _ (JList []) _ eq_refl Ht))
    as [h6 ->]. cbn [bind].
  rewrite py_get_dict. cbn [bind].
  destruct (_format_social_media_total _
             (absent_or_value_or _ (JObj []) _ eq_refl Hsoc)) as [h7 ->].
  cbn [bind].
  repeat (progress (rewrite ?py_get_dict, ?Hov, ?Hmk; cbn [bind])).
  eauto.
Qed.

Lemma format_html_total (date : string) (data : json) :
  record_shaped data = true ->
  exists kwargs html,
    template_args date data = Ok kwargs
    /\ format_html_from_json date data = Ok html
    /\ fill kwargs HTML_TEMPLATE_segments = Ok html.
Proof.
  intros Hshape.
  destruct (template_args_total date data Hshape) as [kwargs Hk].
  destruct (template_args_slots _ _ _ Hk) as [Hnames _].
  destruct (fill_total kwargs HTML_TEMPLATE_segments) as [html Hhtml].
  { rewrite Hnames. vm_compute. reflexivity. }
  exists kwargs, html. repeat split; auto.
  unfold format_html_from_json. rewrite Hk. cbn [bind].
  unfold py_format. rewrite parse_HTML_TEMPLATE. exact Hhtml.
Qed.
End Totality.

Lemma bind_ext {A B : Type} (c : result A) (k1 k2 : A -> result B) :
  (forall a, c = Ok a -> k1 a = k2 a) -> bind c k1 = bind c k2.
Proof. destruct c; simpl; auto. Qed.

Lemma template_has_slot (f : scalar_field) :
  exists before after,
    HTML_TEMPLATE_segments = (before ++ Field (slot_name f) :: after)%list.
Proof.
  apply in_split. destruct f; unfold HTML_TEMPLATE_segments; simpl slot_name;
    repeat (first [left; reflexivity | right]).
Qed.

Section Scalars.
Context {rt : Runtime}.

Lemma py_get_present (data : json) (key : string) (default v : json) :
  lookup data key = Some v -> py_get data key default = Ok v.
Proof. destruct data; simpl; try discriminate. now intros ->. Qed.

Lemma slot_of_field (date : string) (data : json)
      (kwargs : list (string * json)) (f : scalar_field) :
  template_args date data = Ok kwargs ->
  dict_get String.eqb (slot_name f) kwargs = Some (slot_value data f).
Proof.
  intros H. apply template_args_slots in H as [_ H].
  rewrite Forall_forall in H.
  apply (H (slot_name f, slot_value data f)).
  destruct f; unfold scalar_slots, slot_value; simpl; tauto.
Qed.

(** The page of a shaped record: the template filled with the keyword
    arguments, the text of each scalar slot sitting where the template has
    its field. *)
Lemma slot_in_page (date : string) (data : json) (f : scalar_field) :
  record_shaped data = true ->
  exists kwargs html before after b a,
    template_args date data = Ok kwargs
    /\ format_html_from_json date data = Ok html
    /\ HTML_TEMPLATE_segments = (before ++ Field (slot_name f) :: after)%list
    /\ fill kwargs before = Ok b /\ fill kwargs after = Ok a
    /\ dict_get String.eqb (slot_name f) kwargs = Some (slot_value data f)
    /\ html = b ++ py_str (slot_value data f) ++ a.
Proof.
  intros Hshape.
  destruct (format_html_total date data Hshape) as (kwargs & html & Hk & Hh & Hf).
  destruct (template_has_slot f) as (before & after & Hsplit).
  rewrite Hsplit in Hf.
  destruct (fill_split _ _ _ _ _ Hf) as (v & b & a & Hv & Hb & Ha & ->).
  rewrite (slot_of_field date data kwargs f Hk) in Hv. injection Hv as <-.
  exists kwargs, (b ++ py_str (slot_value data f) ++ a), before, after, b, a.
  repeat split; auto. exact (slot_of_field date data kwargs f Hk).
Qed.

Lemma missing_slot_value (data : json) (f : scalar_field) :
  missing data f = true -> slot_value data f = JStr (placeholder f).
Proof.
  unfold missing, slot_value.
  destruct (nullable f) eqn:Hn.
  - destruct (field_value data f) as [[]|]; try discriminate; intros _;
      destruct f; try discriminate; reflexivity.
  - destruct (field_value data f); [discriminate | reflexivity].
Qed.

Lemma falsy_slot_value (data : json) (f : scalar_field) :
  nullable f = true -> falsy_or_absent (field_value data f) = true ->
  slot_value data f = JStr "N/A".
Proof.
  unfold slot_value, falsy_or_absent, py_or. intros ->.
  destruct (field_value data f) as [v|]; simpl; [|reflexivity].
  now destruct (truthy v).
Qed.

(** C3, as amended. In the page of a shaped record, a missing optional
    scalar field renders as its placeholder, in the position of the field:
    [founded_year], [headquarters], [size], [market_share] and
    [pricing_model] render as "N/A" when they are [null] or absent;
    [target_market] renders as "N/A" and [description] as
    "No description available" when they are absent. Rendering the record
    does not raise, and the placeholder is never the text "null". *)
Theorem C3_missing_scalar_renders_placeholder
        (date : string) (data : json) (f : scalar_field) :
  record_shaped data = true ->
  missing data f = true ->
  exists kwargs html before after b a,
    template_args date data = Ok kwargs
    /\ format_html_from_json date data = Ok html
    /\ HTML_TEMPLATE_segments = (before ++ Field (slot_name f) :: after)%list
    /\ fill kwargs before = Ok b /\ fill kwargs after = Ok a
    /\ dict_get String.eqb (slot_name f) kwargs = Some (JStr (placeholder f))
    /\ html = b ++ placeholder f ++ a
    /\ placeholder f <> "null".
Proof.
  intros Hshape Hmissing.
  destruct (slot_in_page date data f Hshape)
    as (kwargs & html & before & after & b & a & H).
  rewrite (missing_slot_value data f Hmissing) in H.
  exists kwargs, html, before, after, b, a.
  decompose [and] H. repeat split; auto.
  destruct f; discriminate.
Qed.

(** C10. The renderer puts "N/A" in the slot of [founded_year],
    [headquarters], [size], [market_share] or [pricing_model] whenever the
    field is absent or holds a falsy value, the integer 0 and the empty
    string included, not only when it is [null]: the substitution is
    [value or "N/A"], which tests the truth value. *)
Theorem C10_falsy_scalar_renders_NA
        (date : string) (data : json) (f : scalar_field) :
  record_shaped data = true ->
  nullable f = true ->
  falsy_or_absent (field_value data f) = true ->
  exists kwargs html before after b a,
    template_args date data = Ok kwargs
    /\ format_html_from_json date data = Ok html
    /\ HTML_TEMPLATE_segments = (before ++ Field (slot_name f) :: after)%list
    /\ fill kwargs before = Ok b /\ fill kwargs after = Ok a
    /\ dict_get String.eqb (slot_name f) kwargs = Some (JStr "N/A")
    /\ html = b ++ "N/A" ++ a
    /\ falsy_or_absent (Some (JInt 0)) = true
    /\ falsy_or_absent (Some (JStr "")) = true.
Proof.
  intros Hshape Hnullable Hfalsy.
  destruct (slot_in_page date data f Hshape)
    as (kwargs & html & before & after & b & a & H).
  rewrite (falsy_slot_value data f Hnullable Hfalsy) in H.
  exists kwargs, html, before, after, b, a.
  decompose [and] H. repeat split; auto.
Qed.

(** C1, as amended. A record that carries an [analysis_date] renders to the
    same result whatever the clock shows: two renders of it give identical
    HTML. (The date of the day enters the page only as the default of
    [analysis_date].) *)
Theorem C1_dated_record_renders_the_same_on_any_day
        (data v : json) (date1 date2 : string) :
  lookup data "analysis_date" = Some v ->
  format_html_from_json date1 data = format_html_from_json date2 data.
Proof.
  intros Hdate. unfold format_html_from_json.
  assert (E : template_args date1 data = template_args date2 data);
    [|now rewrite E].
  unfold template_args.
  repeat (apply bind_ext; intros ? ?).
  rewrite !(py_get_present data "analysis_date" _ v Hdate).
  reflexivity.
Qed.
End Scalars.

(** ** Sections of the list-valued fields *)

Lemma template_has_section (f : list_field) :
  exists before after,
    HTML_TEMPLATE_segments = (before ++ Field (section_slot f) :: after)%list.
Proof.
  apply in_split. destruct f; unfold HTML_TEMPLATE_segments; simpl section_slot;
    repeat (first [left; reflexivity | right]).
Qed.

Lemma objects_of_dicts (items : list json) :
  forallb is_dict items = true -> items = map JObj (map items_of items).
Proof.
  induction items as [|x items IH]; simpl; intros H; [reflexivity|].
  apply andb_true_iff in H as [Hx H].
  destruct x; try discriminate. simpl. now rewrite <- (IH H).
Qed.

Lemma section_html_map {A B : Type} (placeholder opening closing : string)
      (g : B -> string) (h : A -> B) (l : list A) :
  section_html placeholder opening closing g (map h l)
  = section_html placeholder opening closing (fun x => g (h x)) l.
Proof. destruct l; simpl; [reflexivity | now rewrite map_map]. Qed.

Section SectionsOfLists.
Context {rt : Runtime}.

(** The section of a list, as the renderer computes it *)
Lemma section_of_list (data : json) (f : list_field) (items : list json) :
  record_shaped data = true ->
  list_value data f = Some (JList items) ->
  match f with
  | Products => _format_products (JList items)
  | Competitors => _format_competitors (JList items)
  | Strengths => _format_list_items (JList items) "list-item"
  | Weaknesses => _format_list_items (JList items) "list-item weakness"
  | News => _format_news (JList items)
  | Technology => _format_tags (JList items)
  end
  = Ok (section_html (empty_section f) (section_opening f) (section_closing f)
                     (fragment_of f) items).
Proof.
  intros Hshape Hf.
  unfold record_shaped in Hshape. rewrite !andb_true_iff in Hshape.
  destruct Hshape
    as (((((((((Hd & Ho) & Hm) & Hp) & Hk) & Hs) & Hw) & Hn) & Ht) & Hsoc).
  destruct f; simpl list_value in Hf.
  - rewrite Hf in Hp. simpl in Hp.
    rewrite (objects_of_dicts items Hp) at 1.
    rewrite _format_products_list, section_html_map. reflexivity.
  - rewrite _format_competitors_list. reflexivity.
  - rewrite _format_list_items_list. reflexivity.
  - rewrite _format_list_items_list. reflexivity.
  - rewrite Hf in Hn. simpl in Hn.
    rewrite (objects_of_dicts items Hn) at 1.
    rewrite _format_news_list, section_html_map. reflexivity.
  - rewrite _format_tags_list. reflexivity.
Qed.

Lemma section_slot_value (date : string) (data : json)
      (kwargs : list (string * json)) (f : list_field) (items : list json) :
  template_args date data = Ok kwargs ->
  record_shaped data = true ->
  list_value data f = Some (JList items) ->
  dict_get String.eqb (section_slot f) kwargs
  = Some (JStr (section_html (empty_section f) (section_opening f)
                             (section_closing f) (fragment_of f) items)).
Proof.
  intros H Hshape Hf.
  pose proof (section_of_list data f items Hshape Hf) as Hsec.
  unfold template_args in H. invert_binds H. injection H as <-.
  destruct f; simpl list_value in Hf; cbn [section_slot dict_get String.eqb
                                            Ascii.eqb Bool.eqb];
    repeat match goal with
           | Ho : py_get data ?outer (JObj []) = Ok ?o,
             Hx : py_get ?o "key_competitors" ?d = Ok ?x |- _ =>
               apply (nested_get data outer "key_competitors" d o x Ho) in Hx;
               rewrite Hf in Hx; simpl in Hx; subst x
           | Hx : py_get data ?key (JList []) = Ok ?x |- _ =>
               apply py_get_Ok_inv in Hx as [_ Hx];
               try (rewrite Hf in Hx; simpl in Hx); subst x
           end;
    match goal with
    | Hfmt : ?c = Ok ?h |- Some (JStr ?h') = _ =>
        match type of Hsec with
        | c = _ => rewrite Hsec in Hfmt; injection Hfmt as <-; reflexivity
        end
    end.
Qed.

(** C7. In the page of a shaped record, the section of each list-valued
    field (products, key competitors, strengths, weaknesses, news,
    technology stack) stands where the template has the slot of the
    section, and is made from the list the record holds in the field: the
    "no data" paragraph alone when the list is empty, and otherwise one
    styled fragment per element, the fragments concatenated in the order of
    the list (the cards of the products inside the tags of their grid). *)
Theorem C7_sections_follow_their_lists
        (date : string) (data : json) (f : list_field) (items : list json) :
  record_shaped data = true ->
  list_value data f = Some (JList items) ->
  exists kwargs html before after b a,
    template_args date data = Ok kwargs
    /\ format_html_from_json date data = Ok html
    /\ HTML_TEMPLATE_segments = (before ++ Field (section_slot f) :: after)%list
    /\ fill kwargs before = Ok b /\ fill kwargs after = Ok a
    /\ html
       = b ++ match items with
              | [] => empty_section f
              | _ :: _ =>
                  section_opening f
                    ++ String.concat "" (map (fragment_of f) items)
                    ++ section_closing f
              end ++ a.
Proof.
  intros Hshape Hf.
  destruct (format_html_total date data Hshape) as (kwargs & html & Hk & Hh & Hfill).
  destruct (template_has_section f) as (before & after & Hsplit).
  rewrite Hsplit in Hfill.
  destruct (fill_split _ _ _ _ _ Hfill) as (v & b & a & Hv & Hb & Ha & ->).
  rewrite (section_slot_value date data kwargs f items Hk Hshape Hf) in Hv.
  injection Hv as <-.
  exists kwargs, (b ++ py_str (JStr (section_html (empty_section f)
                     (section_opening f) (section_closing f)
                     (fragment_of f) items)) ++ a), before, after, b, a.
  repeat split; auto.
Qed.
End SectionsOfLists.


(* ===================================================================== *)
(** * Properties of the parsers *)
(* ===================================================================== *)

Lemma prefix_append (x s : string) : prefix x (x ++ s) = true.
Proof.
  induction x as [|c x IH]; simpl; [now destruct s|].
  destruct (ascii_dec c c); [exact IH | contradiction].
Qed.

Lemma py_in_unfold (x s : string) :
  py_in x s = if prefix x s then true
              else match s with
                   | EmptyString => false
                   | String _ s' => py_in x s'
                   end.
Proof. now destruct s. Qed.

Lemma py_in_here (x s : string) : py_in x (x ++ s) = true.
Proof. now rewrite py_in_unfold, prefix_append. Qed.

Lemma py_in_append (x a s : string) :
  py_in x s = true -> py_in x (a ++ s) = true.
Proof.
  intros H. induction a as [|c a IH]; [exact H|].
  change (String c a ++ s) with (String c (a ++ s)).
  rewrite py_in_unfold, IH.
  now destruct (prefix x (String c (a ++ s))).
Qed.

Lemma py_in_middle (x a b : string) : py_in x (a ++ x ++ b) = true.
Proof. apply py_in_append, py_in_here. Qed.

Lemma prefix_trans (a b s : string) :
  prefix a b = true -> prefix b s = true -> prefix a s = true.
Proof.
  revert b s. induction a as [|x a IH]; intros b s Hab Hbs; [now destruct s|].
  destruct b as [|y b]; [discriminate|]. destruct s as [|z s]; [discriminate|].
  simpl in *.
  destruct (ascii_dec x y) as [->|]; [|discriminate].
  destruct (ascii_dec y z) as [->|]; [|discriminate].
  eapply IH; eassumption.
Qed.

(** A string that contains [b] contains every prefix of [b]. *)
Lemma py_in_shorter (a b s : string) :
  prefix a b = true -> py_in b s = true -> py_in a s = true.
Proof.
  intros Hab. induction s as [|c s IH].
  - rewrite !(py_in_unfold _ EmptyString).
    destruct (prefix b "") eqn:Hb; [|discriminate].
    now rewrite (prefix_trans a b "" Hab Hb).
  - rewrite !(py_in_unfold _ (String c s)).
    destruct (prefix b (String c s)) eqn:Hb.
    + now rewrite (prefix_trans a b _ Hab Hb).
    + intros H. rewrite (IH H). now destruct (prefix a (String c s)).
Qed.

Lemma split_go_nonempty (sep : string) (fuel : nat) (acc s : string) :
  exists a rest, split_go sep fuel acc s = a :: rest.
Proof.
  revert acc s.
  induction fuel as [|fuel IH]; intros acc s; cbn [split_go]; [eauto|].
  destruct s as [|c s]; [eauto|].
  destruct (prefix sep (String c s)); eauto.
Qed.

(** A string that contains the separator splits into at least two
    pieces. *)
Lemma split_go_two (sep : string) (s : string) :
  sep <> "" ->
  forall (fuel : nat) (acc : string),
    String.length s < fuel -> py_in sep s = true ->
    exists a b rest, split_go sep fuel acc s = a :: b :: rest.
Proof.
  intros Hsep. induction s as [|c s IH]; intros fuel acc Hfuel Hin.
  - simpl in Hin. destruct sep; [contradiction | discriminate].
  - destruct fuel as [|fuel]; [inversion Hfuel|].
    rewrite py_in_unfold in Hin. cbn [split_go].
    destruct (prefix sep (String c s)).
    + destruct (split_go_nonempty sep fuel "" (drop (String.length sep) (String c s)))
        as (b & rest & ->). eauto.
    + apply IH; [simpl in Hfuel; lia | exact Hin].
Qed.

Lemma py_split_two (sep s : string) :
  sep <> "" -> py_in sep s = true ->
  exists a b rest, py_split sep s = a :: b :: rest.
Proof. intros Hsep Hin. apply split_go_two; auto. Qed.

Lemma py_split_nonempty (sep s : string) :
  exists a rest, py_split sep s = a :: rest.
Proof. apply split_go_nonempty. Qed.

Section Parsers.
Context {rt : Runtime}.

Lemma fenced_text_total (text : string) :
  exists t, fenced_text text = Ok t.
Proof.
  unfold fenced_text.
  destruct (py_in "```json" text) eqn:Hj.
  - destruct (py_split_two "```json" text) as (a & b & rest & ->);
      [discriminate | exact Hj |].
    cbn [py_index nth_error bind].
    destruct (py_split_nonempty "```" b) as (x & xs & ->).
    cbn [py_index nth_error]. eauto.
  - destruct (py_in "```" text) eqn:Hf; [|eauto].
    destruct (py_split_two "```" text) as (a & b & rest & ->);
      [discriminate | exact Hf |].
    cbn [py_index nth_error bind].
    destruct (py_split_nonempty "```" b) as (x & xs & ->).
    cbn [py_index nth_error]. eauto.
Qed.

Lemma fenced_text_block (text : string) :
  fenced_text text = Ok (block_of text).
Proof.
  unfold block_of. now destruct (fenced_text_total text) as [t ->].
Qed.

Lemma decode_response_direct (text : string) (v : json) :
  json_loads text = Ok v -> decode_response text = Ok v.
Proof. unfold decode_response. now intros ->. Qed.

Lemma decode_response_second (text : string) (e : exn) :
  json_loads text = Raise e -> is_JSONDecodeError (exn_cls e) = true ->
  decode_response text = json_loads (py_strip (block_of text)).
Proof.
  unfold decode_response. intros -> ->.
  now rewrite fenced_text_block.
Qed.

Lemma _parse_batch_response_block (text : string) :
  _parse_batch_response text
  = (batch_data <- json_loads (py_strip (block_of text)) ;;
     match batch_data with
     | JList items => Ok items
     | _ => Raise not_an_array
     end).
Proof. unfold _parse_batch_response. now rewrite fenced_text_block. Qed.

Lemma _parse_response_raises (text : string) (e : exn) (w : World) :
  decode_response text = Raise e ->
  _parse_response text w
  = (Raise (Exn ValueError ("Failed to parse agent response: " ++ exn_str e)),
     mkWorld (sent w)
             (stdout w ++ [ "❌ Error parsing response: " ++ exn_str e;
                            "Raw response preview: " ++ py_take 500 text
                                                    ++ "..." ])).
Proof.
  intros H. unfold _parse_response, mbind, attempt, lift. rewrite H.
  unfold print, raise. cbn. now rewrite <- app_assoc.
Qed.

(** C5, as amended. When the response is valid JSON at no stage (decoding
    it as it is raises a [JSONDecodeError], and so does decoding the
    stripped fenced block, or the stripped text when there is no fence), the
    single-mode parser prints the decoder's message, prints a preview made
    of the first 500 characters of the response, and raises a [ValueError]
    whose message is "Failed to parse agent response: " followed by the
    decoder's message. The preview is printed; the error does not carry
    it. *)
Theorem C5_parse_failure_prints_preview
        (text : string) (e1 e2 : exn) (w : World) :
  json_loads text = Raise e1 ->
  is_JSONDecodeError (exn_cls e1) = true ->
  json_loads (py_strip (block_of text)) = Raise e2 ->
  _parse_response text w
  = (Raise (Exn ValueError ("Failed to parse agent response: " ++ exn_str e2)),
     mkWorld (sent w)
             (stdout w ++ [ "❌ Error parsing response: " ++ exn_str e2;
                            "Raw response preview: " ++ py_take 500 text
                                                    ++ "..." ]))
  /\ py_take 500 text = String.concat "" (firstn 500 (py_chars text))
  /\ List.length (firstn 500 (py_chars text)) <= 500.
Proof.
  intros H1 Hc H2. split; [|split].
  - apply _parse_response_raises.
    now rewrite (decode_response_second text e1 H1 Hc).
  - reflexivity.
  - apply firstn_le_length.
Qed.

(** Without a fence marker both parsers go on with the response itself. *)
Lemma fenced_text_without_fence (text : string) :
  py_in "```" text = false -> fenced_text text = Ok text.
Proof.
  intros Hfence. unfold fenced_text. rewrite Hfence.
  destruct (py_in "```json" text) eqn:Hjson; [|reflexivity].
  apply (py_in_shorter "```" "```json") in Hjson; [|reflexivity].
  rewrite Hjson in Hfence. discriminate.
Qed.

(** X24. Where the two parsers agree. The batch parser decodes the stripped
    fenced block, or the stripped text when there is no fence, and nothing
    else. It returns the array the single-mode parser returns for every
    response whose direct decoding fails, and for every response without a
    fence marker that the decoder reads in the same way once the white space
    around it is stripped. *)
Theorem X24_batch_parser_agrees_outside_fenced_json
        (text : string) (items : list json) :
  (exists e, json_loads text = Raise e /\ is_JSONDecodeError (exn_cls e) = true)
  \/ (py_in "```" text = false /\ json_loads (py_strip text) = json_loads text) ->
  decode_response text = Ok (JList items) ->
  _parse_batch_response text = Ok items.
Proof.
  intros [(e & Hfail & Hclass) | (Hfence & Hstrip)] Hsingle.
  - rewrite (decode_response_second text e Hfail Hclass) in Hsingle.
    now rewrite _parse_batch_response_block, Hsingle.
  - unfold _parse_batch_response.
    rewrite (fenced_text_without_fence text Hfence). cbn [bind].
    rewrite Hstrip.
    unfold decode_response in Hsingle.
    destruct (json_loads text) as [v|e] eqn:Hdirect.
    + injection Hsingle as ->. reflexivity.
    + destruct (is_JSONDecodeError (exn_cls e)); [|discriminate].
      rewrite (fenced_text_without_fence text Hfence) in Hsingle.
      cbn [bind] in Hsingle. rewrite Hstrip in Hsingle. discriminate.
Qed.
End Parsers.


(* ===================================================================== *)
(** * Properties of the batch orchestrator *)
(* ===================================================================== *)

Lemma mbind_Ok_inv {A B : Type} (c : M A) (k : A -> M B) (w w' : World) (b : B) :
  mbind c k w = (Ok b, w') ->
  exists a w1, c w = (Ok a, w1) /\ k a w1 = (Ok b, w').
Proof.
  unfold mbind. destruct (c w) as [[a|e] w1]; [eauto | discriminate].
Qed.

Section Orchestrator.
Context {rt : Runtime} {env : Env}.

Lemma fallback_loop_cons (total i : nat) (url : string) (name : option string)
      (rest : list (string * option string)) (results : list (json * string))
      (w : World) :
  fallback_loop total i ((url, name) :: rest) results w
  = match analyze_competitor url name (announced total i name w) with
    | (Ok html, w1) =>
        fallback_loop total (S i) rest
                      (dict_set key_eqb (name_key name) html results) w1
    | (Raise e, w1) =>
        fallback_loop total (S i) rest
          (dict_set key_eqb (name_key name)
                    (_create_error_report name (exn_str e)) results)
          (mkWorld (sent w1) (stdout w1 ++ ["❌ Failed: " ++ exn_str e]))
    end.
Proof.
  cbn [fallback_loop]. unfold mbind at 1. cbn [print].
  unfold mbind at 1, attempt. fold (announced total i name w).
  destruct (analyze_competitor url name (announced total i name w))
    as [[html|e] w1]; reflexivity.
Qed.

Lemma fallback_loop_total (total : nat)
      (companies : list (string * option string)) :
  forall (i : nat) (results : list (json * string)) (w : World),
  exists results' w',
    fallback_loop total i companies results w = (Ok results', w').
Proof.
  induction companies as [|[url name] rest IH]; intros i results w.
  - simpl. unfold mret. eauto.
  - rewrite fallback_loop_cons.
    destruct (analyze_competitor url name (announced total i name w))
      as [[html|e] w1]; apply IH.
Qed.

(** C9. On the empty list the orchestrator raises [ZeroDivisionError] while
    computing the savings of its banner: two lines are printed, no prompt is
    sent, and no mapping is returned. *)
Theorem C9_empty_batch_divides_by_zero (w : World) :
  analyze_multiple_competitors [] w
  = (Raise (Exn ZeroDivisionError "division by zero"),
     mkWorld (sent w)
             (stdout w ++ [nl ++ rule; "🚀 BATCH Analysis for 0 competitors"])).
Proof.
  unfold analyze_multiple_competitors, request_batch, mbind, print, lift.
  cbn. now rewrite <- app_assoc.
Qed.

(** ** Dictionaries keyed by company names *)

Lemma key_eqb_names (a b : option string) :
  key_eqb (name_key a) (name_key b) = true <-> a = b.
Proof.
  destruct a as [s|], b as [t|]; simpl; split; try discriminate; auto.
  - intros H. apply String.eqb_eq in H. now subst.
  - intros H. injection H as ->. apply String.eqb_refl.
Qed.

Lemma key_eqb_plain (a b : json) :
  plain_key a = true -> plain_key b = true ->
  (key_eqb a b = true <-> a = b).
Proof.
  destruct a, b; simpl; try discriminate; intros _ _; split;
    try discriminate; auto.
  - intros H. apply String.eqb_eq in H. now subst.
  - intros H. injection H as ->. apply String.eqb_refl.
Qed.

Lemma plain_name_key (name : option string) : plain_key (name_key name) = true.
Proof. now destruct name. Qed.

Lemma dict_get_set_same {V : Type} (k : json) (v : V) (d : list (json * V)) :
  key_eqb k k = true ->
  dict_get key_eqb k (dict_set key_eqb k v d) = Some v.
Proof.
  intros Hk. induction d as [|[k' v'] d IH]; simpl.
  - now rewrite Hk.
  - destruct (key_eqb k k') eqn:E; simpl; rewrite E; auto.
Qed.

Lemma dict_get_set_other {V : Type} (k1 k : json) (v : V)
      (d : list (json * V)) :
  plain_key k1 = true -> plain_key k = true ->
  forallb plain_key (map fst d) = true ->
  k1 <> k ->
  dict_get key_eqb k1 (dict_set key_eqb k v d) = dict_get key_eqb k1 d.
Proof.
  intros H1 Hk Hd Hne.
  assert (Hf : key_eqb k1 k = false).
  { destruct (key_eqb k1 k) eqn:E; [|reflexivity].
    apply key_eqb_plain in E; auto. contradiction. }
  induction d as [|[k' v'] d IH]; simpl.
  - now rewrite Hf.
  - simpl in Hd. apply andb_true_iff in Hd as [Hk' Hd].
    destruct (key_eqb k k') eqn:E; simpl.
    + apply key_eqb_plain in E; auto. subst k'. now rewrite Hf.
    + destruct (key_eqb k1 k'); auto.
Qed.

Lemma plain_dict_set {V : Type} (k : json) (v : V) (d : list (json * V)) :
  plain_key k = true ->
  forallb plain_key (map fst d) = true ->
  forallb plain_key (map fst (dict_set key_eqb k v d)) = true.
Proof.
  intros Hk. induction d as [|[k' v'] d IH]; simpl; intros Hd.
  - now rewrite Hk.
  - apply andb_true_iff in Hd as [Hk' Hd].
    destruct (key_eqb k k'); simpl; rewrite Hk'; simpl; auto.
Qed.

Lemma dict_set_absent {V : Type} (k : json) (v : V) (d : list (json * V)) :
  dict_get key_eqb k d = None -> dict_set key_eqb k v d = (d ++ [(k, v)])%list.
Proof.
  induction d as [|[k' v'] d IH]; simpl; [reflexivity|].
  destruct (key_eqb k k'); [discriminate|].
  intros H. now rewrite IH.
Qed.

Lemma dict_get_app_absent {V : Type} (k1 k : json) (v : V)
      (d : list (json * V)) :
  key_eqb k1 k = false -> dict_get key_eqb k1 d = None ->
  dict_get key_eqb k1 (d ++ [(k, v)])%list = None.
Proof.
  intros Hf. induction d as [|[k' v'] d IH]; simpl.
  - now rewrite Hf.
  - destruct (key_eqb k1 k'); [discriminate | exact IH].
Qed.

(** ** Error pages *)

Lemma error_report_mentions (name : option string) (msg : string) :
  py_in (name_str name) (_create_error_report name msg) = true
  /\ py_in msg (_create_error_report name msg) = true.
Proof.
  unfold _create_error_report. split.
  - apply py_in_middle.
  - do 5 apply py_in_append. apply py_in_here.
Qed.

(** ** The loop of the fallback *)

Lemma fallback_loop_keeps (total : nat) (k : json) (page : string)
      (companies : list (string * option string)) :
  plain_key k = true ->
  Forall (fun c => name_key (snd c) <> k) companies ->
  forall (i : nat) (results results' : list (json * string)) (w w' : World),
    forallb plain_key (map fst results) = true ->
    dict_get key_eqb k results = Some page ->
    fallback_loop total i companies results w = (Ok results', w') ->
    dict_get key_eqb k results' = Some page.
Proof.
  intros Hk Hne.
  induction Hne as [|[url name] rest Hname Hrest IH];
    intros i results results' w w' Hplain Hget Hrun.
  - simpl in Hrun. unfold mret in Hrun. now injection Hrun as <- <-.
  - rewrite fallback_loop_cons in Hrun. simpl in Hname.
    destruct (analyze_competitor url name (announced total i name w))
      as [[html|e] w1];
      (eapply IH; [| | exact Hrun];
       [ apply plain_dict_set; [apply plain_name_key | exact Hplain]
       | rewrite dict_get_set_other; auto using plain_name_key ]).
Qed.

(** C4, as amended. In the fallback, when the analysis of a company raises
    (its generation call or the parsing of its response), the loop goes on
    and returns a mapping, without raising; unless a later company has the
    same name, the entry of the failed company is the error page, which
    contains the display name of the company (not its website) and the
    message of the exception. *)
Theorem C4_failed_item_gets_an_error_page
        (total i : nat) (url : string) (name : option string)
        (rest : list (string * option string))
        (results : list (json * string)) (w w1 : World) (e : exn) :
  analyze_competitor url name (announced total i name w) = (Raise e, w1) ->
  ~ In name (map snd rest) ->
  forallb plain_key (map fst results) = true ->
  exists results' w',
    fallback_loop total i ((url, name) :: rest) results w = (Ok results', w')
    /\ dict_get key_eqb (name_key name) results'
       = Some (_create_error_report name (exn_str e))
    /\ py_in (name_str name) (_create_error_report name (exn_str e)) = true
    /\ py_in (exn_str e) (_create_error_report name (exn_str e)) = true.
Proof.
  intros Hfail Hfresh Hplain.
  destruct (fallback_loop_total total ((url, name) :: rest) i results w)
    as (results' & w' & Hrun).
  exists results', w'. split; [exact Hrun|]. split.
  - rewrite fallback_loop_cons, Hfail in Hrun.
    eapply fallback_loop_keeps; [apply plain_name_key | | | | exact Hrun].
    + apply Forall_forall. intros [u n] Hin Heq. simpl in Heq.
      apply Hfresh, in_map_iff. exists (u, n). split; [|exact Hin].
      simpl. apply key_eqb_names. rewrite Heq.
      apply key_eqb_names. reflexivity.
    + apply plain_dict_set; [apply plain_name_key | exact Hplain].
    + apply dict_get_set_same, key_eqb_names. reflexivity.
  - apply error_report_mentions.
Qed.
End Orchestrator.

Lemma NoDup_map_Some {A : Type} (l : list A) :
  NoDup l -> NoDup (map (@Some A) l).
Proof.
  induction 1 as [|x l Hx Hl IH]; simpl; constructor; auto.
  intros Hin. apply in_map_iff in Hin as (y & Hy & Hin).
  injection Hy as ->. contradiction.
Qed.

Section Orchestrator2.
Context {rt : Runtime} {env : Env}.

Lemma print_run (line : string) (w : World) :
  print line w = (Ok tt, mkWorld (sent w) (stdout w ++ [line])).
Proof. reflexivity. Qed.

Lemma analyze_competitor_report (url : string) (name : option string)
      (w w' : World) (html : string) :
  analyze_competitor url name w = (Ok html, w') -> is_report html.
Proof.
  unfold analyze_competitor. intros H.
  repeat (let a := fresh "a" in
          let w1 := fresh "w" in
          let Ha := fresh "Ha" in
          apply mbind_Ok_inv in H as (a & w1 & Ha & H)).
  unfold mret in H. injection H as <- <-.
  match goal with
  | Hr : render ?data ?w0 = (Ok ?h, _) |- is_report ?h =>
      unfold render, mbind, read_today, lift in Hr;
      injection Hr as Hr _; now exists (today w0), data
  end.
Qed.

Lemma fallback_loop_entries (total : nat)
      (companies : list (string * option string)) :
  NoDup (map snd companies) ->
  forall (i : nat) (results results' : list (json * string)) (w w' : World),
    Forall (fun c => dict_get key_eqb (name_key (snd c)) results = None)
           companies ->
    fallback_loop total i companies results w = (Ok results', w') ->
    exists added,
      results' = (results ++ added)%list
      /\ Forall2 (fun c entry => entry_for (snd c) entry) companies added.
Proof.
  induction companies as [|[url name] rest IH];
    intros Hnodup i results results' w w' Hfresh Hrun.
  - simpl in Hrun. unfold mret in Hrun. injection Hrun as <- <-.
    exists []. now rewrite app_nil_r.
  - simpl in Hnodup. inversion Hnodup as [|? ? Hnotin Hnodup']; subst.
    inversion Hfresh as [|? ? Habsent Hfresh']; subst. simpl in Habsent.
    rewrite fallback_loop_cons in Hrun.
    assert (Hstep : forall page,
               Forall (fun c => dict_get key_eqb (name_key (snd c))
                                 (results ++ [(name_key name, page)])%list
                               = None) rest).
    { intros page. rewrite Forall_forall in *. intros [u n] Hin. simpl.
      apply dict_get_app_absent; [|exact (Hfresh' (u, n) Hin)].
      destruct (key_eqb (name_key n) (name_key name)) eqn:E; [|reflexivity].
      apply key_eqb_names in E. subst n. exfalso. apply Hnotin.
      apply in_map_iff. now exists (u, name). }
    destruct (analyze_competitor url name (announced total i name w))
      as [[html|e] w1] eqn:Hitem;
      rewrite (dict_set_absent _ _ _ Habsent) in Hrun;
      destruct (IH Hnodup' _ _ _ _ _ (Hstep _) Hrun) as (added & -> & Hadded).
    + exists ((name_key name, html) :: added). split.
      * now rewrite <- app_assoc.
      * constructor; [|exact Hadded]. split; [reflexivity|]. left.
        eapply analyze_competitor_report, Hitem.
    + exists ((name_key name, _create_error_report name (exn_str e)) :: added).
      split.
      * now rewrite <- app_assoc.
      * constructor; [|exact Hadded]. split; [reflexivity|]. right.
        now exists (exn_str e).
Qed.

Lemma complete_batch_falls_back (companies : list (string * option string))
      (response : string) (e : exn) (w : World) :
  _parse_batch_response response = Raise e ->
  complete_batch companies response w
  = _fallback_individual_analysis companies
      (mkWorld (sent w)
               (stdout w ++ [ "❌ Batch parsing failed: " ++ exn_str e;
                              "🔄 Falling back to individual analysis..." ])).
Proof.
  intros H. unfold complete_batch, mbind at 1, attempt, lift. rewrite H.
  unfold mbind at 1. rewrite print_run. unfold mbind at 1. rewrite print_run.
  cbn [sent stdout]. now rewrite <- app_assoc.
Qed.

(** C2, as amended. When the batch call returns a response that the batch
    parser rejects, and every company has a display name, the names being
    pairwise distinct, the orchestrator returns a mapping, without raising,
    that has exactly one entry per input, in the order of the inputs: the
    entry is keyed by the display name and holds a rendered report or an
    error page. *)
Theorem C2_fallback_gives_one_entry_per_named_input
        (named : list (string * string)) (response : string) (e : exn)
        (w w1 : World) :
  request_batch (named_companies named) w = (Ok response, w1) ->
  _parse_batch_response response = Raise e ->
  NoDup (map snd named) ->
  exists results w',
    analyze_multiple_competitors (named_companies named) w = (Ok results, w')
    /\ Forall2 (fun c entry => entry_for (Some (snd c)) entry) named results.
Proof.
  intros Hreq Hparse Hnodup.
  assert (Hnd : NoDup (map snd (named_companies named))).
  { unfold named_companies. rewrite map_map. simpl.
    rewrite <- (map_map snd (@Some string)). now apply NoDup_map_Some. }
  unfold analyze_multiple_competitors, mbind at 1. rewrite Hreq.
  rewrite (complete_batch_falls_back _ _ _ _ Hparse).
  unfold _fallback_individual_analysis, mbind at 1. rewrite print_run.
  match goal with
  | |- context [fallback_loop ?t ?i ?cs ?r ?w0] =>
      destruct (fallback_loop_total t cs i r w0) as (results & w' & Hrun);
      destruct (fallback_loop_entries t cs Hnd i r results w0 w')
        as (added & Hadded & Hentries);
      [apply Forall_forall; reflexivity | exact Hrun |]
  end.
  exists results, w'. split; [exact Hrun|].
  simpl in Hadded. subst results.
  unfold named_companies in Hentries.
  clear - Hentries. revert added Hentries.
  induction named as [|c named IH]; intros added H; inversion H; subst;
    constructor; auto.
Qed.

(** X25. The type check of the batch parser bears on the text the parser
    decodes, the stripped fenced block or the stripped response when it has
    no fence. When that text is a JSON value that is not an array, the
    parser raises the [ValueError] "Response is not a JSON array"; when it
    is malformed, the parser raises the decoder's [JSONDecodeError]. The
    two errors are of different classes, and the orchestrator answers both
    in the same way: it prints the message and runs the fallback. *)
Theorem X25_non_array_and_malformed_both_fall_back
        (object_text malformed_text : string) (v : json) (e : exn)
        (companies : list (string * option string)) (w : World) :
  json_loads (py_strip (block_of object_text)) = Ok v ->
  is_list v = false ->
  json_loads (py_strip (block_of malformed_text)) = Raise e ->
  is_JSONDecodeError (exn_cls e) = true ->
  _parse_batch_response object_text = Raise not_an_array
  /\ _parse_batch_response malformed_text = Raise e
  /\ exn_cls not_an_array <> exn_cls e
  /\ complete_batch companies object_text w
     = _fallback_individual_analysis companies
         (mkWorld (sent w)
                  (stdout w
                     ++ [ "❌ Batch parsing failed: " ++ exn_str not_an_array;
                          "🔄 Falling back to individual analysis..." ]))
  /\ complete_batch companies malformed_text w
     = _fallback_individual_analysis companies
         (mkWorld (sent w)
                  (stdout w
                     ++ [ "❌ Batch parsing failed: " ++ exn_str e;
                          "🔄 Falling back to individual analysis..." ])).
Proof.
  intros Hv Hlist He Hcls.
  assert (H1 : _parse_batch_response object_text = Raise not_an_array).
  { rewrite _parse_batch_response_block, Hv. simpl.
    destruct v; try reflexivity. discriminate. }
  assert (H2 : _parse_batch_response malformed_text = Raise e).
  { now rewrite _parse_batch_response_block, He. }
  repeat split; auto using complete_batch_falls_back.
  intros Heq. simpl in Heq. rewrite <- Heq in Hcls. discriminate.
Qed.
End Orchestrator2.

(* ===================================================================== *)
(** * The properties on the example inputs *)
(* ===================================================================== *)

Section OnExamples.
#[local] Existing Instance CPython.runtime.

(** A record without [analysis_date] renders differently on two days. *)
Lemma C1_dateless_record_follows_the_clock :
  exists html1 html2,
    format_html_from_json "2024-12-01" Examples.dateless = Ok html1
    /\ format_html_from_json "2024-12-02" Examples.dateless = Ok html2
    /\ html1 <> html2.
Proof.
  eexists. eexists.
  split; [vm_compute; reflexivity|]. split; [vm_compute; reflexivity|].
  intros H. apply (f_equal (py_in "2024-12-01")) in H.
  vm_compute in H. discriminate.
Qed.

Lemma C1_dated_record_example :
  lookup Examples.dated "analysis_date" = Some (JStr "2024-11-30")
  /\ format_html_from_json "2024-12-01" Examples.dated
     = format_html_from_json "2024-12-02" Examples.dated.
Proof.
  split; [reflexivity|].
  apply (C1_dated_record_renders_the_same_on_any_day
           Examples.dated (JStr "2024-11-30")).
  reflexivity.
Defined.

(** Two companies are asked for and the service answers with the empty
    array: the mapping returned has no entry. *)
Lemma C2_batch_answer_decides_the_entries :
  exists w',
    analyze_multiple_competitors (env := Examples.empty_array_service)
                                 Examples.two_companies initial_world
    = (Ok [], w').
Proof. eexists. vm_compute. reflexivity. Qed.

Lemma C2_two_companies_example :
  exists results w',
    analyze_multiple_competitors (env := Examples.failing_service)
                                 Examples.two_companies initial_world
    = (Ok results, w')
    /\ List.length results = 2.
Proof.
  destruct (C2_fallback_gives_one_entry_per_named_input
              (env := Examples.failing_service)
              Examples.two_named
              "Sorry, I cannot help with that."
              (Exn JSONDecodeError "Expecting value: line 1 column 1 (char 0)")
              initial_world
              (snd (request_batch (env := Examples.failing_service)
                                  Examples.two_companies initial_world)))
    as (results & w' & Hrun & Hentries).
  - vm_compute. reflexivity.
  - vm_compute. reflexivity.
  - repeat constructor; simpl; intuition discriminate.
  - exists results, w'. split; [exact Hrun|].
    symmetry. exact (Forall2_length Hentries).
Defined.

(** A [null] target market reaches the page as Python prints [None]. *)
Lemma C3_null_target_market_prints_None :
  record_shaped Examples.null_target_market = true
  /\ field_value Examples.null_target_market TargetMarket = Some JNull
  /\ exists html,
       format_html_from_json "2024-12-01" Examples.null_target_market = Ok html
       /\ py_in "<p><strong>Target Market:</strong> None</p>" html = true
       /\ py_in "<p><strong>Target Market:</strong> N/A</p>" html = false.
Proof.
  split; [reflexivity|]. split; [reflexivity|].
  eexists. split; [vm_compute; reflexivity|].
  split; vm_compute; reflexivity.
Qed.

Lemma C3_sparse_record_example :
  exists html b a,
    format_html_from_json "2024-12-01" Examples.sparse = Ok html
    /\ html = b ++ "N/A" ++ a.
Proof.
  destruct (C3_missing_scalar_renders_placeholder
              "2024-12-01" Examples.sparse FoundedYear eq_refl eq_refl)
    as (kwargs & html & before & after & b & a & H).
  decompose [and] H. exists html, b, a. auto.
Defined.

(** The error page of a failed company shows its name, not its website. *)
Lemma C4_error_page_names_the_company_not_its_url :
  exists page w',
    analyze_multiple_competitors (env := Examples.failing_service)
                                 Examples.acme_alone initial_world
    = (Ok [(JStr "Acme", page)], w')
    /\ page = _create_error_report (Some "Acme") "quota exceeded"
    /\ py_in "https://acme.example" page = false
    /\ py_in "Acme" page = true.
Proof.
  eexists. eexists. split; [vm_compute; reflexivity|].
  repeat split; vm_compute; reflexivity.
Qed.

Lemma C4_failing_item_example :
  exists results w',
    fallback_loop (env := Examples.failing_service) 1 1 Examples.acme_alone []
                  Examples.busy_world
    = (Ok results, w')
    /\ dict_get key_eqb (JStr "Acme") results
       = Some (_create_error_report (Some "Acme") "quota exceeded").
Proof.
  destruct (C4_failed_item_gets_an_error_page
              (env := Examples.failing_service)
              1 1 "https://acme.example" (Some "Acme") [] []
              Examples.busy_world
              (snd (analyze_competitor
                      (env := Examples.failing_service)
                      "https://acme.example" (Some "Acme")
                      (announced 1 1 (Some "Acme") Examples.busy_world)))
              (Exn (OtherError "ServiceUnavailable") "quota exceeded"))
    as (results & w' & Hrun & Hpage & _).
  - vm_compute. reflexivity.
  - simpl. tauto.
  - reflexivity.
  - exists results, w'. split; [exact Hrun | exact Hpage].
Defined.

(** The error raised for a response that is not JSON does not contain the
    preview of the response; the preview is on the standard output. *)
Lemma C5_error_carries_no_preview :
  exists msg w',
    _parse_response "hello" initial_world = (Raise (Exn ValueError msg), w')
    /\ py_in (py_take 500 "hello") msg = false
    /\ In ("Raw response preview: " ++ py_take 500 "hello" ++ "...") (stdout w').
Proof.
  eexists. eexists. split; [vm_compute; reflexivity|].
  split; [vm_compute; reflexivity|].
  right. left. vm_compute. reflexivity.
Qed.

Lemma C5_not_json_example :
  exists w',
    _parse_response "hello" initial_world
    = (Raise (Exn ValueError
                  "Failed to parse agent response: Expecting value: line 1 column 1 (char 0)"),
       w')
    /\ In "Raw response preview: hello..." (stdout w').
Proof.
  destruct (C5_parse_failure_prints_preview
              "hello"
              (Exn JSONDecodeError "Expecting value: line 1 column 1 (char 0)")
              (Exn JSONDecodeError "Expecting value: line 1 column 1 (char 0)")
              initial_world)
    as (Hrun & _).
  - vm_compute. reflexivity.
  - reflexivity.
  - vm_compute. reflexivity.
  - eexists. split; [exact Hrun|]. right. left. vm_compute. reflexivity.
Defined.

Lemma X25_object_and_garbage_example :
  _parse_batch_response Examples.single_object = Raise not_an_array
  /\ _parse_batch_response "hello"
     = Raise (Exn JSONDecodeError "Expecting value: line 1 column 1 (char 0)").
Proof.
  destruct (X25_non_array_and_malformed_both_fall_back
              (env := Examples.chatty_service)
              Examples.single_object "hello"
              (JObj [("company_name", JStr "Acme")])
              (Exn JSONDecodeError "Expecting value: line 1 column 1 (char 0)")
              [] initial_world)
    as (Hobject & Hmalformed & _).
  - vm_compute. reflexivity.
  - reflexivity.
  - vm_compute. reflexivity.
  - reflexivity.
  - split; [exact Hobject | exact Hmalformed].
Defined.

(** C6. A response that decodes to an object, not to an array, and that the
    batch parser does not answer with its type error: having no direct
    decoding step, the parser decodes what the object holds between two
    fence markers, inside a string, and returns the empty array. The
    orchestrator then returns an empty mapping: the fallback is not run. *)
Lemma C6_object_with_a_fenced_string :
  json_loads MoreExamples.fence_in_object
  = Ok (JObj [("note", JStr "```[]```")])
  /\ decode_response MoreExamples.fence_in_object
     = Ok (JObj [("note", JStr "```[]```")])
  /\ _parse_batch_response MoreExamples.fence_in_object = Ok []
  /\ fst (complete_batch (env := Examples.chatty_service)
            Examples.two_companies MoreExamples.fence_in_object initial_world)
     = Ok [].
Proof. repeat split; vm_compute; reflexivity. Qed.

(** C8. A response on which the two parsers differ: an array whose only
    element is a string holding a fence marker. The single-mode parser
    decodes it as it is and returns the array; the batch parser, which has
    no direct decoding step, splits the response at the marker and raises
    the [JSONDecodeError] of the piece it is left with. *)
Lemma C8_fence_inside_a_string :
  decode_response Examples.fence_in_string = Ok (JList [JStr "```"])
  /\ _parse_batch_response Examples.fence_in_string
     = Raise (Exn JSONDecodeError
                  "Unterminated string starting at: line 1 column 1 (char 0)").
Proof. split; vm_compute; reflexivity. Qed.

Lemma X24_fenced_array_example :
  _parse_batch_response Examples.fenced_array
  = Ok [JObj [("company_name", JStr "Acme")]]
  /\ _parse_batch_response Examples.padded_array = Ok [JInt 1; JInt 2].
Proof.
  split.
  - apply (X24_batch_parser_agrees_outside_fenced_json Examples.fenced_array).
    + left.
      exists (Exn JSONDecodeError "Expecting value: line 1 column 1 (char 0)").
      split; [vm_compute; reflexivity | reflexivity].
    + vm_compute. reflexivity.
  - apply (X24_batch_parser_agrees_outside_fenced_json Examples.padded_array).
    + right. split; vm_compute; reflexivity.
    + vm_compute. reflexivity.
Defined.

Lemma C10_zero_pricing_model_example :
  exists html b a,
    format_html_from_json "2024-12-01" Examples.sparse = Ok html
    /\ html = b ++ "N/A" ++ a
    /\ field_value Examples.sparse PricingModel = Some (JInt 0).
Proof.
  destruct (C10_falsy_scalar_renders_NA
              "2024-12-01" Examples.sparse PricingModel eq_refl eq_refl eq_refl)
    as (kwargs & html & before & after & b & a & H).
  decompose [and] H. exists html, b, a. auto.
Defined.

Lemma C7_two_products_example :
  exists html b a b' a',
    format_html_from_json "2024-12-01" MoreExamples.catalogue = Ok html
    /\ html
       = b ++ (q "<div class=^grid^>"
                 ++ product_fragment [("name", JStr "Cloud Platform")]
                 ++ product_fragment [("name", JStr "Edge Cache");
                                      ("category", JStr "CDN")]
                 ++ "</div>") ++ a
    /\ html = b' ++ "<p>No information available.</p>" ++ a'.
Proof.
  destruct (C7_sections_follow_their_lists
              "2024-12-01" MoreExamples.catalogue Products
              [JObj [("name", JStr "Cloud Platform")];
               JObj [("name", JStr "Edge Cache"); ("category", JStr "CDN")]])
    as (kwargs & html & before & after & b & a & H);
    [reflexivity | reflexivity |].
  destruct H as (_ & Hhtml & _ & _ & _ & Hsplit).
  destruct (C7_sections_follow_their_lists
              "2024-12-01" MoreExamples.catalogue Strengths [])
    as (kwargs' & html' & before' & after' & b' & a' & H');
    [reflexivity | reflexivity |].
  destruct H' as (_ & Hhtml' & _ & _ & _ & Hsplit').
  rewrite Hhtml in Hhtml'. injection Hhtml' as <-.
  exists html, b, a, b', a'.
  split; [exact Hhtml|]. split; [exact Hsplit | exact Hsplit'].
Defined.

End OnExamples.

(* ===================================================================== *)
(** * Further properties of the renderer *)
(* ===================================================================== *)

Section RendererInputs.
Context {rt : Runtime}.

(** X1. The page depends on the record only through the twelve fields the
    renderer reads: two records that agree on them render alike, whatever
    other fields they hold and in whatever order they hold them. *)
Theorem X1_render_reads_only_its_twelve_fields
        (date : string) (kv1 kv2 : list (string * json)) :
  (forall key, In key read_keys ->
               dict_get String.eqb key kv1 = dict_get String.eqb key kv2) ->
  format_html_from_json date (JObj kv1) = format_html_from_json date (JObj kv2).
Proof.
  intros H. unfold format_html_from_json, template_args. cbn [py_get].
  repeat match goal with
         | |- context [dict_get String.eqb ?k kv1] =>
             rewrite (H k) by (unfold read_keys; simpl; tauto)
         end.
  reflexivity.
Qed.

Lemma lookup_without (key other : string) (data : json) :
  other <> key -> lookup (without key data) other = lookup data other.
Proof.
  intros Hne. destruct data; try reflexivity. simpl.
  induction items as [|[k v] kv IH]; simpl; [reflexivity|].
  destruct (String.eqb k key) eqn:Ek; simpl.
  - apply String.eqb_eq in Ek. subst k.
    destruct (String.eqb other key) eqn:Eo; [|exact IH].
    apply String.eqb_eq in Eo. contradiction.
  - destruct (String.eqb other k); [reflexivity | exact IH].
Qed.

Lemma is_dict_without (key : string) (data : json) :
  is_dict (without key data) = is_dict data.
Proof. now destruct data. Qed.

(** The sections of a record whose collections are shaped: what the renderer
    computes before it reads the scalar fields. *)
Lemma sections_total (data : json) :
  absent_or (null_or_list_of is_dict) (lookup data "products_services") = true ->
  absent_or (null_or_list_of (fun _ => true))
            (nested data "market_position" "key_competitors") = true ->
  absent_or (null_or_list_of (fun _ => true)) (lookup data "strengths") = true ->
  absent_or (null_or_list_of (fun _ => true)) (lookup data "weaknesses") = true ->
  absent_or (null_or_list_of is_dict) (lookup data "recent_news") = true ->
  absent_or (null_or_list_of (fun _ => true)) (lookup data "technology_stack") = true ->
  absent_or null_or_dict (lookup data "social_media_presence") = true ->
  (exists h, _format_products (value_or (JList []) (lookup data "products_services")) = Ok h)
  /\ (exists h, _format_competitors
                  (value_or (JList []) (nested data "market_position" "key_competitors")) = Ok h)
  /\ (exists h, _format_list_items (value_or (JList []) (lookup data "strengths"))
                                   "list-item" = Ok h)
  /\ (exists h, _format_list_items (value_or (JList []) (lookup data "weaknesses"))
                                   "list-item weakness" = Ok h)
  /\ (exists h, _format_news (value_or (JList []) (lookup data "recent_news")) = Ok h)
  /\ (exists h, _format_tags (value_or (JList []) (lookup data "technology_stack")) = Ok h)
  /\ (exists h, _format_social_media
                  (value_or (JObj []) (lookup data "social_media_presence")) = Ok h).
Proof.
  intros Hp Hk Hs Hw Hn Ht Hsoc.
  repeat split.
  - apply _format_products_total. now apply absent_or_value_or.
  - apply _format_competitors_total. now apply absent_or_value_or.
  - apply _format_list_items_total. now apply absent_or_value_or.
  - apply _format_list_items_total. now apply absent_or_value_or.
  - apply _format_news_total. now apply absent_or_value_or.
  - apply _format_tags_total. now apply absent_or_value_or.
  - apply _format_social_media_total. now apply absent_or_value_or.
Qed.

(** X2. An [overview] or a [market_position] that is present and is not an
    object ([null], say) makes the renderer raise [AttributeError], in a
    record that is otherwise shaped: the default [{}] of [data.get] stands
    in for an absent field only. *)
Theorem X2_non_object_overview_or_market_position_raises
        (date : string) (data v : json) (outer : string) :
  In outer ["overview"; "market_position"] ->
  lookup data outer = Some v ->
  is_dict v = false ->
  record_shaped (without outer data) = true ->
  format_html_from_json date data = Raise (no_attribute v "get").
Proof.
  intros Houter Hv Hnd Hshape.
  unfold record_shaped in Hshape. rewrite !andb_true_iff in Hshape.
  destruct Hshape
    as (((((((((Hd & Ho) & Hm) & Hp) & Hk) & Hs) & Hw) & Hn) & Ht) & Hsoc).
  rewrite is_dict_without in Hd.
  destruct data as [| | | | | |kv]; try discriminate. clear Hd.
  unfold nested in Hk.
  destruct Houter as [<- | [<- | []]].
  - rewrite !lookup_without in * by discriminate.
    destruct (sections_total (JObj kv) Hp Hk Hs Hw Hn Ht Hsoc)
      as ((h1 & H1) & (h2 & H2) & (h3 & H3) & (h4 & H4) & (h5 & H5)
          & (h6 & H6) & (h7 & H7)).
    unfold nested in H2. cbn [lookup] in *.
    assert (Hmk : exists mkv,
               value_or (JObj []) (dict_get String.eqb "market_position" kv)
               = JObj mkv
               /\ _format_competitors
                    (value_or (JList [])
                              (dict_get String.eqb "key_competitors" mkv))
                  = Ok h2).
    { destruct (dict_get String.eqb "market_position" kv) as [[]|];
        try discriminate; simpl; eauto. }
    destruct Hmk as (mkv & Hmk & H2').
    unfold format_html_from_json, template_args.
    rewrite py_get_dict. cbn [bind]. rewrite H1. cbn [bind].
    rewrite py_get_dict. cbn [bind]. rewrite Hmk.
    rewrite py_get_dict. cbn [bind]. rewrite H2'. cbn [bind].
    rewrite py_get_dict. cbn [bind]. rewrite H3. cbn [bind].
    rewrite py_get_dict. cbn [bind]. rewrite H4. cbn [bind].
    rewrite py_get_dict. cbn [bind]. rewrite H5. cbn [bind].
    rewrite py_get_dict. cbn [bind]. rewrite H6. cbn [bind].
    rewrite py_get_dict. cbn [bind]. rewrite H7. cbn [bind].
    rewrite !py_get_dict. cbn [bind]. rewrite Hv. cbn [value_or].
    destruct v; try discriminate; reflexivity.
  - rewrite !lookup_without in Hp by discriminate.
    cbn [lookup] in *.
    destruct (_format_products_total _
                (absent_or_value_or _ (JList []) _ eq_refl Hp)) as [h1 H1].
    unfold format_html_from_json, template_args.
    rewrite py_get_dict. cbn [bind]. rewrite H1. cbn [bind].
    rewrite py_get_dict. cbn [bind]. rewrite Hv. cbn [value_or].
    destruct v; try discriminate; reflexivity.
Qed.
End RendererInputs.

Lemma template_title :
  exists p0 p1 rest,
    HTML_TEMPLATE_segments
    = Lit (p0 ++ "<title>Competitor Analysis - ")
        :: Field "company_name" :: Lit ("</title>" ++ p1) :: rest.
Proof.
  assert (E : HTML_TEMPLATE_segments = HTML_TEMPLATE_segments) by reflexivity.
  unfold HTML_TEMPLATE_segments at 2 in E.
  match type of E with
  | _ = Lit ?l0 :: Field _ :: Lit ?l1 :: ?r =>
      exists (substring 0 (String.length l0 - 29) l0), (drop 8 l1), r
  end.
  vm_compute. reflexivity.
Qed.

Section RendererOutputs.
Context {rt : Runtime}.

Lemma template_args_company_name (date : string) (data : json)
      (kwargs : list (string * json)) :
  template_args date data = Ok kwargs ->
  dict_get String.eqb "company_name" kwargs
  = Some (value_or (JStr "Unknown Company") (lookup data "company_name")).
Proof.
  unfold template_args. intros H.
  invert_binds H.
  injection H as <-.
  match goal with
  | Hx : py_get data "company_name" _ = Ok ?x |- _ =>
      apply py_get_Ok_inv in Hx as [_ ->]
  end.
  reflexivity.
Qed.

(** X3. The renderer escapes nothing: the name of the company, whatever
    characters it holds, stands as it is between the tags of the title of
    the page. *)
Theorem X3_company_name_is_inserted_verbatim
        (date : string) (data : json) (s html : string) :
  format_html_from_json date data = Ok html ->
  lookup data "company_name" = Some (JStr s) ->
  py_in ("<title>Competitor Analysis - " ++ s ++ "</title>") html = true.
Proof.
  unfold format_html_from_json. intros H Hname.
  apply bind_Ok_inv in H as (kwargs & Hk & H).
  unfold py_format in H. rewrite parse_HTML_TEMPLATE in H. cbn [bind] in H.
  apply template_args_company_name in Hk. rewrite Hname in Hk.
  destruct template_title as (p0 & p1 & rest & E). rewrite E in H.
  cbn [fill] in H. rewrite Hk in H.
  apply bind_Ok_inv in H as (h1 & H1 & H). injection H as <-.
  apply bind_Ok_inv in H1 as (h2 & H2 & H1). injection H1 as <-.
  apply bind_Ok_inv in H2 as (h3 & H3 & H2). injection H2 as <-.
  cbn [py_str value_or].
  match goal with
  | |- py_in ?x ?h = true =>
      replace h with (p0 ++ x ++ (p1 ++ h3)) by (now rewrite !append_assoc)
  end.
  apply py_in_middle.
Qed.

Lemma for_append_app (f : json -> result string) (xs ys : list json)
      (html : string) :
  for_append f (xs ++ ys) html
  = (h <- for_append f xs html ;; for_append f ys h).
Proof.
  revert html. induction xs as [|x xs IH]; intros html; simpl; [reflexivity|].
  destruct (f x) as [piece|e]; simpl; [apply IH | reflexivity].
Qed.

Lemma truthy_app_cons (xs : list json) (x : json) (ys : list json) :
  truthy (JList (xs ++ x :: ys)) = true.
Proof. now destruct xs. Qed.

(** X4. The cards of the products and of the news are read with [.get]: in
    a list whose first element that is not an object is [x], the renderer
    raises the [AttributeError] of [x], whatever follows it. *)
Theorem X4_non_object_element_raises
        (cards : list (list (string * json))) (x : json) (rest : list json) :
  is_dict x = false ->
  _format_products (JList (map JObj cards ++ x :: rest))
  = Raise (no_attribute x "get")
  /\ _format_news (JList (map JObj cards ++ x :: rest))
     = Raise (no_attribute x "get").
Proof.
  intros Hx. unfold _format_products, _format_news.
  rewrite truthy_app_cons. cbn [negb py_iter bind].
  rewrite !for_append_app.
  rewrite (for_append_map product_card JObj product_fragment)
    by apply product_card_dict.
  rewrite (for_append_map news_card JObj news_fragment)
    by apply news_card_dict.
  cbn [bind for_append].
  destruct x; try discriminate; split; reflexivity.
Qed.

(** X5. A scalar where a list is expected: a non-empty string is iterated,
    so that the technology stack and the competitors get one tag per
    character of the string; a number or a boolean raises [TypeError] when
    it is truthy and gives the placeholder when it is zero or [False]. *)
Theorem X5_scalar_in_place_of_a_list (s : string) (v : json) :
  s <> "" ->
  is_number v = true ->
  _format_tags (JStr s)
  = Ok (String.concat "" (map (fun c => tag_fragment (JStr c)) (py_chars s)))
  /\ _format_competitors (JStr s)
     = Ok (String.concat "" (map (fun c => tag_fragment (JStr c)) (py_chars s)))
  /\ _format_tags v
     = (if truthy v then Raise (not_iterable v) else Ok no_information)
  /\ _format_competitors v
     = (if truthy v then Raise (not_iterable v) else Ok no_competitors).
Proof.
  intros Hs Hv.
  assert (Ht : truthy (JStr s) = true).
  { simpl. destruct (String.eqb s "") eqn:E; [|reflexivity].
    apply String.eqb_eq in E. contradiction. }
  unfold _format_tags, _format_competitors. rewrite Ht.
  cbn [negb py_iter bind].
  rewrite (comprehension_map tech_tag tag_fragment) by reflexivity.
  rewrite (comprehension_map competitor_tag tag_fragment) by reflexivity.
  cbn [bind]. rewrite map_map.
  repeat split.
  - destruct v; try discriminate; cbn [truthy py_iter bind];
      match goal with |- context [negb ?c] => destruct c end; reflexivity.
  - destruct v; try discriminate; cbn [truthy py_iter bind];
      match goal with |- context [negb ?c] => destruct c end; reflexivity.
Qed.

Lemma social_links_list (kv : list (string * json))
      (ps : list (string * (string * string))) (html : string) :
  social_links (JObj kv) ps html
  = Ok (html ++ String.concat "" (map (social_link kv) ps)).
Proof.
  revert html. induction ps as [|[key [name emoji]] ps IH]; intros html.
  - simpl. now rewrite append_nil_r.
  - cbn [social_links py_get bind map]. rewrite IH, concat_cons.
    unfold social_link at 2. cbn [fst snd].
    unfold value_or.
    destruct (truthy match dict_get String.eqb key kv with
                     | Some x => x
                     | None => JNull
                     end).
    + now rewrite !append_assoc.
    + reflexivity.
Qed.

Lemma _format_social_media_list (kv : list (string * json)) :
  existsb truthy (map snd kv) = true ->
  _format_social_media (JObj kv) = Ok (social_list kv).
Proof.
  intros H. unfold _format_social_media.
  assert (Ht : truthy (JObj kv) = true) by (destruct kv; [discriminate | reflexivity]).
  rewrite Ht. cbn [negb py_values bind]. rewrite H. cbn [negb].
  rewrite social_links_list. cbn [bind]. unfold social_list.
  now rewrite append_assoc.
Qed.

(** X6. When the record has a truthy value under [social_media_presence],
    the social section is a list whose items follow the table of the
    renderer (LinkedIn, Twitter/X, Facebook, in this order), whatever the
    order of the keys in the record: one item for each of the three whose
    URL is truthy. *)
Theorem X6_social_links_follow_the_platform_table
        (kv : list (string * json)) :
  existsb truthy (map snd kv) = true ->
  _format_social_media (JObj kv)
  = Ok ("<ul style='list-style: none; padding: 0;'>"
          ++ String.concat "" (map (social_link kv) platforms) ++ "</ul>")
  /\ map fst platforms = ["linkedin"; "twitter"; "facebook"]
  /\ map (fun p => fst (snd p)) platforms = ["LinkedIn"; "Twitter/X"; "Facebook"].
Proof.
  intros H. rewrite (_format_social_media_list kv H).
  repeat split.
Qed.

(** X7. A [social_media_presence] whose only truthy values are under keys
    other than [linkedin], [twitter] and [facebook] renders as an empty
    list, not as the "no information" paragraph: the test for the
    paragraph looks at every value, the loop at these three keys. *)
Theorem X7_unknown_platforms_give_an_empty_list (kv : list (string * json)) :
  existsb truthy (map snd kv) = true ->
  (forall key, In key ["linkedin"; "twitter"; "facebook"] ->
               falsy_or_absent (dict_get String.eqb key kv) = true) ->
  _format_social_media (JObj kv)
  = Ok "<ul style='list-style: none; padding: 0;'></ul>".
Proof.
  intros H Hnone. rewrite (_format_social_media_list kv H).
  unfold social_list, platforms. cbn [map].
  assert (Hlink : forall p, In (fst p) ["linkedin"; "twitter"; "facebook"] ->
                            social_link kv p = "").
  { intros p Hp. unfold social_link. specialize (Hnone _ Hp).
    unfold falsy_or_absent in Hnone.
    destruct (dict_get String.eqb (fst p) kv) as [url|]; simpl.
    - now destruct (truthy url).
    - reflexivity. }
  rewrite !Hlink by (simpl; tauto). reflexivity.
Qed.
End RendererOutputs.

(* ===================================================================== *)
(** * Further properties of the pipelines *)
(* ===================================================================== *)

Section SingleParser.
Context {rt : Runtime}.

(** X8. The single-mode parser raises nothing but [ValueError]: whatever the
    decoder raises, of whatever class, comes out as a [ValueError] whose
    message starts with "Failed to parse agent response: ", after two
    printed lines. When it returns, it returns what the decoding gave and
    has printed nothing. It sends no prompt. *)
Theorem X8_parse_response_raises_only_ValueError (text : string) (w : World) :
  match _parse_response text w with
  | (Ok v, w') => decode_response text = Ok v /\ w' = w
  | (Raise e, w') =>
      exn_cls e = ValueError
      /\ prefix "Failed to parse agent response: " (exn_str e) = true
      /\ sent w' = sent w
      /\ exists line1 line2, stdout w' = (stdout w ++ [line1; line2])%list
  end.
Proof.
  destruct (decode_response text) as [v|e] eqn:H.
  - unfold _parse_response, mbind, attempt, lift. rewrite H.
    unfold mret. auto.
  - rewrite (_parse_response_raises text e w H). cbn [exn_cls exn_str sent stdout].
    repeat split; [apply prefix_append | eauto].
Qed.

Lemma _parse_response_sent (text : string) (w : World) :
  sent (snd (_parse_response text w)) = sent w.
Proof.
  destruct (decode_response text) as [v|e] eqn:H.
  - unfold _parse_response, mbind, attempt, lift. rewrite H. reflexivity.
  - now rewrite (_parse_response_raises text e w H).
Qed.

Lemma _parse_response_direct (text : string) (v : json) (w : World) :
  json_loads text = Ok v -> _parse_response text w = (Ok v, w).
Proof.
  intros H. unfold _parse_response, mbind, attempt, lift.
  now rewrite (decode_response_direct text v H).
Qed.

Lemma format_html_non_dict (date : string) (v : json) :
  is_dict v = false ->
  format_html_from_json date v = Raise (no_attribute v "get").
Proof. destruct v; try discriminate; reflexivity. Qed.
End SingleParser.

Section SinglePipeline.
Context {rt : Runtime} {env : Env}.

Lemma analyze_competitor_split (url : string) (name : option string)
      (w : World) :
  analyze_competitor url name w
  = mbind (request_analysis url name) complete_analysis w.
Proof.
  cbv beta iota delta [analyze_competitor request_analysis complete_analysis
                         mbind print _create_prompt read_today mret generate].
  match goal with
  | |- context [runner_run ?w0 ?p] => destruct (runner_run w0 p)
  end; reflexivity.
Qed.

Lemma request_analysis_run (url : string) (name : option string) (w : World) :
  exists w1 w2 prompt,
    sent w1 = sent w /\ sent w2 = sent w
    /\ _create_prompt url name w1 = (Ok prompt, w1)
    /\ request_analysis url name w
       = (runner_run w2 prompt, mkWorld (sent w ++ [prompt]) (stdout w2)).
Proof.
  cbv beta iota delta [request_analysis mbind print _create_prompt read_today
                         mret generate].
  cbn [sent stdout].
  eexists (mkWorld (sent w) _). eexists (mkWorld (sent w) _). eexists.
  split; [reflexivity|]. split; [reflexivity|]. split; reflexivity.
Qed.

Lemma render_run (data : json) (w : World) :
  render data w = (format_html_from_json (today w) data, w).
Proof. reflexivity. Qed.

Lemma complete_analysis_sent (response : string) (w : World) :
  sent (snd (complete_analysis response w)) = sent w.
Proof.
  unfold complete_analysis. unfold mbind at 1.
  pose proof (_parse_response_sent response w) as Hs.
  destruct (_parse_response response w) as [[v|e] w1]; cbn [snd] in Hs;
    [|exact Hs].
  unfold mbind at 1. rewrite print_run.
  unfold mbind at 1. rewrite print_run.
  unfold mbind at 1. rewrite render_run.
  destruct (format_html_from_json _ v); cbn; exact Hs.
Qed.

Lemma complete_analysis_direct (response : string) (data : json) (w : World) :
  json_loads response = Ok data ->
  exists w2,
    sent w2 = sent w
    /\ fst (complete_analysis response w)
       = format_html_from_json (today w2) data.
Proof.
  intros H. unfold complete_analysis. unfold mbind at 1.
  rewrite (_parse_response_direct response data w H).
  unfold mbind at 1. rewrite print_run.
  unfold mbind at 1. rewrite print_run.
  unfold mbind at 1. rewrite render_run.
  match goal with
  | |- context [format_html_from_json (today ?w0) data] => exists w0
  end.
  split; [reflexivity|].
  destruct (format_html_from_json _ data); reflexivity.
Qed.

Lemma analyze_competitor_sends_one (url : string) (name : option string)
      (w : World) :
  exists w1 prompt,
    sent w1 = sent w
    /\ _create_prompt url name w1 = (Ok prompt, w1)
    /\ sent (snd (analyze_competitor url name w)) = (sent w ++ [prompt])%list.
Proof.
  destruct (request_analysis_run url name w)
    as (w1 & w2 & prompt & H1 & H2 & Hp & Hrun).
  exists w1, prompt. split; [exact H1|]. split; [exact Hp|].
  rewrite analyze_competitor_split. unfold mbind. rewrite Hrun.
  destruct (runner_run w2 prompt) as [text|e]; [|reflexivity].
  now rewrite complete_analysis_sent.
Qed.

(** X10. A single analysis makes exactly one generation call, whatever
    comes of it (a report, a response that does not parse, a record that
    does not render, a failure of the service): the prompts sent grow by
    one, the prompt [_create_prompt] builds. *)
Theorem X10_single_analysis_sends_exactly_one_prompt
        (url : string) (name : option string) (w : World) :
  exists w1 prompt,
    sent w1 = sent w
    /\ _create_prompt url name w1 = (Ok prompt, w1)
    /\ sent (snd (analyze_competitor url name w)) = (sent w ++ [prompt])%list.
Proof. apply analyze_competitor_sends_one. Qed.

(** X11. When the response decodes as it is, the single analysis returns
    what the renderer makes of the decoded value on the day of the call,
    its page or its exception: the value is not validated before it is
    rendered. *)
Theorem X11_single_analysis_renders_what_it_decodes
        (url : string) (name : option string) (w w1 : World)
        (text : string) (data : json) :
  request_analysis url name w = (Ok text, w1) ->
  json_loads text = Ok data ->
  exists w2,
    sent w2 = sent w1
    /\ fst (analyze_competitor url name w)
       = format_html_from_json (today w2) data.
Proof.
  intros Hreq Hdata.
  rewrite analyze_competitor_split. unfold mbind. rewrite Hreq.
  apply complete_analysis_direct, Hdata.
Qed.

(** X12. A response that is valid JSON but not an object (an array, a
    number, a string, [null]) makes the single analysis raise
    [AttributeError], not the [ValueError] of a response that does not
    parse. *)
Theorem X12_non_object_response_raises_AttributeError
        (url : string) (name : option string) (w w1 : World)
        (text : string) (v : json) :
  request_analysis url name w = (Ok text, w1) ->
  json_loads text = Ok v ->
  is_dict v = false ->
  fst (analyze_competitor url name w) = Raise (no_attribute v "get")
  /\ exn_cls (no_attribute v "get") = AttributeError.
Proof.
  intros Hreq Hv Hnd. split; [|reflexivity].
  rewrite analyze_competitor_split. unfold mbind. rewrite Hreq.
  destruct (complete_analysis_direct text v w1 Hv) as (w2 & _ & ->).
  now apply format_html_non_dict.
Qed.
End SinglePipeline.

Section BatchLoop.
Context {rt : Runtime} {env : Env}.

Lemma set_item_plain {V : Type} (k : json) (v : V) (d : list (json * V)) :
  plain_key k = true -> set_item k v d = Ok (dict_set key_eqb k v d).
Proof. destruct k; try discriminate; reflexivity. Qed.

(** One turn of the loop over the batch response, for an element that
    renders. *)
Lemma batch_loop_cons (data : json) (rest : list json)
      (results : list (json * string)) (w : World) :
  batch_item data = true ->
  exists html,
    format_html_from_json (today w) data = Ok html
    /\ batch_loop (data :: rest) results w
       = batch_loop rest (dict_set key_eqb (response_key data) html results)
           (mkWorld (sent w)
                    (stdout w ++ ["✅ Generated report for "
                                    ++ py_str (response_key data)])).
Proof.
  unfold batch_item. intros H. apply andb_true_iff in H as [Hshape Hkey].
  destruct (format_html_total (today w) data Hshape)
    as (kwargs & html & _ & Hhtml & _).
  exists html. split; [exact Hhtml|].
  assert (Hname : py_get data "company_name" (JStr "Unknown")
                  = Ok (response_key data)).
  { unfold record_shaped in Hshape. rewrite !andb_true_iff in Hshape.
    destruct data; first [reflexivity | now decompose [and] Hshape]. }
  cbn [batch_loop]. unfold mbind at 1, lift. rewrite Hname.
  unfold mbind at 1. rewrite render_run, Hhtml.
  unfold mbind at 1. rewrite (set_item_plain _ _ _ Hkey).
  unfold mbind at 1. rewrite print_run. reflexivity.
Qed.

Lemma batch_loop_total (items : list json) :
  forallb batch_item items = true ->
  forall (results : list (json * string)) (w : World),
  exists results' w',
    batch_loop items results w = (Ok results', w') /\ sent w' = sent w.
Proof.
  induction items as [|data rest IH]; intros H results w.
  - exists results, w. split; reflexivity.
  - simpl in H. apply andb_true_iff in H as [Hd H].
    destruct (batch_loop_cons data rest results w Hd) as (html & _ & ->).
    destruct (IH H (dict_set key_eqb (response_key data) html results)
                 (mkWorld (sent w)
                          (stdout w ++ ["✅ Generated report for "
                                          ++ py_str (response_key data)])))
      as (results' & w' & Hrun & Hsent).
    exists results', w'. split; [exact Hrun | exact Hsent].
Qed.

Lemma batch_loop_app (pre post : list json) :
  forall (results : list (json * string)) (w : World),
    batch_loop (pre ++ post) results w
    = mbind (batch_loop pre results) (batch_loop post) w.
Proof.
  induction pre as [|data pre IH]; intros results w; [reflexivity|].
  cbn [app batch_loop].
  cbv beta iota delta [mbind lift render read_today print].
  destruct (py_get data "company_name" (JStr "Unknown")); [|reflexivity].
  destruct (format_html_from_json (today w) data); [|reflexivity].
  destruct (set_item _ _ results); [|reflexivity].
  rewrite IH. reflexivity.
Qed.

Lemma batch_loop_entries (items : list json) :
  forallb batch_item items = true ->
  NoDup (map response_key items) ->
  forall (results results' : list (json * string)) (w w' : World),
    Forall (fun d => dict_get key_eqb (response_key d) results = None) items ->
    batch_loop items results w = (Ok results', w') ->
    exists added,
      results' = (results ++ added)%list
      /\ Forall2 (fun d entry => fst entry = response_key d
                                 /\ rendering_of d (snd entry))
                 items added.
Proof.
  induction items as [|data rest IH];
    intros Hitems Hnodup results results' w w' Hfresh Hrun.
  - simpl in Hrun. unfold mret in Hrun. injection Hrun as <- <-.
    exists []. now rewrite app_nil_r.
  - simpl in Hitems. apply andb_true_iff in Hitems as [Hd Hitems].
    simpl in Hnodup. inversion Hnodup as [|? ? Hnotin Hnodup']; subst.
    inversion Hfresh as [|? ? Habsent Hfresh']; subst.
    destruct (batch_loop_cons data rest results w Hd) as (html & Hhtml & E).
    rewrite E, (dict_set_absent _ _ _ Habsent) in Hrun.
    assert (Hkey : plain_key (response_key data) = true).
    { unfold batch_item in Hd. now apply andb_true_iff in Hd as [_ Hd]. }
    assert (Hstep : Forall (fun d => dict_get key_eqb (response_key d)
                                      (results ++ [(response_key data, html)])%list
                                    = None) rest).
    { rewrite Forall_forall in *. intros d Hin.
      apply dict_get_app_absent; [|exact (Hfresh' d Hin)].
      destruct (key_eqb (response_key d) (response_key data)) eqn:Ek;
        [|reflexivity].
      apply key_eqb_plain in Ek; [| |exact Hkey].
      - exfalso. apply Hnotin. rewrite <- Ek. now apply in_map.
      - rewrite forallb_forall in Hitems. specialize (Hitems d Hin).
        unfold batch_item in Hitems.
        now apply andb_true_iff in Hitems as [_ Hitems]. }
    destruct (IH Hitems Hnodup' _ _ _ _ Hstep Hrun) as (added & -> & Hadded).
    exists ((response_key data, html) :: added). split.
    + now rewrite <- app_assoc.
    + constructor; [|exact Hadded]. split; [reflexivity|].
      now exists (today w).
Qed.

Lemma _calculate_savings_some (n : nat) :
  n <> 0 -> exists s, _calculate_savings n = Ok s.
Proof.
  intros Hn. unfold _calculate_savings.
  destruct (Z.eqb_spec (Z.of_nat n) 0) as [E|_]; [lia | eauto].
Qed.

(** The orchestrator after a response that parses: the loop over the
    response, then the closing banner. *)
Lemma complete_batch_primary (companies : list (string * option string))
      (response : string) (items : list json) (w : World) :
  companies <> [] ->
  _parse_batch_response response = Ok items ->
  (forall e w1, batch_loop items [] w = (Raise e, w1) ->
                complete_batch companies response w = (Raise e, w1))
  /\ (forall results w1, batch_loop items [] w = (Ok results, w1) ->
        exists w', complete_batch companies response w = (Ok results, w')
                   /\ sent w' = sent w1).
Proof.
  intros Hne Hparse.
  destruct (_calculate_savings_some (List.length companies)) as [s Hs].
  { destruct companies; [contradiction | discriminate]. }
  split.
  - intros e w1 Hloop. unfold complete_batch, mbind at 1, attempt, lift.
    rewrite Hparse. unfold mbind at 1. now rewrite Hloop.
  - intros results w1 Hloop. unfold complete_batch, mbind at 1, attempt, lift.
    rewrite Hparse. unfold mbind at 1. rewrite Hloop.
    cbv beta iota delta [mbind print lift mret]. rewrite Hs.
    eexists. split; reflexivity.
Qed.

End BatchLoop.

Section CallCount.
Context {rt : Runtime} {env : Env}.

Lemma fallback_loop_sent (total : nat)
      (companies : list (string * option string)) :
  forall (i : nat) (results : list (json * string)) (w : World),
    List.length (sent (snd (fallback_loop total i companies results w)))
    = List.length (sent w) + List.length companies.
Proof.
  induction companies as [|[url name] rest IH]; intros i results w.
  - simpl. lia.
  - rewrite fallback_loop_cons.
    destruct (analyze_competitor_sends_one url name (announced total i name w))
      as (w1 & prompt & _ & _ & Hsent).
    destruct (analyze_competitor url name (announced total i name w))
      as [[html|e] w2]; cbn [snd] in Hsent; rewrite IH; cbn [sent];
      rewrite Hsent, length_app; simpl; lia.
Qed.

Lemma request_batch_sent (companies : list (string * option string))
      (response : string) (w w1 : World) :
  request_batch companies w = (Ok response, w1) ->
  List.length (sent w1) = S (List.length (sent w)).
Proof.
  cbv beta iota zeta delta [request_batch mbind print lift _create_batch_prompt
                            read_today mret generate].
  destruct (_calculate_savings (List.length companies)); [|discriminate].
  cbn [sent stdout].
  intros H. injection H as _ <-. cbn [sent]. rewrite length_app. simpl. lia.
Qed.

Lemma request_batch_nonempty (companies : list (string * option string))
      (response : string) (w w1 : World) :
  request_batch companies w = (Ok response, w1) -> companies <> [].
Proof.
  intros H ->. unfold request_batch, mbind, print, lift in H. cbn in H.
  discriminate.
Qed.

(** X14. When the batch response parses, the mapping is made from the
    response, not from the input list: for a response whose elements are
    shaped records with pairwise distinct names, it has one entry per
    element, in the order of the response, keyed by the [company_name] of
    the element ("Unknown" when the element has none) and holding its page;
    and the batch call is the only generation call. *)
Theorem X14_batch_entries_follow_the_response
        (companies : list (string * option string)) (response : string)
        (items : list json) (w w1 : World) :
  request_batch companies w = (Ok response, w1) ->
  _parse_batch_response response = Ok items ->
  forallb batch_item items = true ->
  NoDup (map response_key items) ->
  exists results w',
    analyze_multiple_competitors companies w = (Ok results, w')
    /\ List.length (sent w') = S (List.length (sent w))
    /\ Forall2 (fun d entry => fst entry = response_key d
                               /\ rendering_of d (snd entry))
               items results.
Proof.
  intros Hreq Hparse Hitems Hnodup.
  pose proof (request_batch_nonempty _ _ _ _ Hreq) as Hne.
  destruct (batch_loop_total items Hitems [] w1)
    as (results & w2 & Hloop & Hsent).
  destruct (complete_batch_primary companies response items w1 Hne Hparse)
    as [_ Hok].
  destruct (Hok results w2 Hloop) as (w' & Hrun & Hsent').
  exists results, w'.
  unfold analyze_multiple_competitors, mbind at 1. rewrite Hreq.
  split; [exact Hrun|]. split.
  - rewrite Hsent', Hsent. apply (request_batch_sent _ _ _ _ Hreq).
  - destruct (batch_loop_entries items Hitems Hnodup [] results w1 w2)
      as (added & -> & Hadded);
      [apply Forall_forall; reflexivity | exact Hloop | exact Hadded].
Qed.

(** X15. An element of the batch response that is not an object makes the
    orchestrator raise [AttributeError], wherever it stands after elements
    that render: only the parsing of the response is guarded, so the
    fallback is not run, the pages made before are lost, and no further
    generation call is made. *)
Theorem X15_non_object_batch_element_escapes
        (companies : list (string * option string)) (response : string)
        (pre post : list json) (x : json) (w w1 : World) :
  request_batch companies w = (Ok response, w1) ->
  _parse_batch_response response = Ok (pre ++ x :: post)%list ->
  forallb batch_item pre = true ->
  is_dict x = false ->
  fst (analyze_multiple_competitors companies w)
  = Raise (no_attribute x "get")
  /\ List.length (sent (snd (analyze_multiple_competitors companies w)))
     = S (List.length (sent w)).
Proof.
  intros Hreq Hparse Hpre Hx.
  pose proof (request_batch_nonempty _ _ _ _ Hreq) as Hne.
  destruct (batch_loop_total pre Hpre [] w1) as (results & w2 & Hloop & Hsent).
  assert (Hraise : batch_loop (pre ++ x :: post) [] w1
                   = (Raise (no_attribute x "get"), w2)).
  { rewrite batch_loop_app. unfold mbind at 1. rewrite Hloop.
    cbn [batch_loop]. unfold mbind at 1, lift.
    destruct x; try discriminate; reflexivity. }
  destruct (complete_batch_primary companies response _ w1 Hne Hparse)
    as [Hfail _].
  unfold analyze_multiple_competitors, mbind at 1. rewrite Hreq.
  unfold mbind. rewrite Hreq.
  rewrite (Hfail _ _ Hraise). cbn [fst snd]. split; [reflexivity|].
  rewrite Hsent. apply (request_batch_sent _ _ _ _ Hreq).
Qed.

(** X16. When the batch response does not parse, the orchestrator goes on
    with one generation call per company: it returns a mapping after
    1 + n calls for n companies, the batch call included. *)
Theorem X16_fallback_costs_one_call_per_company
        (companies : list (string * option string)) (response : string)
        (e : exn) (w w1 : World) :
  request_batch companies w = (Ok response, w1) ->
  _parse_batch_response response = Raise e ->
  exists results w',
    analyze_multiple_competitors companies w = (Ok results, w')
    /\ List.length (sent w') = List.length (sent w) + 1 + List.length companies.
Proof.
  intros Hreq Hparse.
  unfold analyze_multiple_competitors, mbind at 1. rewrite Hreq.
  rewrite (complete_batch_falls_back _ _ _ _ Hparse).
  unfold _fallback_individual_analysis, mbind at 1. rewrite print_run.
  match goal with
  | |- context [fallback_loop ?t ?i ?cs ?r ?w0] =>
      destruct (fallback_loop_total t cs i r w0) as (results & w' & Hrun);
      pose proof (fallback_loop_sent t cs i r w0) as Hsent
  end.
  rewrite Hrun in Hsent. cbn [snd sent] in Hsent.
  exists results, w'. split; [exact Hrun|].
  rewrite Hsent, (request_batch_sent _ _ _ _ Hreq). lia.
Qed.
End CallCount.

(* ===================================================================== *)
(** * Fenced blocks *)
(* ===================================================================== *)

(** ** [str.split], piece by piece *)

Lemma length_append (a b : string) :
  String.length (a ++ b) = String.length a + String.length b.
Proof. induction a as [|x a IH]; simpl; [reflexivity | now rewrite IH]. Qed.

Lemma length_drop (n : nat) (s : string) :
  String.length (drop n s) <= String.length s.
Proof.
  revert s. induction n as [|n IH]; intros [|x s]; simpl; try lia.
  specialize (IH s). lia.
Qed.

Lemma drop_append (a s : string) : drop (String.length a) (a ++ s) = s.
Proof. induction a as [|x a IH]; simpl; [now destruct s | exact IH]. Qed.

Lemma rev_onto_append (acc t : string) : rev_onto acc t = rev acc ++ t.
Proof.
  unfold rev. revert t. induction acc as [|x acc IH]; intros t; simpl;
    [reflexivity|].
  rewrite (IH (String x t)), (IH (String x "")).
  now rewrite append_assoc.
Qed.

Lemma rev_cons (x : ascii) (acc : string) :
  rev (String x acc) = rev acc ++ String x "".
Proof. unfold rev at 1. simpl. apply rev_onto_append. Qed.

Lemma split_go_fuel (sep : string) (s : string) :
  sep <> "" ->
  forall (f1 f2 : nat) (acc : string),
    String.length s < f1 -> String.length s < f2 ->
    split_go sep f1 acc s = split_go sep f2 acc s.
Proof.
  intros Hsep.
  remember (String.length s) as n eqn:Hn.
  revert s Hn. induction n as [n IH] using lt_wf_ind.
  intros s Hn f1 f2 acc H1 H2.
  destruct f1 as [|f1]; [lia|]. destruct f2 as [|f2]; [lia|].
  destruct s as [|x s]; [reflexivity|]. cbn [split_go].
  destruct (prefix sep (String x s)).
  - f_equal.
    assert (Hd : String.length (drop (String.length sep) (String x s))
                 <= String.length s).
    { destruct sep as [|c sep]; [contradiction|]. simpl. apply length_drop. }
    simpl in Hn.
    eapply (IH (String.length (drop (String.length sep) (String x s))));
      [lia | reflexivity | lia | lia].
  - simpl in Hn. eapply (IH (String.length s)); [lia | reflexivity | lia | lia].
Qed.

Lemma split_go_acc (sep : string) (fuel : nat) :
  forall (acc s : string),
    split_go sep fuel acc s = prepend (rev acc) (split_go sep fuel "" s).
Proof.
  induction fuel as [|fuel IH]; intros acc s.
  - simpl. now rewrite append_nil_r.
  - destruct s as [|x s]; [simpl; now rewrite append_nil_r|].
    cbn [split_go]. destruct (prefix sep (String x s)).
    + simpl. now rewrite append_nil_r.
    + rewrite (IH (String x acc)), (IH (String x "")).
      destruct (split_go sep fuel "" s) as [|h t]; [reflexivity|].
      simpl. rewrite rev_cons. now rewrite append_assoc.
Qed.

Lemma split_go_step (sep : string) (fuel : nat) (acc : string) (x : ascii)
      (s : string) :
  split_go sep (S fuel) acc (String x s)
  = if prefix sep (String x s)
    then rev acc :: split_go sep fuel "" (drop (String.length sep) (String x s))
    else split_go sep fuel (String x acc) s.
Proof. reflexivity. Qed.

(** [s.split(sep)], one character at a time *)
Lemma py_split_cons (sep : string) (x : ascii) (s : string) :
  sep <> "" ->
  py_split sep (String x s)
  = if prefix sep (String x s)
    then "" :: py_split sep (drop (String.length sep) (String x s))
    else prepend (String x "") (py_split sep s).
Proof.
  intros Hsep.
  change (py_split sep (String x s))
    with (split_go sep (S (S (String.length s))) "" (String x s)).
  rewrite split_go_step.
  destruct (prefix sep (String x s)).
  - f_equal. unfold py_split. apply split_go_fuel; [exact Hsep | | lia].
    destruct sep as [|c sep]; [contradiction|]. simpl.
    pose proof (length_drop (String.length sep) s). lia.
  - rewrite split_go_acc. reflexivity.
Qed.

Lemma py_split_nil (sep : string) : py_split sep "" = [""].
Proof. reflexivity. Qed.

Lemma prefix_other (c x : ascii) (p s : string) :
  Ascii.eqb x c = false -> prefix (String c p) (String x s) = false.
Proof.
  intros H. simpl. destruct (ascii_dec c x) as [->|]; [|reflexivity].
  now rewrite Ascii.eqb_refl in H.
Qed.

Lemma prefix_same (c : ascii) (p s : string) :
  prefix (String c p) (String c s) = prefix p s.
Proof. simpl. destruct (ascii_dec c c); [reflexivity | contradiction]. Qed.

Lemma prepend_prepend (a b : string) (l : list string) :
  prepend a (prepend b l) = prepend (a ++ b) l.
Proof. destruct l; simpl; [reflexivity | now rewrite append_assoc]. Qed.

(** A text without the first character of the separator is one piece. *)
Lemma py_split_free (c : ascii) (p s : string) :
  free_of c s = true -> py_split (String c p) s = [s].
Proof.
  induction s as [|x s IH]; intros H; [reflexivity|].
  simpl in H. apply andb_true_iff in H as [Hx H].
  apply negb_true_iff in Hx.
  rewrite py_split_cons by discriminate.
  rewrite (prefix_other c x p s Hx), (IH H). reflexivity.
Qed.

(** Such a text, before anything, goes to the first piece. *)
Lemma py_split_skip (c : ascii) (p a s : string) :
  free_of c a = true ->
  py_split (String c p) (a ++ s) = prepend a (py_split (String c p) s).
Proof.
  induction a as [|x a IH]; intros H.
  - simpl. now destruct (py_split (String c p) s).
  - simpl in H. apply andb_true_iff in H as [Hx H].
    apply negb_true_iff in Hx.
    change (String x a ++ s) with (String x (a ++ s)).
    rewrite py_split_cons by discriminate.
    rewrite (prefix_other c x p (a ++ s) Hx), (IH H), prepend_prepend.
    reflexivity.
Qed.

Lemma py_split_sep (sep s : string) :
  sep <> "" -> py_split sep (sep ++ s) = "" :: py_split sep s.
Proof.
  intros Hsep. destruct sep as [|c sep]; [contradiction|].
  change (String c sep ++ s) with (String c (sep ++ s)).
  rewrite py_split_cons by discriminate.
  change (String c (sep ++ s)) with (String c sep ++ s).
  now rewrite prefix_append, drop_append.
Qed.

(** A text between two separators, or after the last one: the piece that
    follows [a] in [a ++ sep ++ rest]. *)
Lemma py_split_second (c : ascii) (p a rest : string) :
  free_of c a = true ->
  py_split (String c p) (a ++ String c p ++ rest)
  = a :: py_split (String c p) rest.
Proof.
  intros Ha. rewrite (py_split_skip c p a _ Ha), py_split_sep by discriminate.
  simpl. now rewrite append_nil_r.
Qed.

Lemma py_in_free (c : ascii) (p s : string) :
  free_of c s = true -> py_in (String c p) s = false.
Proof.
  induction s as [|x s IH]; intros H; [reflexivity|].
  simpl in H. apply andb_true_iff in H as [Hx H].
  apply negb_true_iff in Hx.
  rewrite py_in_unfold, (prefix_other c x p s Hx). exact (IH H).
Qed.

Lemma py_in_skip (c : ascii) (p a s : string) :
  free_of c a = true -> py_in (String c p) (a ++ s) = py_in (String c p) s.
Proof.
  induction a as [|x a IH]; intros H; [reflexivity|].
  simpl in H. apply andb_true_iff in H as [Hx H].
  apply negb_true_iff in Hx.
  change (String x a ++ s) with (String x (a ++ s)).
  rewrite py_in_unfold, (prefix_other c x p _ Hx). exact (IH H).
Qed.

(** A prefix that does not hold [c] is read within what precedes [c]. *)
Lemma prefix_stop (c : ascii) (x b t : string) :
  free_of c x = true -> prefix x (b ++ String c t) = prefix x b.
Proof.
  revert b. induction x as [|y x IH]; intros b H.
  - now destruct b.
  - simpl in H. apply andb_true_iff in H as [Hy H].
    apply negb_true_iff in Hy.
    destruct b as [|z b].
    + simpl. destruct (ascii_dec y c) as [->|]; [|reflexivity].
      now rewrite Ascii.eqb_refl in Hy.
    + simpl. destruct (ascii_dec y z); [apply IH, H | reflexivity].
Qed.

Lemma prefix_backquote_free (p t : string) :
  free_of backquote t = true -> prefix (String "`"%char p) t = false.
Proof.
  destruct t as [|x t]; [reflexivity|]. simpl free_of. intros H.
  apply andb_true_iff in H as [Hx _]. apply negb_true_iff in Hx.
  now apply prefix_other.
Qed.

(** What follows a closing fence: the marker of a [json] block starts
    there only when the word [json] does. *)
Lemma py_split_json_at_fence (c : string) :
  free_of backquote c = true ->
  py_split "```json" ("```" ++ c)
  = if prefix "json" c
    then "" :: py_split "```json" (drop 4 c)
    else ["```" ++ c].
Proof.
  intros Hc.
  change ("```" ++ c) with (String "`"%char ("``" ++ c)).
  rewrite py_split_cons by discriminate.
  change (prefix "```json" (String "`"%char ("``" ++ c)))
    with (prefix (String "`"%char "``json")
                 (String "`"%char (String "`"%char (String "`"%char c)))).
  rewrite !prefix_same.
  destruct (prefix "json" c); [reflexivity|].
  change ("``" ++ c) with (String "`"%char ("`" ++ c)).
  rewrite py_split_cons by discriminate.
  change (prefix "```json" (String "`"%char ("`" ++ c)))
    with (prefix (String "`"%char "``json")
                 (String "`"%char (String "`"%char c))).
  rewrite !prefix_same, (prefix_backquote_free _ c Hc).
  change ("`" ++ c) with (String "`"%char c).
  rewrite py_split_cons by discriminate.
  change (prefix "```json" (String "`"%char c))
    with (prefix (String "`"%char "``json") (String "`"%char c)).
  rewrite !prefix_same, (prefix_backquote_free _ c Hc).
  rewrite (py_split_free "`"%char "``json" c Hc). reflexivity.
Qed.

Lemma py_in_json_at_fence (t : string) :
  prefix "json" t = false -> prefix "`json" t = false ->
  prefix "``json" t = false ->
  py_in "```json" ("```" ++ t) = py_in "```json" t.
Proof.
  intros H0 H1 H2.
  change ("```" ++ t) with (String "`"%char (String "`"%char (String "`"%char t))).
  rewrite py_in_unfold, !prefix_same, H0.
  rewrite py_in_unfold, !prefix_same.
  rewrite H1.
  rewrite py_in_unfold, !prefix_same.
  rewrite H2. reflexivity.
Qed.

Lemma prefix_bq_json_at_fence (b c : string) :
  free_of backquote b = true ->
  prefix "`json" (b ++ "```" ++ c) = false
  /\ prefix "``json" (b ++ "```" ++ c) = false.
Proof.
  intros Hb. destruct b as [|x b].
  - split; reflexivity.
  - simpl free_of in Hb. apply andb_true_iff in Hb as [Hx _].
    apply negb_true_iff in Hx.
    change (String x b ++ "```" ++ c) with (String x (b ++ "```" ++ c)).
    split; now apply prefix_other.
Qed.

Lemma py_index_0 (x : string) (l : list string) : py_index (x :: l) 0 = Ok x.
Proof. reflexivity. Qed.

Lemma py_index_1 (x y : string) (l : list string) :
  py_index (x :: y :: l) 1 = Ok y.
Proof. reflexivity. Qed.

(** X9. The block of a fenced response. In a response made of a text, an
    opening fence, a block, a closing fence and a text, none of the three
    holding a backquote, both parsers go on with the block: after the fence
    "```json" always, and after a plain fence when neither the block nor
    the text after it starts with the word [json]. Without a closing fence
    the block runs to the end of the response. *)
Theorem X9_fenced_block_is_extracted (a b c : string) :
  free_of backquote a = true ->
  free_of backquote b = true ->
  free_of backquote c = true ->
  fenced_text (a ++ "```json" ++ b ++ "```" ++ c) = Ok b
  /\ fenced_text (a ++ "```json" ++ b) = Ok b
  /\ (prefix "json" b = false -> prefix "json" c = false ->
      fenced_text (a ++ "```" ++ b ++ "```" ++ c) = Ok b).
Proof.
  intros Ha Hb Hc.
  assert (Hblock : py_index (py_split "```" b) 0 = Ok b).
  { now rewrite (py_split_free "`"%char "``" b Hb). }
  split; [|split].
  - unfold fenced_text. rewrite py_in_middle.
    rewrite (py_split_second "`"%char "``json" a _ Ha).
    rewrite (py_split_skip "`"%char "``json" b _ Hb).
    rewrite (py_split_json_at_fence c Hc).
    destruct (prefix "json" c).
    + cbn [prepend]. rewrite py_index_1. cbn [bind].
      now rewrite append_nil_r.
    + cbn [prepend]. rewrite py_index_1. cbn [bind].
      now rewrite (py_split_second "`"%char "``" b c Hb).
  - unfold fenced_text. rewrite py_in_middle.
    rewrite (py_split_second "`"%char "``json" a b Ha).
    rewrite (py_split_free "`"%char "``json" b Hb).
    rewrite py_index_1. cbn [bind]. exact Hblock.
  - intros Hjb Hjc. unfold fenced_text.
    assert (Hno : py_in "```json" (a ++ "```" ++ b ++ "```" ++ c) = false).
    { rewrite (py_in_skip "`"%char "``json" a _ Ha).
      destruct (prefix_bq_json_at_fence b c Hb) as [H1 H2].
      rewrite py_in_json_at_fence; [| |exact H1|exact H2].
      - rewrite (py_in_skip "`"%char "``json" b _ Hb).
        rewrite py_in_json_at_fence;
          [ apply (py_in_free "`"%char "``json" c Hc) | exact Hjc
          | apply prefix_backquote_free, Hc | apply prefix_backquote_free, Hc ].
      - change ("```" ++ c) with (String "`"%char ("``" ++ c)).
        now rewrite (prefix_stop "`"%char "json" b _ eq_refl). }
    rewrite Hno, py_in_middle.
    rewrite (py_split_second "`"%char "``" a _ Ha).
    rewrite (py_split_second "`"%char "``" b c Hb).
    rewrite py_index_1. cbn [bind]. exact Hblock.
Qed.

(* ===================================================================== *)
(** * Prompts *)
(* ===================================================================== *)

(** ** [str.strip] *)

Lemma rev_onto_app (a b acc : string) :
  rev_onto (a ++ b) acc = rev_onto b (rev_onto a acc).
Proof.
  revert acc. induction a as [|x a IH]; intros acc; simpl; [reflexivity|].
  apply IH.
Qed.

Lemma rev_app (a b : string) : rev (a ++ b) = rev b ++ rev a.
Proof. unfold rev at 1. rewrite rev_onto_app. apply rev_onto_append. Qed.

Lemma rev_involutive (a : string) : rev (rev a) = a.
Proof.
  induction a as [|x a IH]; [reflexivity|].
  rewrite rev_cons, rev_app, IH. reflexivity.
Qed.

Lemma length_rev (a : string) : String.length (rev a) = String.length a.
Proof.
  induction a as [|x a IH]; [reflexivity|].
  rewrite rev_cons, length_append, IH. simpl. lia.
Qed.

Lemma all_spaces_app (a b : string) :
  all_spaces (a ++ b) = (all_spaces a && all_spaces b)%bool.
Proof.
  induction a as [|x a IH]; simpl; [reflexivity|].
  now rewrite IH, andb_assoc.
Qed.

Lemma all_spaces_rev (a : string) : all_spaces (rev a) = all_spaces a.
Proof.
  induction a as [|x a IH]; [reflexivity|].
  rewrite rev_cons, all_spaces_app, IH. simpl.
  rewrite andb_true_r. apply andb_comm.
Qed.

Lemma leading_space_at_space (c : ascii) (s : string) :
  is_ascii_space c = true ->
  leading_space whitespace (String c s) = Some 1
  /\ leading_space (map rev whitespace) (String c s) = Some 1.
Proof.
  destruct c as [b0 b1 b2 b3 b4 b5 b6 b7].
  destruct b0, b1, b2, b3, b4, b5, b6, b7; intros H;
    try discriminate H; split; destruct s; reflexivity.
Qed.

Lemma leading_space_at_plain (c : ascii) (s : string) :
  is_plain c = true ->
  leading_space whitespace (String c s) = None
  /\ leading_space (map rev whitespace) (String c s) = None.
Proof.
  destruct c as [b0 b1 b2 b3 b4 b5 b6 b7].
  destruct b0, b1, b2, b3, b4, b5, b6, b7; intros H;
    try discriminate H; split; reflexivity.
Qed.

Lemma lstrip_go_spaces (ws : list string) :
  (forall c s, is_ascii_space c = true -> leading_space ws (String c s) = Some 1) ->
  (forall c s, is_plain c = true -> leading_space ws (String c s) = None) ->
  forall (sp t : string) (fuel : nat),
    all_spaces sp = true -> first_plain t = true ->
    String.length sp <= fuel ->
    lstrip_go ws fuel (sp ++ t) = t.
Proof.
  intros Hspace Hplain sp t.
  induction sp as [|x sp IH]; intros fuel Hsp Ht Hfuel.
  - destruct t as [|c t]; [discriminate|]. simpl in Ht.
    destruct fuel; simpl; [reflexivity|]. now rewrite (Hplain c t Ht).
  - simpl in Hsp. apply andb_true_iff in Hsp as [Hx Hsp].
    destruct fuel as [|fuel]; [simpl in Hfuel; lia|].
    change (String x sp ++ t) with (String x (sp ++ t)).
    cbn [lstrip_go]. rewrite (Hspace x _ Hx). cbn [drop].
    apply IH; auto. simpl in Hfuel. lia.
Qed.

Lemma first_plain_app (a b : string) :
  first_plain a = true -> first_plain (a ++ b) = true.
Proof. now destruct a. Qed.

Lemma last_plain_app (a b : string) :
  last_plain b = true -> last_plain (a ++ b) = true.
Proof.
  unfold last_plain. intros H. rewrite rev_app. now apply first_plain_app.
Qed.

Lemma py_lstrip_spaces (sp t : string) :
  all_spaces sp = true -> first_plain t = true -> py_lstrip (sp ++ t) = t.
Proof.
  intros Hsp Ht. unfold py_lstrip.
  apply (lstrip_go_spaces whitespace).
  - intros c s Hc. exact (proj1 (leading_space_at_space c s Hc)).
  - intros c s Hc. exact (proj1 (leading_space_at_plain c s Hc)).
  - exact Hsp.
  - exact Ht.
  - rewrite length_append. lia.
Qed.

Lemma py_rstrip_spaces (t sp : string) :
  all_spaces sp = true -> last_plain t = true -> py_rstrip (t ++ sp) = t.
Proof.
  intros Hsp Ht. unfold py_rstrip. rewrite rev_app.
  rewrite (lstrip_go_spaces (map rev whitespace)).
  - apply rev_involutive.
  - intros c s Hc. exact (proj2 (leading_space_at_space c s Hc)).
  - intros c s Hc. exact (proj2 (leading_space_at_plain c s Hc)).
  - now rewrite all_spaces_rev.
  - exact Ht.
  - rewrite length_rev, length_append. lia.
Qed.

(** What [strip] leaves of a text that starts and ends with ASCII
    characters other than white space, when ASCII white space surrounds
    it: the text. *)
Lemma py_strip_core (sp1 core sp2 : string) :
  all_spaces sp1 = true -> all_spaces sp2 = true ->
  first_plain core = true -> last_plain core = true ->
  py_strip (sp1 ++ core ++ sp2) = core.
Proof.
  intros H1 H2 Hf Hl. unfold py_strip.
  rewrite (py_lstrip_spaces sp1 (core ++ sp2) H1 (first_plain_app _ _ Hf)).
  exact (py_rstrip_spaces core sp2 H2 Hl).
Qed.

Section Prompts.
Context {rt : Runtime} {env : Env}.

(** X13. The prompt of a single analysis is the text of the template with
    the website, the name and the date of the day put in as they are: the
    [strip] at its end removes the line break before "Analyze" and the
    indentation after "sources.", and nothing of what was put in. Without a
    name, or with an empty one, the line of the name is empty. *)
Theorem X13_single_prompt_text
        (website : string) (name : option string) (w : World) :
  _create_prompt website name w
  = (Ok ("Analyze the competitor at: " ++ website ++ "
" ++ (if name_given name then "Company Name: " ++ name_str name else "") ++ "

Search for comprehensive information and return structured JSON data.
Current date: " ++ today w ++ "

Focus on gathering accurate, verifiable information from reliable sources."),
     w).
Proof.
  unfold _create_prompt, mbind, read_today, mret. f_equal. f_equal.
  match goal with
  | |- py_strip ?text = ?core =>
      transitivity (py_strip (nl ++ core ++ (nl ++ "        ")))
  end.
  - f_equal. rewrite !append_assoc. reflexivity.
  - apply py_strip_core; try reflexivity.
    repeat (apply last_plain_app). reflexivity.
Qed.

Lemma company_lines_nth (companies : list (string * option string)) :
  forall (i0 i : nat) (url : string) (name : option string),
    nth_error companies i = Some (url, name) ->
    nth_error (company_lines i0 companies) i
    = Some (str_of_nat (i0 + i + 1) ++ ". " ++ name_str name ++ " - " ++ url).
Proof.
  induction companies as [|[u n] rest IH]; intros i0 i url name H.
  - destruct i; discriminate.
  - destruct i as [|i]; simpl in H.
    + injection H as -> ->. simpl. now rewrite Nat.add_0_r.
    + simpl. rewrite (IH (S i0) i url name H).
      now replace (S i0 + i + 1) with (i0 + S i + 1) by lia.
Qed.

Lemma company_lines_length (companies : list (string * option string)) :
  forall i0, List.length (company_lines i0 companies) = List.length companies.
Proof.
  induction companies as [|[u n] rest IH]; intros i0; simpl;
    [reflexivity | now rewrite IH].
Qed.

(** X17. The prompt of a batch, on a day whose date ends with an ASCII
    character that is not white space (a digit, for a date): the text of
    the template, the number of companies and the date put in, with one
    line per company, in the order of the list, made of its rank counted
    from 1, its name ("None" when it has none) and its website. *)
Theorem X17_batch_prompt_text
        (companies : list (string * option string)) (w : World) :
  last_plain (today w) = true ->
  _create_batch_prompt companies w
  = (Ok ("Analyze these " ++ str_of_nat (List.length companies) ++ " competitors and return a JSON array with complete analysis for each.

Companies to analyze:
" ++ String.concat nl (company_lines 0 companies) ++ "

Return a JSON ARRAY (not an object) where each element is a complete competitor analysis.
Each element must follow the exact schema provided in your instructions.

Output format:
[
  {...complete data for company 1...},
  {...complete data for company 2...},
  {...complete data for company 3...}
]

CRITICAL: 
- Output ONLY the JSON array, no markdown, no explanations
- Each company must have complete data
- Maintain consistent structure across all entries

Current date: " ++ today w),
     w)
  /\ List.length (company_lines 0 companies) = List.length companies
  /\ forall i url name,
       nth_error companies i = Some (url, name) ->
       nth_error (company_lines 0 companies) i
       = Some (str_of_nat (i + 1) ++ ". " ++ name_str name ++ " - " ++ url).
Proof.
  intros Hdate. split; [|split].
  - unfold _create_batch_prompt, mbind, read_today, mret. f_equal. f_equal.
    match goal with
    | |- py_strip ?text = ?core =>
        transitivity (py_strip (nl ++ core ++ (nl ++ "        ")))
    end.
    + f_equal. rewrite !append_assoc. reflexivity.
    + apply py_strip_core; try reflexivity.
      repeat (apply last_plain_app). exact Hdate.
  - apply company_lines_length.
  - intros i url name H. apply (company_lines_nth companies 0 i url name H).
Qed.
End Prompts.

(* ===================================================================== *)
(** * The savings of a batch *)
(* ===================================================================== *)

Lemma savings_agree_to_1000 : forallb savings_agree (seq 1 1000) = true.
Proof. vm_compute. reflexivity. Qed.

(** X18. For 1 to 1000 companies, the savings the banners print, computed
    in floating point as the source does, are the integer part of
    100 (n - 1) / n: the rounding of the quotient and of the product never
    brings the result below it. The figure is 0 for one company and at most
    99. *)
Theorem X18_savings_are_the_exact_percentage (n : nat) :
  1 <= n <= 1000 ->
  _calculate_savings_binary64 n = Ok (Z.of_nat ((n - 1) * 100 / n))
  /\ _calculate_savings n = _calculate_savings_binary64 n
  /\ (n - 1) * 100 / n <= 99.
Proof.
  intros Hn.
  pose proof savings_agree_to_1000 as H.
  rewrite forallb_forall in H.
  specialize (H n). unfold savings_agree in H.
  assert (Hin : In n (seq 1 1000)) by (apply in_seq; lia).
  specialize (H Hin).
  destruct (_calculate_savings_binary64 n) as [x|]; [|discriminate].
  destruct (_calculate_savings n) as [y|]; [|discriminate].
  apply andb_true_iff in H as [Hxy Hy].
  apply Z.eqb_eq in Hxy, Hy. subst x. rewrite Hy.
  repeat split.
  assert ((n - 1) * 100 / n < 100)
    by (apply Nat.Div0.div_lt_upper_bound; lia).
  lia.
Qed.

(* ===================================================================== *)
(** * The file of companies *)
(* ===================================================================== *)

Lemma free_of_app (c : ascii) (a b : string) :
  free_of c (a ++ b) = (free_of c a && free_of c b)%bool.
Proof.
  induction a as [|x a IH]; simpl; [reflexivity|].
  now rewrite IH, andb_assoc.
Qed.

Lemma spaces_free_of_comma (sp : string) :
  all_spaces sp = true -> free_of ","%char sp = true.
Proof.
  induction sp as [|x sp IH]; simpl; [reflexivity|]. intros H.
  apply andb_true_iff in H as [Hx H]. rewrite (IH H), andb_true_r.
  destruct (Ascii.eqb_spec x ","%char) as [->|]; [discriminate | reflexivity].
Qed.

Lemma prefix_char (c : ascii) (s t : string) :
  first_plain s = true ->
  prefix (String c "") (s ++ t) = prefix (String c "") s.
Proof.
  destruct s as [|x s]; [discriminate|]. intros _. simpl.
  destruct (ascii_dec c x); [|reflexivity].
  now destruct (s ++ t), s.
Qed.

Lemma first_plain_nonempty (s : string) :
  first_plain s = true -> String.eqb s "" = false.
Proof. now destruct s. Qed.

Lemma is_field_inv (s : string) :
  is_field s = true ->
  free_of ","%char s = true /\ first_plain s = true /\ last_plain s = true.
Proof.
  unfold is_field. rewrite !andb_true_iff. tauto.
Qed.

Lemma py_strip_left (sp core : string) :
  all_spaces sp = true -> first_plain core = true -> last_plain core = true ->
  py_strip (sp ++ core) = core.
Proof.
  intros Hsp Hf Hl. rewrite <- (append_nil_r core) at 1.
  now apply py_strip_core.
Qed.

Lemma py_strip_right (core sp : string) :
  all_spaces sp = true -> first_plain core = true -> last_plain core = true ->
  py_strip (core ++ sp) = core.
Proof. intros Hsp Hf Hl. now apply (py_strip_core "" core sp). Qed.

(** A line that holds a website and a name *)
Lemma company_of_line_named (sp1 url sp3 sp4 name sp2 : string) :
  all_spaces sp1 = true -> all_spaces sp2 = true ->
  all_spaces sp3 = true -> all_spaces sp4 = true ->
  is_field url = true -> prefix "#" url = false ->
  is_field name = true ->
  company_of_line (sp1 ++ url ++ sp3 ++ "," ++ sp4 ++ name ++ sp2)
  = Ok (Some (url, Some name)).
Proof.
  intros H1 H2 H3 H4 Hu Hc Hn.
  apply is_field_inv in Hu as (Hu1 & Hu2 & Hu3).
  apply is_field_inv in Hn as (Hn1 & Hn2 & Hn3).
  unfold company_of_line.
  replace (sp1 ++ url ++ sp3 ++ "," ++ sp4 ++ name ++ sp2)
    with (sp1 ++ (url ++ sp3 ++ "," ++ sp4 ++ name) ++ sp2)
    by (now rewrite !append_assoc).
  rewrite py_strip_core; auto using first_plain_app;
    [|repeat apply last_plain_app; exact Hn3].
  rewrite (first_plain_nonempty (url ++ _)) by now apply first_plain_app.
  rewrite (prefix_char "#" url _ Hu2), Hc. cbn [negb andb].
  replace (url ++ sp3 ++ "," ++ sp4 ++ name)
    with ((url ++ sp3) ++ "," ++ sp4 ++ name) by (now rewrite !append_assoc).
  rewrite (py_split_second ","%char "" (url ++ sp3) (sp4 ++ name))
    by (rewrite free_of_app, Hu1; now apply spaces_free_of_comma).
  rewrite (py_split_free ","%char "" (sp4 ++ name))
    by (rewrite free_of_app, Hn1, andb_true_r; now apply spaces_free_of_comma).
  cbn [py_index nth_error bind List.length Nat.ltb Nat.leb].
  now rewrite py_strip_right, py_strip_left.
Qed.

(** A line that holds a website only *)
Lemma company_of_line_unnamed (sp1 url sp2 : string) :
  all_spaces sp1 = true -> all_spaces sp2 = true ->
  is_field url = true -> prefix "#" url = false ->
  company_of_line (sp1 ++ url ++ sp2) = Ok (Some (url, None)).
Proof.
  intros H1 H2 Hu Hc.
  apply is_field_inv in Hu as (Hu1 & Hu2 & Hu3).
  unfold company_of_line.
  rewrite py_strip_core by auto.
  rewrite (first_plain_nonempty url Hu2), Hc. cbn [negb andb].
  rewrite (py_split_free ","%char "" url Hu1).
  cbn [py_index nth_error bind List.length Nat.ltb Nat.leb].
  rewrite <- (append_nil_r url) at 1.
  now rewrite py_strip_right.
Qed.

(** A line that ends with a comma *)
Lemma company_of_line_trailing_comma (sp1 url sp2 : string) :
  all_spaces sp1 = true -> all_spaces sp2 = true ->
  is_field url = true -> prefix "#" url = false ->
  company_of_line (sp1 ++ url ++ "," ++ sp2) = Ok (Some (url, Some "")).
Proof.
  intros H1 H2 Hu Hc.
  apply is_field_inv in Hu as (Hu1 & Hu2 & Hu3).
  unfold company_of_line.
  replace (sp1 ++ url ++ "," ++ sp2) with (sp1 ++ (url ++ ",") ++ sp2)
    by (now rewrite !append_assoc).
  rewrite py_strip_core; auto using first_plain_app;
    [|now apply last_plain_app].
  rewrite (first_plain_nonempty (url ++ _)) by now apply first_plain_app.
  rewrite (prefix_char "#" url _ Hu2), Hc. cbn [negb andb].
  change (py_split "," (url ++ ",")) with (py_split "," (url ++ "," ++ "")).
  rewrite (py_split_second ","%char "" url "" Hu1).
  rewrite py_split_nil.
  cbn [py_index nth_error bind List.length Nat.ltb Nat.leb].
  rewrite <- (append_nil_r url) at 1.
  now rewrite py_strip_right.
Qed.

(** Lines that are skipped: white space only, and comments *)
Lemma company_of_line_skipped (sp1 comment sp2 : string) :
  all_spaces sp1 = true -> all_spaces sp2 = true ->
  last_plain ("#" ++ comment) = true ->
  company_of_line sp1 = Ok None
  /\ company_of_line (sp1 ++ "#" ++ comment ++ sp2) = Ok None.
Proof.
  intros H1 H2 Hl. unfold company_of_line. split.
  - assert (E : py_strip sp1 = "").
    { unfold py_strip.
      assert (El : py_lstrip sp1 = "").
      { unfold py_lstrip. clear H2 Hl.
        assert (G : forall fuel, String.length sp1 <= fuel ->
                                 lstrip_go whitespace fuel sp1 = "").
        { induction sp1 as [|x sp IH]; intros fuel Hf.
          - now destruct fuel.
          - simpl in H1. apply andb_true_iff in H1 as [Hx H1].
            destruct fuel as [|fuel]; [simpl in Hf; lia|].
            cbn [lstrip_go].
            rewrite (proj1 (leading_space_at_space x sp Hx)). cbn [drop].
            apply IH; [exact H1 | simpl in Hf; lia]. }
        now apply G. }
      now rewrite El. }
    now rewrite E.
  - replace (sp1 ++ "#" ++ comment ++ sp2)
      with (sp1 ++ ("#" ++ comment) ++ sp2) by (now rewrite !append_assoc).
    rewrite py_strip_core by auto.
    clear Hl. now destruct comment.
Qed.

(** X19. The lines of the file of companies. A line made of a website, a
    comma and a name, with white space around them, gives the website and
    the name; a line with a website only gives it without a name; a line
    that ends with the comma gives the empty name, not a missing one; a
    line of white space and a line that starts with "#" give nothing. *)
Theorem X19_company_of_a_line
        (sp1 sp2 sp3 sp4 url name comment : string) :
  all_spaces sp1 = true -> all_spaces sp2 = true ->
  all_spaces sp3 = true -> all_spaces sp4 = true ->
  is_field url = true -> prefix "#" url = false ->
  is_field name = true ->
  last_plain ("#" ++ comment) = true ->
  company_of_line (sp1 ++ url ++ sp3 ++ "," ++ sp4 ++ name ++ sp2)
  = Ok (Some (url, Some name))
  /\ company_of_line (sp1 ++ url ++ sp2) = Ok (Some (url, None))
  /\ company_of_line (sp1 ++ url ++ "," ++ sp2) = Ok (Some (url, Some ""))
  /\ company_of_line sp1 = Ok None
  /\ company_of_line (sp1 ++ "#" ++ comment ++ sp2) = Ok None.
Proof.
  intros H1 H2 H3 H4 Hu Hc Hn Hl.
  split; [now apply company_of_line_named|].
  split; [now apply company_of_line_unnamed|].
  split; [now apply company_of_line_trailing_comma|].
  split; now apply (company_of_line_skipped sp1 comment sp2).
Qed.

Lemma read_competitors_lines (companies : list (string * string)) :
  forallb (fun c => is_field (fst c) && negb (prefix "#" (fst c))
                    && is_field (snd c))%bool companies = true ->
  forall done,
    read_competitors (map line_of companies) done
    = Ok (done ++ map (fun c => (fst c, Some (snd c))) companies)%list.
Proof.
  induction companies as [|[u n] rest IH]; intros Hall done.
  - simpl. now rewrite app_nil_r.
  - simpl in Hall. rewrite !andb_true_iff in Hall.
    destruct Hall as [[[Hu Hc] Hn] Hall]. apply negb_true_iff in Hc.
    cbn [map read_competitors]. unfold line_of at 1. cbn [fst snd].
    change (company_of_line (u ++ "," ++ n ++ nl))
      with (company_of_line ("" ++ u ++ "" ++ "," ++ "" ++ n ++ nl)).
    rewrite (company_of_line_named "" u "" "" n nl) by auto.
    cbn [bind]. rewrite (IH Hall). now rewrite <- app_assoc.
Qed.

(** A line without a line break, followed by its line feed, is the first
    line read. *)
Lemma lines_go_line (body rest : string) :
  free_of LF body = true -> free_of CR body = true ->
  forall cur,
    lines_go cur (body ++ nl ++ rest)
    = (rev cur ++ body ++ nl) :: lines_go "" rest.
Proof.
  induction body as [|c body IH]; intros Hlf Hcr cur.
  - cbn [append nl lines_go]. rewrite Ascii.eqb_refl.
    now rewrite rev_cons.
  - simpl in Hlf, Hcr.
    apply andb_true_iff in Hlf as [Hc1 Hlf]. apply negb_true_iff in Hc1.
    apply andb_true_iff in Hcr as [Hc2 Hcr]. apply negb_true_iff in Hc2.
    change (String c body ++ nl ++ rest) with (String c (body ++ nl ++ rest)).
    cbn [lines_go]. rewrite Hc1, Hc2, (IH Hlf Hcr), rev_cons.
    now rewrite append_assoc.
Qed.

Lemma is_line_field_inv (s : string) :
  is_line_field s = true ->
  is_field s = true /\ free_of LF s = true /\ free_of CR s = true.
Proof. unfold is_line_field. rewrite !andb_true_iff. tauto. Qed.

(** The file written with one line per company is read line by line. *)
Lemma file_lines_written (companies : list (string * string)) :
  forallb (fun c => is_line_field (fst c) && is_line_field (snd c))%bool
          companies = true ->
  file_lines (file_of companies) = map line_of companies.
Proof.
  unfold file_lines, file_of.
  induction companies as [|[u n] rest IH]; intros Hall; [reflexivity|].
  simpl in Hall. rewrite !andb_true_iff in Hall.
  destruct Hall as [[Hu Hn] Hall].
  apply is_line_field_inv in Hu as (_ & Hu1 & Hu2).
  apply is_line_field_inv in Hn as (_ & Hn1 & Hn2).
  cbn [map]. rewrite concat_cons. unfold line_of at 1. cbn [fst snd].
  replace ((u ++ "," ++ n ++ nl) ++ String.concat "" (map line_of rest))
    with ((u ++ "," ++ n) ++ nl ++ String.concat "" (map line_of rest))
    by (now rewrite !append_assoc).
  rewrite lines_go_line.
  - rewrite (IH Hall). cbn [rev rev_onto append]. unfold line_of at 2.
    cbn [fst snd]. now rewrite !append_assoc.
  - rewrite free_of_app, Hu1. cbn [free_of andb]. exact Hn1.
  - rewrite free_of_app, Hu2. cbn [free_of andb]. exact Hn2.
Qed.

(** X20. A file written with one "website,name" line per company, the
    websites and the names holding no line break, reads back as the list
    of the companies, in the order of the lines, each with its name: the
    lines read are the lines written, no line is lost, none is split in
    two. *)
Theorem X20_file_of_companies_reads_back (companies : list (string * string)) :
  forallb (fun c => is_line_field (fst c) && negb (prefix "#" (fst c))
                    && is_line_field (snd c))%bool companies = true ->
  file_lines (file_of companies) = map line_of companies
  /\ read_file (file_of companies)
     = Ok (map (fun c => (fst c, Some (snd c))) companies).
Proof.
  intros Hall.
  assert (Hlines : forallb (fun c => is_line_field (fst c)
                                     && is_line_field (snd c))%bool
                           companies = true).
  { rewrite forallb_forall in *. intros c Hc. specialize (Hall c Hc).
    rewrite !andb_true_iff in *. tauto. }
  assert (Hfields : forallb (fun c => is_field (fst c)
                                      && negb (prefix "#" (fst c))
                                      && is_field (snd c))%bool
                            companies = true).
  { rewrite forallb_forall in *. intros c Hc. specialize (Hall c Hc).
    rewrite !andb_true_iff in *. destruct Hall as [[Hu Hh] Hn].
    apply is_line_field_inv in Hu as (Hu & _).
    apply is_line_field_inv in Hn as (Hn & _). tauto. }
  split; [exact (file_lines_written companies Hlines)|].
  unfold read_file. rewrite (file_lines_written companies Hlines).
  exact (read_competitors_lines companies Hfields []).
Qed.

(* ===================================================================== *)
(** * The errors of the renderer and the keys of the fallback *)
(* ===================================================================== *)

Lemma bind_Raise_inv {A B : Type} (c : result A) (k : A -> result B) (e : exn) :
  bind c k = Raise e -> c = Raise e \/ exists a, c = Ok a /\ k a = Raise e.
Proof.
  destruct c as [a|e0]; simpl; [eauto|].
  intros H. left. now injection H as ->.
Qed.

Section RendererErrors.
Context {rt : Runtime}.

Lemma fill_template_total (kwargs : list (string * json)) :
  map fst kwargs = slot_names ->
  exists html, fill kwargs HTML_TEMPLATE_segments = Ok html.
Proof.
  intros Hnames. apply fill_total. rewrite Hnames. vm_compute. reflexivity.
Qed.

Lemma format_after_args (date : string) (data : json)
      (kwargs : list (string * json)) :
  template_args date data = Ok kwargs ->
  exists html,
    py_format HTML_TEMPLATE kwargs = Ok html
    /\ format_html_from_json date data = Ok html.
Proof.
  intros Hk.
  destruct (template_args_slots _ _ _ Hk) as [Hnames _].
  destruct (fill_template_total kwargs Hnames) as [html Hhtml].
  exists html.
  assert (Hf : py_format HTML_TEMPLATE kwargs = Ok html).
  { unfold py_format. now rewrite parse_HTML_TEMPLATE. }
  split; [exact Hf|].
  unfold format_html_from_json. now rewrite Hk.
Qed.

(** X22. Filling the template never fails: once the renderer has computed
    its seventeen arguments from the record, [HTML_TEMPLATE.format] returns
    a page. The template parses (the braces of its style sheet are all
    doubled) and names no field that the renderer does not pass, so that it
    raises neither [ValueError] nor [KeyError]. *)
Theorem X22_filling_the_template_never_fails
        (date : string) (data : json) (kwargs : list (string * json)) :
  template_args date data = Ok kwargs ->
  exists html,
    py_format HTML_TEMPLATE kwargs = Ok html
    /\ format_html_from_json date data = Ok html.
Proof. apply format_after_args. Qed.

Lemma py_get_raises (v : json) (key : string) (default : json) (e : exn) :
  py_get v key default = Raise e -> renderer_error (exn_cls e) = true.
Proof. destruct v; simpl; intros H; inversion H; reflexivity. Qed.

Lemma py_iter_raises (v : json) (e : exn) :
  py_iter v = Raise e -> renderer_error (exn_cls e) = true.
Proof. destruct v; simpl; intros H; inversion H; reflexivity. Qed.

Lemma py_values_raises (v : json) (e : exn) :
  py_values v = Raise e -> renderer_error (exn_cls e) = true.
Proof. destruct v; simpl; intros H; inversion H; reflexivity. Qed.

Lemma for_append_raises (f : json -> result string) (xs : list json) :
  (forall x e, f x = Raise e -> renderer_error (exn_cls e) = true) ->
  forall html e,
    for_append f xs html = Raise e -> renderer_error (exn_cls e) = true.
Proof.
  intros Hf. induction xs as [|x xs IH]; intros html e H; [discriminate|].
  simpl in H. apply bind_Raise_inv in H as [H | (piece & _ & H)];
    [exact (Hf x e H) | exact (IH _ e H)].
Qed.

Ltac raise_step H :=
  apply bind_Raise_inv in H as [H | (? & _ & H)];
  [ first [ exact (py_get_raises _ _ _ _ H)
          | exact (py_iter_raises _ _ H)
          | exact (py_values_raises _ _ H) ] | ].

Lemma product_card_raises (x : json) (e : exn) :
  product_card x = Raise e -> renderer_error (exn_cls e) = true.
Proof.
  unfold product_card. intros H. repeat raise_step H. discriminate.
Qed.

Lemma news_card_raises (x : json) (e : exn) :
  news_card x = Raise e -> renderer_error (exn_cls e) = true.
Proof.
  unfold news_card. intros H. repeat raise_step H. discriminate.
Qed.

Lemma _format_products_raises (v : json) (e : exn) :
  _format_products v = Raise e -> renderer_error (exn_cls e) = true.
Proof.
  unfold _format_products. destruct (negb (truthy v)); [discriminate|].
  intros H. apply bind_Raise_inv in H as [H | (items & _ & H)];
    [exact (py_iter_raises _ _ H)|].
  apply bind_Raise_inv in H as [H | (html & _ & H)]; [|discriminate].
  exact (for_append_raises product_card items product_card_raises _ e H).
Qed.

Lemma _format_news_raises (v : json) (e : exn) :
  _format_news v = Raise e -> renderer_error (exn_cls e) = true.
Proof.
  unfold _format_news. destruct (negb (truthy v)); [discriminate|].
  intros H. apply bind_Raise_inv in H as [H | (items & _ & H)];
    [exact (py_iter_raises _ _ H)|].
  exact (for_append_raises news_card items news_card_raises _ e H).
Qed.

Lemma _format_competitors_raises (v : json) (e : exn) :
  _format_competitors v = Raise e -> renderer_error (exn_cls e) = true.
Proof.
  unfold _format_competitors. destruct (negb (truthy v)); [discriminate|].
  intros H. apply bind_Raise_inv in H as [H | (items & _ & H)];
    [exact (py_iter_raises _ _ H)|].
  rewrite (comprehension_map competitor_tag tag_fragment) in H by reflexivity.
  discriminate.
Qed.

Lemma _format_list_items_raises (v : json) (css_class : string) (e : exn) :
  _format_list_items v css_class = Raise e ->
  renderer_error (exn_cls e) = true.
Proof.
  unfold _format_list_items. destruct (negb (truthy v)); [discriminate|].
  intros H. apply bind_Raise_inv in H as [H | (items & _ & H)];
    [exact (py_iter_raises _ _ H)|].
  rewrite (comprehension_map (list_item css_class) (item_fragment css_class))
    in H by reflexivity.
  discriminate.
Qed.

Lemma _format_tags_raises (v : json) (e : exn) :
  _format_tags v = Raise e -> renderer_error (exn_cls e) = true.
Proof.
  unfold _format_tags. destruct (negb (truthy v)); [discriminate|].
  intros H. apply bind_Raise_inv in H as [H | (items & _ & H)];
    [exact (py_iter_raises _ _ H)|].
  rewrite (comprehension_map tech_tag tag_fragment) in H by reflexivity.
  discriminate.
Qed.

Lemma _format_social_media_raises (v : json) (e : exn) :
  _format_social_media v = Raise e -> renderer_error (exn_cls e) = true.
Proof.
  unfold _format_social_media. destruct (negb (truthy v)); [discriminate|].
  intros H. apply bind_Raise_inv in H as [H | (values & Hv & H)];
    [exact (py_values_raises _ _ H)|].
  destruct (negb (existsb truthy values)); [discriminate|].
  destruct v; try discriminate Hv.
  rewrite social_links_list in H. discriminate.
Qed.

Lemma template_args_raises (date : string) (data : json) (e : exn) :
  template_args date data = Raise e -> renderer_error (exn_cls e) = true.
Proof.
  unfold template_args. intros H.
  repeat (apply bind_Raise_inv in H as [H | (? & _ & H)];
          [ first [ exact (py_get_raises _ _ _ _ H)
                  | exact (_format_products_raises _ _ H)
                  | exact (_format_competitors_raises _ _ H)
                  | exact (_format_list_items_raises _ _ _ H)
                  | exact (_format_news_raises _ _ H)
                  | exact (_format_tags_raises _ _ H)
                  | exact (_format_social_media_raises _ _ H) ] | ]).
  discriminate.
Qed.

(** X23. Whatever value it is given, the renderer raises nothing but
    [AttributeError] (a value without [.get] or [.values] where an object
    is read) and [TypeError] (a value that cannot be iterated where a list
    is read): never [KeyError], never [ValueError]. *)
Theorem X23_renderer_raises_AttributeError_or_TypeError
        (date : string) (data : json) (e : exn) :
  format_html_from_json date data = Raise e ->
  renderer_error (exn_cls e) = true.
Proof.
  intros H. destruct (template_args date data) as [kwargs|e0] eqn:Hk.
  - destruct (format_after_args date data kwargs Hk) as (html & _ & Hh).
    rewrite Hh in H. discriminate.
  - unfold format_html_from_json in H. rewrite Hk in H. injection H as <-.
    exact (template_args_raises date data e0 Hk).
Qed.
End RendererErrors.

Section FallbackKeys.
Context {rt : Runtime} {env : Env}.

Lemma dict_set_keys {V : Type} (k : json) (v : V) (d : list (json * V)) :
  plain_key k = true ->
  forallb plain_key (map fst d) = true ->
  map fst (dict_set key_eqb k v d)
  = if existsb (key_eqb k) (map fst d) then map fst d
    else (map fst d ++ [k])%list.
Proof.
  intros Hk. induction d as [|[k' v'] d IH]; intros Hd; [reflexivity|].
  simpl in Hd. apply andb_true_iff in Hd as [Hk' Hd]. simpl.
  destruct (key_eqb k k') eqn:E; simpl; [reflexivity|].
  rewrite (IH Hd). now destruct (existsb (key_eqb k) (map fst d)).
Qed.

Lemma existsb_key_In (k : json) (keys : list json) :
  plain_key k = true -> forallb plain_key keys = true ->
  (existsb (key_eqb k) keys = true <-> In k keys).
Proof.
  intros Hk Hkeys. rewrite existsb_exists. split.
  - intros (x & Hin & E). rewrite forallb_forall in Hkeys.
    apply key_eqb_plain in E; [now subst | exact Hk | exact (Hkeys x Hin)].
  - intros Hin. exists k. split; [exact Hin|].
    apply key_eqb_plain; auto.
Qed.

(** The keys after one more assignment: no key twice, the new key
    among them. *)
Lemma dict_set_keys_spec {V : Type} (k : json) (v : V) (d : list (json * V)) :
  plain_key k = true ->
  forallb plain_key (map fst d) = true ->
  NoDup (map fst d) ->
  NoDup (map fst (dict_set key_eqb k v d))
  /\ (forall x, In x (map fst (dict_set key_eqb k v d))
                <-> x = k \/ In x (map fst d)).
Proof.
  intros Hk Hd Hnd. rewrite (dict_set_keys k v d Hk Hd).
  destruct (existsb (key_eqb k) (map fst d)) eqn:E.
  - apply (existsb_key_In k _ Hk Hd) in E. split; [exact Hnd|].
    intros x. split; [auto|]. intros [-> | H]; auto.
  - assert (Hnot : ~ In k (map fst d)).
    { intros Hin. apply (existsb_key_In k _ Hk Hd) in Hin. congruence. }
    split.
    + apply NoDup_app;
        [exact Hnd | constructor; [intros [] | constructor] |].
      intros x Hx [<- | []]. contradiction.
    + intros x. rewrite in_app_iff. simpl. intuition (subst; auto).
Qed.

Lemma fallback_loop_keys (total : nat)
      (companies : list (string * option string)) :
  forall (i : nat) (results results' : list (json * string)) (w w' : World),
    forallb plain_key (map fst results) = true ->
    NoDup (map fst results) ->
    fallback_loop total i companies results w = (Ok results', w') ->
    NoDup (map fst results')
    /\ (forall k, In k (map fst results')
                  <-> In k (map fst results)
                      \/ In k (map (fun c => name_key (snd c)) companies)).
Proof.
  induction companies as [|[url name] rest IH];
    intros i results results' w w' Hplain Hnd Hrun.
  - simpl in Hrun. unfold mret in Hrun. injection Hrun as <- <-.
    split; [exact Hnd|]. intros k. simpl. tauto.
  - rewrite fallback_loop_cons in Hrun.
    destruct (analyze_competitor url name (announced total i name w))
      as [[html|e] w1].
    + destruct (dict_set_keys_spec (name_key name) html results
                  (plain_name_key name) Hplain Hnd) as [Hnd1 Hin1].
      destruct (IH _ _ _ _ _
                  (plain_dict_set _ html _ (plain_name_key name) Hplain)
                  Hnd1 Hrun) as [Hnd' Hin'].
      split; [exact Hnd'|]. intros k. rewrite Hin', Hin1. simpl.
      intuition (subst; auto).
    + destruct (dict_set_keys_spec (name_key name)
                  (_create_error_report name (exn_str e)) results
                  (plain_name_key name) Hplain Hnd) as [Hnd1 Hin1].
      destruct (IH _ _ _ _ _
                  (plain_dict_set _ (_create_error_report name (exn_str e)) _
                                  (plain_name_key name) Hplain)
                  Hnd1 Hrun) as [Hnd' Hin'].
      split; [exact Hnd'|]. intros k. rewrite Hin', Hin1. simpl.
      intuition (subst; auto).
Qed.

(** X21. The mapping of the fallback has one entry per distinct display
    name, not one per company: its keys are the names of the companies
    (the key [None] for every company without a name), each once, so that
    companies that share a name, or that have none, share an entry and the
    mapping has at most as many entries as there are companies. The
    fallback returns it without raising. *)
Theorem X21_fallback_has_one_entry_per_distinct_name
        (companies : list (string * option string)) (w : World) :
  exists results w',
    _fallback_individual_analysis companies w = (Ok results, w')
    /\ NoDup (map fst results)
    /\ (forall k, In k (map fst results)
                  <-> In k (map (fun c => name_key (snd c)) companies))
    /\ List.length results <= List.length companies.
Proof.
  unfold _fallback_individual_analysis, mbind at 1. rewrite print_run.
  match goal with
  | |- context [fallback_loop ?t ?i ?cs ?r ?w0] =>
      destruct (fallback_loop_total t cs i r w0) as (results & w' & Hrun);
      destruct (fallback_loop_keys t cs i r results w0 w' eq_refl
                                   (NoDup_nil _) Hrun) as [Hnd Hin]
  end.
  exists results, w'. split; [exact Hrun|]. split; [exact Hnd|].
  assert (Hkeys : forall k, In k (map fst results)
                            <-> In k (map (fun c => name_key (snd c)) companies)).
  { intros k. rewrite Hin. simpl. tauto. }
  split; [exact Hkeys|].
  rewrite <- (length_map fst results),
          <- (length_map (fun c => name_key (snd c)) companies).
  apply NoDup_incl_length; [exact Hnd|].
  intros k Hk. now apply Hkeys.
Qed.
End FallbackKeys.

(* ===================================================================== *)
(** * The further properties on example inputs *)
(* ===================================================================== *)

Section FurtherExamples.
#[local] Existing Instance CPython.runtime.

Lemma X1_annotated_record_example :
  format_html_from_json "2024-12-01" (JObj MoreExamples.annotated)
  = format_html_from_json "2024-12-01" (JObj MoreExamples.plain).
Proof.
  apply X1_render_reads_only_its_twelve_fields.
  intros key Hin. unfold read_keys in Hin. simpl in Hin.
  repeat (destruct Hin as [<- | Hin]; [reflexivity|]). contradiction.
Defined.

Lemma X2_null_overview_example :
  format_html_from_json "2024-12-01" MoreExamples.null_overview
  = Raise (Exn AttributeError "'NoneType' object has no attribute 'get'").
Proof.
  apply (X2_non_object_overview_or_market_position_raises
           "2024-12-01" MoreExamples.null_overview JNull "overview").
  - simpl. tauto.
  - reflexivity.
  - reflexivity.
  - reflexivity.
Defined.

Lemma X3_markup_name_example :
  exists html,
    format_html_from_json "2024-12-01" MoreExamples.markup_name = Ok html
    /\ py_in "<title>Competitor Analysis - <b>Acme</b></title>" html = true.
Proof.
  destruct (format_html_from_json "2024-12-01" MoreExamples.markup_name)
    as [html|e] eqn:H; [|vm_compute in H; discriminate].
  exists html. split; [reflexivity|].
  apply (X3_company_name_is_inserted_verbatim
           "2024-12-01" MoreExamples.markup_name "<b>Acme</b>" html H).
  reflexivity.
Defined.

Lemma X4_string_among_products_example :
  _format_products (JList [JObj [("name", JStr "Cloud Platform")]; JStr "oops"])
  = Raise (Exn AttributeError "'str' object has no attribute 'get'")
  /\ _format_news (JList [JObj [("name", JStr "Cloud Platform")]; JStr "oops"])
     = Raise (Exn AttributeError "'str' object has no attribute 'get'").
Proof.
  apply (X4_non_object_element_raises MoreExamples.one_product (JStr "oops") []).
  reflexivity.
Defined.

Lemma X5_string_and_number_example :
  _format_tags (JStr "AWS")
  = Ok (q "<span class=^tag^>A</span><span class=^tag^>W</span><span class=^tag^>S</span>")
  /\ _format_tags (JInt 5)
     = Raise (Exn TypeError "'int' object is not iterable").
Proof.
  destruct (X5_scalar_in_place_of_a_list "AWS" (JInt 5))
    as (H1 & _ & H3 & _); [discriminate | reflexivity |].
  split; [exact H1 | exact H3].
Defined.

Lemma X6_two_links_example :
  _format_social_media (JObj MoreExamples.two_links)
  = Ok ("<ul style='list-style: none; padding: 0;'>"
          ++ social_link MoreExamples.two_links
               (nth 0 platforms ("", ("", "")))
          ++ social_link MoreExamples.two_links
               (nth 2 platforms ("", ("", "")))
          ++ "</ul>").
Proof.
  destruct (X6_social_links_follow_the_platform_table MoreExamples.two_links)
    as (H & _ & _); [reflexivity|].
  rewrite H. vm_compute. reflexivity.
Defined.

Lemma X7_instagram_only_example :
  _format_social_media (JObj MoreExamples.instagram_only)
  = Ok "<ul style='list-style: none; padding: 0;'></ul>".
Proof.
  apply X7_unknown_platforms_give_an_empty_list; [reflexivity|].
  intros key Hin. simpl in Hin.
  repeat (destruct Hin as [<- | Hin]; [reflexivity|]). contradiction.
Defined.

Lemma X9_fenced_block_example :
  fenced_text ("Here it is: ```json" ++ nl ++ "[1]" ++ nl ++ "``` Done.")
  = Ok (nl ++ "[1]" ++ nl)
  /\ fenced_text ("Here it is: ```json" ++ nl ++ "[1]" ++ nl)
     = Ok (nl ++ "[1]" ++ nl)
  /\ fenced_text ("Here it is: ```" ++ nl ++ "[1]" ++ nl ++ "``` Done.")
     = Ok (nl ++ "[1]" ++ nl).
Proof.
  destruct (X9_fenced_block_is_extracted
              "Here it is: " (nl ++ "[1]" ++ nl) " Done.")
    as (H1 & H2 & H3); try reflexivity.
  split; [exact H1|]. split; [exact H2|]. apply H3; reflexivity.
Defined.

Lemma X11_object_response_example :
  fst (analyze_competitor (env := MoreExamples.object_service)
         "https://acme.example" (Some "Acme") initial_world)
  = format_html_from_json "2024-12-01" (JObj [("company_name", JStr "Acme")]).
Proof.
  destruct (X11_single_analysis_renders_what_it_decodes
              (env := MoreExamples.object_service)
              "https://acme.example" (Some "Acme") initial_world
              (snd (request_analysis (env := MoreExamples.object_service)
                      "https://acme.example" (Some "Acme") initial_world))
              Examples.single_object
              (JObj [("company_name", JStr "Acme")]))
    as (w2 & _ & H); [vm_compute; reflexivity | vm_compute; reflexivity |].
  exact H.
Defined.

Lemma X12_array_response_example :
  fst (analyze_competitor (env := Examples.empty_array_service)
         "https://acme.example" (Some "Acme") initial_world)
  = Raise (Exn AttributeError "'list' object has no attribute 'get'").
Proof.
  destruct (X12_non_object_response_raises_AttributeError
              (env := Examples.empty_array_service)
              "https://acme.example" (Some "Acme") initial_world
              (snd (request_analysis (env := Examples.empty_array_service)
                      "https://acme.example" (Some "Acme") initial_world))
              "[]" (JList []))
    as [H _]; [vm_compute; reflexivity | vm_compute; reflexivity | reflexivity |].
  exact H.
Defined.

Lemma X14_two_reports_example :
  exists results w',
    analyze_multiple_competitors (env := MoreExamples.two_reports_service)
      Examples.acme_alone initial_world = (Ok results, w')
    /\ List.length (sent w') = 1
    /\ Forall2 (fun d entry => fst entry = response_key d
                               /\ rendering_of d (snd entry))
               [JObj [("company_name", JStr "A")];
                JObj [("company_name", JStr "B")]]
               results.
Proof.
  apply (X14_batch_entries_follow_the_response
           (env := MoreExamples.two_reports_service)
           Examples.acme_alone
           (q "[{^company_name^: ^A^}, {^company_name^: ^B^}]")
           [JObj [("company_name", JStr "A")]; JObj [("company_name", JStr "B")]]
           initial_world
           (snd (request_batch (env := MoreExamples.two_reports_service)
                   Examples.acme_alone initial_world))).
  - vm_compute. reflexivity.
  - vm_compute. reflexivity.
  - reflexivity.
  - repeat constructor; simpl; intuition discriminate.
Defined.

Lemma X15_number_in_batch_example :
  fst (analyze_multiple_competitors (env := MoreExamples.broken_batch_service)
         Examples.two_companies initial_world)
  = Raise (Exn AttributeError "'int' object has no attribute 'get'")
  /\ List.length
       (sent (snd (analyze_multiple_competitors
                     (env := MoreExamples.broken_batch_service)
                     Examples.two_companies initial_world))) = 1.
Proof.
  apply (X15_non_object_batch_element_escapes
           (env := MoreExamples.broken_batch_service)
           Examples.two_companies (q "[{^company_name^: ^A^}, 7]")
           [JObj [("company_name", JStr "A")]] [] (JInt 7) initial_world
           (snd (request_batch (env := MoreExamples.broken_batch_service)
                   Examples.two_companies initial_world))).
  - vm_compute. reflexivity.
  - vm_compute. reflexivity.
  - reflexivity.
  - reflexivity.
Defined.

Lemma X16_two_companies_fallback_example :
  exists results w',
    analyze_multiple_competitors (env := Examples.chatty_service)
      Examples.two_companies initial_world = (Ok results, w')
    /\ List.length (sent w') = 3.
Proof.
  apply (X16_fallback_costs_one_call_per_company
           (env := Examples.chatty_service)
           Examples.two_companies "hello"
           (Exn JSONDecodeError "Expecting value: line 1 column 1 (char 0)")
           initial_world
           (snd (request_batch (env := Examples.chatty_service)
                   Examples.two_companies initial_world))).
  - vm_compute. reflexivity.
  - vm_compute. reflexivity.
Defined.

Lemma X17_batch_prompt_example :
  nth_error (company_lines 0 Examples.two_companies) 1
  = Some "2. B - https://b.com".
Proof.
  destruct (X17_batch_prompt_text (env := Examples.chatty_service)
              Examples.two_companies initial_world)
    as (_ & _ & H); [reflexivity|].
  apply (H 1 "https://b.com" (Some "B")). reflexivity.
Defined.

Lemma X18_ten_companies_example :
  _calculate_savings_binary64 10 = Ok 90%Z
  /\ _calculate_savings 10 = _calculate_savings_binary64 10
  /\ (10 - 1) * 100 / 10 <= 99.
Proof. apply (X18_savings_are_the_exact_percentage 10). lia. Defined.

Lemma X19_lines_example :
  company_of_line ("  https://a.com , A" ++ nl) = Ok (Some ("https://a.com", Some "A"))
  /\ company_of_line ("  https://a.com" ++ nl) = Ok (Some ("https://a.com", None))
  /\ company_of_line ("  https://a.com," ++ nl) = Ok (Some ("https://a.com", Some ""))
  /\ company_of_line "  " = Ok None
  /\ company_of_line ("  # Payment Processing Competitors" ++ nl) = Ok None.
Proof.
  apply (X19_company_of_a_line "  " nl " " " " "https://a.com" "A"
           " Payment Processing Competitors"); reflexivity.
Defined.

Lemma X20_sample_file_example :
  file_lines ("https://www.stripe.com,Stripe" ++ nl
              ++ "https://www.square.com,Square" ++ nl)
  = ["https://www.stripe.com,Stripe" ++ nl;
     "https://www.square.com,Square" ++ nl]
  /\ read_file ("https://www.stripe.com,Stripe" ++ nl
                ++ "https://www.square.com,Square" ++ nl)
     = Ok [("https://www.stripe.com", Some "Stripe");
           ("https://www.square.com", Some "Square")].
Proof.
  apply (X20_file_of_companies_reads_back MoreExamples.sample_companies).
  reflexivity.
Defined.

Lemma X22_sparse_record_example :
  exists html, format_html_from_json "2024-12-01" Examples.sparse = Ok html.
Proof.
  destruct (template_args "2024-12-01" Examples.sparse) as [kwargs|e] eqn:H;
    [|vm_compute in H; discriminate].
  destruct (X22_filling_the_template_never_fails _ _ _ H) as (html & _ & Hh).
  now exists html.
Defined.

Lemma X23_null_overview_error_example :
  renderer_error
    (exn_cls (Exn AttributeError "'NoneType' object has no attribute 'get'"))
  = true.
Proof.
  apply (X23_renderer_raises_AttributeError_or_TypeError
           "2024-12-01" MoreExamples.null_overview).
  vm_compute. reflexivity.
Defined.
(** Floats in a decoded record: the page shows a float by the shortest
    digits that read back as it, and takes one that rounds to zero for a
    missing value. *)
Example floats_in_a_record :
  exists data kwargs,
    json_loads MoreExamples.record_with_floats = Ok data
    /\ template_args "2024-12-01" data = Ok kwargs
    /\ dict_get String.eqb "founded_year" kwargs = Some (JStr "N/A")
    /\ option_map py_str (dict_get String.eqb "size" kwargs) = Some "12.5"
    /\ option_map py_str (dict_get String.eqb "market_share" kwargs)
       = Some "10.0".
Proof.
  eexists. eexists. split; [vm_compute; reflexivity|].
  split; [vm_compute; reflexivity|].
  repeat split; vm_compute; reflexivity.
Qed.

(** Numbers that are equal are one key of the result, whatever their types:
    the second record replaces the page of the first under the first key. *)
Example equal_numbers_are_one_key :
  exists page,
    fst (complete_batch (env := Examples.chatty_service)
           Examples.two_companies MoreExamples.numbered_records initial_world)
    = Ok [(JFloat "1.0", page)]
    /\ py_in "<h2>1</h2>" page = true
    /\ py_in "<h2>1.0</h2>" page = false.
Proof.
  eexists. split; [vm_compute; reflexivity|].
  split; vm_compute; reflexivity.
Qed.

(** The reference runtime on floats. *)
Example floats_of_the_reference_runtime :
  CPython.repr (JList [JFloat "1e16"; JFloat "1E15"; JFloat "0.00001";
                       JFloat "-0.0"; JFloat "1e999"; JFloat "NaN";
                       JFloat "0.1000000000000000055"])
  = "[1e+16, 1000000000000000.0, 1e-05, -0.0, inf, nan, 0.1]"
  /\ CPython.literal_is_zero "0.0e7" = true
  /\ CPython.literal_is_zero "4.9e-324" = false
  /\ CPython.literal_eqb "1.00" (JFloat "1.0") = true
  /\ CPython.literal_eqb "1.0" (JBool true) = true
  /\ CPython.literal_eqb "9007199254740993.0" (JInt 9007199254740993) = false
  /\ CPython.literal_eqb "9007199254740993.0" (JInt 9007199254740992) = true.
Proof. repeat split; vm_compute; reflexivity. Qed.

End FurtherExamples.
